(** * Poker table engine: game_logic.py and api/games.py

    A shallow embedding of the deck helpers, the position resolver
    ([get_player_positions]), and the hand start-up and seat-joining code,
    with the properties the specification states about them. *)

From Stdlib Require Import List ZArith Lia String Ascii Bool Arith.
From Stdlib Require Import Permutation Sorted FinFun.
Import ListNotations.

Local Open Scope string_scope.
Local Open Scope Z_scope.

(** ** Exceptions and results *)

(** The exceptions the modelled code can raise.  [HTTPException] carries the
    status code and the detail text. *)
Inductive exn : Type :=
| ZeroDivisionError
| IndexError (what : string)
| TypeError (what : string)
| APIError
| GenericException (msg : string)
| HTTPException (status_code : Z) (detail : string).

Inductive result (A : Type) : Type :=
| Ok (a : A)
| Raise (e : exn).
Arguments Ok {A} a.
Arguments Raise {A} e.

(** ** The random source

    [random] is the interpreter's generator.  It is modelled as a stream of
    draws with a cursor, one draw for each number the generator hands out:
    [randbelow n] takes the next draw and reduces it below [n].  The bits the
    interpreter's [_randbelow] draws and rejects before it accepts a number
    are not modelled, so the cursor counts the numbers handed out, and every
    run of the program is the run of the model on some stream.  Which
    streams the interpreter's generator can produce is left open. *)
Record Rng : Type := mkRng { draws : nat -> nat; cursor : nat }.

Definition randbelow (n : nat) (r : Rng) : nat * Rng :=
  (Nat.modulo (draws r (cursor r)) n,
   {| draws := draws r; cursor := S (cursor r) |}).

Module GameLogic.

(** *** Deck *)

Definition Card := string.

Definition SUITS : list string := ["H"; "D"; "C"; "S"].
Definition RANKS : list string :=
  ["2"; "3"; "4"; "5"; "6"; "7"; "8"; "9"; "T"; "J"; "Q"; "K"; "A"].

(** [[rank + suit for suit in SUITS for rank in RANKS]] *)
Definition create_deck : list Card :=
  flat_map (fun suit => map (fun rank => rank ++ suit)%string RANKS) SUITS.

(** [x[i] = v] on a list; used only with [i] in range. *)
Fixpoint set_nth {A : Type} (i : nat) (v : A) (x : list A) : list A :=
  match x, i with
  | [], _ => []
  | _ :: t, O => v :: t
  | h :: t, S i' => h :: set_nth i' v t
  end.

(** [x[i], x[j] = x[j], x[i]]: both reads happen before both writes.  Out of
    range the list is left as it is (the shuffle never gets there). *)
Definition swap {A : Type} (i j : nat) (x : list A) : list A :=
  match nth_error x i, nth_error x j with
  | Some xi, Some xj => set_nth j xi (set_nth i xj x)
  | _, _ => x
  end.

(** The body of [random.shuffle]:
    [for i in reversed(range(1, len(x))): j = randbelow(i + 1); swap].
    [shuffle_from i] runs the iterations [i, i-1, ..., 1]. *)
Fixpoint shuffle_from {A : Type} (i : nat) (x : list A) (r : Rng)
  : list A * Rng :=
  match i with
  | O => (x, r)
  | S i' =>
      let (j, r') := randbelow (S i) r in
      shuffle_from i' (swap i j x) r'
  end.

Definition random_shuffle {A : Type} (x : list A) (r : Rng) : list A * Rng :=
  shuffle_from (Nat.pred (List.length x)) x r.

(** [shuffle_deck] shuffles in place and returns the same list. *)
Definition shuffle_deck (deck : list Card) (r : Rng) : list Card * Rng :=
  random_shuffle deck r.

(** *** Players *)

(** A player dictionary as [start_game] selects it from the seats table:
    [id, user_id, seat_number, status, chip_count].  [status] is read with
    [.get], so it may be absent. *)
Record Player : Type := mkPlayer {
  id : Z;
  user_id : string;
  seat_number : Z;
  status : option string;
  chip_count : Z
}.

(** [p.get('status') == 'playing'] *)
Definition is_playing (p : Player) : bool :=
  match status p with
  | Some s => String.eqb s "playing"
  | None => false
  end.

(** [sorted(..., key=lambda x: x['seat_number'])]: a stable sort; an element
    is placed before the first element whose key is not smaller. *)
Fixpoint insert_by_seat (p : Player) (l : list Player) : list Player :=
  match l with
  | [] => [p]
  | q :: t =>
      if seat_number p <=? seat_number q then p :: q :: t
      else q :: insert_by_seat p t
  end.

Fixpoint sorted_by_seat (l : list Player) : list Player :=
  match l with
  | [] => []
  | p :: t => insert_by_seat p (sorted_by_seat t)
  end.

Definition active_players (players : list Player) : list Player :=
  sorted_by_seat (filter is_playing players).

Definition player_seats (players : list Player) : list Z :=
  map seat_number (active_players players).

(** [list.index]: position of the first occurrence, [None] for [ValueError]. *)
Fixpoint index (v : Z) (l : list Z) : option nat :=
  match l with
  | [] => None
  | h :: t => if h =? v then Some O else option_map S (index v t)
  end.

Definition dealer_index_of (seats : list Z) (dealer_seat : Z) : nat :=
  match index dealer_seat seats with
  | Some i => i
  | None => O
  end.

(** [a % n] on non-negative integers. *)
Definition py_mod (a n : nat) : result nat :=
  match n with
  | O => Raise ZeroDivisionError
  | _ => Ok (Nat.modulo a n)
  end.

(** [l[i]] *)
Definition getitem (l : list Z) (i : nat) : result Z :=
  match nth_error l i with
  | Some v => Ok v
  | None => Raise (IndexError "list index out of range")
  end.

Definition rbind {A B : Type} (m : result A) (k : A -> result B) : result B :=
  match m with
  | Ok a => k a
  | Raise e => Raise e
  end.

Notation "x <-r m ; k" := (rbind m (fun x => k))
  (at level 61, m at next level, right associativity).

Definition get_player_positions (players : list Player) (dealer_seat : Z)
  : result (Z * Z * Z) :=
  let seats := player_seats players in
  let dealer_index := dealer_index_of seats dealer_seat in
  let n := List.length seats in
  if Nat.eqb n 2 then
    sb_seat <-r getitem seats dealer_index ;
    i <-r py_mod (dealer_index + 1) n ;
    bb_seat <-r getitem seats i ;
    Ok (sb_seat, bb_seat, sb_seat)
  else
    sb_index <-r py_mod (dealer_index + 1) n ;
    bb_index <-r py_mod (dealer_index + 2) n ;
    utg_index <-r py_mod (dealer_index + 3) n ;
    sb_seat <-r getitem seats sb_index ;
    bb_seat <-r getitem seats bb_index ;
    utg_seat <-r getitem seats utg_index ;
    Ok (sb_seat, bb_seat, utg_seat).

End GameLogic.

(** ** models.py *)

Module Models.

(** [GameSettings]: the [settings] JSON object of a row of the games table. *)
Record GameSettings : Type := mkSettings {
  game_name : string;
  buy_in : Z;
  small_blind : Z;
  big_blind : Z;
  use_real_chips : bool;
  max_players : Z
}.

End Models.

(** ** The database

    The three tables the endpoints touch, as lists of rows in insertion
    order.  The client calls are modelled as the SQL they issue:
    [update(..).eq(col, v)] rewrites every row whose column equals [v],
    [select(..).eq(col, v)] returns the matching rows in table order,
    [single()] fails unless exactly one row matches, and [insert] appends a
    row under a fresh serial id. *)

Module Database.
Import GameLogic Models.

Record GameRow : Type := mkGame {
  g_id : Z;
  g_game_code : string;
  g_host_id : string;
  g_status : string;
  g_settings : GameSettings
}.

Record GameStateRow : Type := mkGameState {
  gs_game_id : Z;
  dealer_position : option Z;
  pot_size : Z;
  current_bet : Z;
  community_cards : list Card;
  current_player_turn : option string
}.

Record SeatRow : Type := mkSeat {
  s_id : Z;
  s_game_id : Z;
  s_user_id : string;
  s_seat_number : Z;
  s_chip_count : Z;
  s_status : option string;
  s_cards : option (list Card)
}.

Record Db : Type := mkDb {
  games : list GameRow;
  game_state : list GameStateRow;
  seats : list SeatRow
}.

(** [select("id, user_id, seat_number, status, chip_count")] *)
Definition player_of_row (r : SeatRow) : Player :=
  {| id := s_id r; user_id := s_user_id r; seat_number := s_seat_number r;
     status := s_status r; chip_count := s_chip_count r |}.

Definition seats_of_game (gid : Z) (d : Db) : list SeatRow :=
  filter (fun r => s_game_id r =? gid) (seats d).

Definition games_with_code (code : string) (d : Db) : list GameRow :=
  filter (fun g => String.eqb (g_game_code g) code) (games d).

Definition set_cards (cards : list Card) (r : SeatRow) : SeatRow :=
  {| s_id := s_id r; s_game_id := s_game_id r; s_user_id := s_user_id r;
     s_seat_number := s_seat_number r; s_chip_count := s_chip_count r;
     s_status := s_status r; s_cards := Some cards |}.

Definition set_chip_count (v : Z) (r : SeatRow) : SeatRow :=
  {| s_id := s_id r; s_game_id := s_game_id r; s_user_id := s_user_id r;
     s_seat_number := s_seat_number r; s_chip_count := v;
     s_status := s_status r; s_cards := s_cards r |}.

Definition update_where {A : Type} (sel : A -> bool) (f : A -> A)
  (rows : list A) : list A :=
  map (fun r => if sel r then f r else r) rows.

Definition with_seats (d : Db) (rows : list SeatRow) : Db :=
  {| games := games d; game_state := game_state d; seats := rows |}.

Definition update_seat_cards (pid : Z) (cards : list Card) (d : Db) : Db :=
  with_seats d (update_where (fun r => s_id r =? pid) (set_cards cards) (seats d)).

Definition update_seat_chip_count (pid : Z) (v : Z) (d : Db) : Db :=
  with_seats d (update_where (fun r => s_id r =? pid) (set_chip_count v) (seats d)).

Definition update_game_state (gid : Z) (dealer : Z) (pot bet : Z)
  (community : list Card) (turn : string) (d : Db) : Db :=
  {| games := games d;
     game_state :=
       update_where (fun g => gs_game_id g =? gid)
         (fun g => {| gs_game_id := gs_game_id g;
                      dealer_position := Some dealer;
                      pot_size := pot;
                      current_bet := bet;
                      community_cards := community;
                      current_player_turn := Some turn |})
         (game_state d);
     seats := seats d |}.

Definition update_game_status (gid : Z) (st : string) (d : Db) : Db :=
  {| games :=
       update_where (fun g => g_id g =? gid)
         (fun g => {| g_id := g_id g; g_game_code := g_game_code g;
                      g_host_id := g_host_id g; g_status := st;
                      g_settings := g_settings g |})
         (games d);
     game_state := game_state d;
     seats := seats d |}.

(** A serial key: one more than the largest id in the table. *)
Definition fresh_seat_id (d : Db) : Z :=
  1 + fold_right Z.max 0 (map s_id (seats d)).

Definition insert_seat (gid : Z) (uid : string) (seat chips : Z)
  (st : string) (d : Db) : Db :=
  with_seats d
    (seats d ++
     [ {| s_id := fresh_seat_id d; s_game_id := gid; s_user_id := uid;
          s_seat_number := seat; s_chip_count := chips;
          s_status := Some st; s_cards := None |} ]).

End Database.

(** ** api/games.py *)

Module Games.
Import GameLogic Models Database.

(** The world an endpoint runs in: the database and the random generator. *)
Record World : Type := mkWorld { db : Db; rng : Rng }.

(** Computations that read and write the world and may raise.  Writes made
    before an exception stay. *)
Definition M (A : Type) : Type := World -> result A * World.

Definition ret {A : Type} (a : A) : M A := fun w => (Ok a, w).

Definition raise {A : Type} (e : exn) : M A := fun w => (Raise e, w).

Definition bind {A B : Type} (m : M A) (k : A -> M B) : M B :=
  fun w =>
    match m w with
    | (Ok a, w') => k a w'
    | (Raise e, w') => (Raise e, w')
    end.

Notation "x <- m ;; k" := (bind m (fun x => k))
  (at level 61, m at next level, right associativity).
Notation "' p <- m ;; k" := (bind m (fun x => match x with p => k end))
  (at level 61, p pattern, m at next level, right associativity).
Notation "m ;; k" := (bind m (fun _ => k))
  (at level 61, right associativity).

Definition lift {A : Type} (r : result A) : M A := fun w => (r, w).

Definition query {A : Type} (f : Db -> A) : M A := fun w => (Ok (f (db w)), w).

Definition execute (f : Db -> Db) : M unit :=
  fun w => (Ok tt, {| db := f (db w); rng := rng w |}).

Definition with_random {A : Type} (f : Rng -> A * Rng) : M A :=
  fun w => let (a, r') := f (rng w) in (Ok a, {| db := db w; rng := r' |}).

(** [try: ... except HTTPException as he: raise he
     except Exception as e: raise HTTPException(500, detail)] *)
Definition try_except {A : Type} (body : M A) (detail : string) : M A :=
  fun w =>
    match body w with
    | (Ok a, w') => (Ok a, w')
    | (Raise (HTTPException c d), w') => (Raise (HTTPException c d), w')
    | (Raise _, w') => (Raise (HTTPException 500 detail), w')
    end.

(** [deck.pop()]: removes and returns the last element. *)
Definition list_pop (deck : list Card) : result (Card * list Card) :=
  match rev deck with
  | [] => Raise (IndexError "pop from empty list")
  | c :: below => Ok (c, rev below)
  end.

(** [random.choice(seq)] *)
Definition random_choice (seq : list Z) : M Z :=
  match seq with
  | [] => raise (IndexError "Cannot choose from an empty sequence")
  | _ =>
      i <- with_random (randbelow (List.length seq)) ;;
      lift (getitem seq i)
  end.

(** [next((p for p in players if p['seat_number'] == seat), None)] *)
Definition player_at (players : list Player) (seat : Z) : option Player :=
  find (fun p => seat_number p =? seat) players.

(** Subscripting the value [next] returned: [None[...]] is a [TypeError]. *)
Definition subscript (p : option Player) : M Player :=
  match p with
  | Some q => ret q
  | None => raise (TypeError "'NoneType' object is not subscriptable")
  end.

(** The dealing loop of [start_new_hand]; returns what is left of the deck. *)
Fixpoint deal_cards (players : list Player) (deck : list Card)
  : M (list Card) :=
  match players with
  | [] => ret deck
  | player :: rest =>
      '(c1, deck1) <- lift (list_pop deck) ;;
      '(c2, deck2) <- lift (list_pop deck1) ;;
      execute (update_seat_cards (id player) [c1; c2]) ;;
      deal_cards rest deck2
  end.

Definition start_new_hand (game_id : Z) (players : list Player)
  (settings : GameSettings) : M unit :=
  (* 1. Shuffle deck and deal cards *)
  deck <- with_random (shuffle_deck create_deck) ;;
  deal_cards players deck ;;
  (* 2. Determine dealer position *)
  dealer_seat <- random_choice (map seat_number players) ;;
  (* 3. Blinds and first player to act *)
  '(sb_seat, bb_seat, utg_seat) <-
     lift (get_player_positions players dealer_seat) ;;
  (* 4. Post blinds and update chip counts *)
  let small_blind_amount := small_blind settings in
  let big_blind_amount := big_blind settings in
  sb_player <- subscript (player_at players sb_seat) ;;
  execute (update_seat_chip_count (id sb_player)
             (chip_count sb_player - small_blind_amount)) ;;
  bb_player <- subscript (player_at players bb_seat) ;;
  execute (update_seat_chip_count (id bb_player)
             (chip_count bb_player - big_blind_amount)) ;;
  (* 5. Update the main game_state *)
  let pot := small_blind_amount + big_blind_amount in
  match player_at players utg_seat with
  | None =>
      raise (GenericException "Could not determine the first player to act.")
  | Some utg_player =>
      execute (update_game_state game_id dealer_seat pot big_blind_amount []
                 (user_id utg_player))
  end.

(** [select(..).eq("game_code", code).single().execute()] *)
Definition select_game (game_code : string) : M (option GameRow) :=
  rows <- query (games_with_code game_code) ;;
  match rows with
  | [g] => ret (Some g)
  | _ => raise APIError
  end.

(** [range(a, b)] *)
Definition py_range (a b : Z) : list Z :=
  map (fun k => a + Z.of_nat k) (seq 0 (Z.to_nat (b - a))).

Definition mem (v : Z) (s : list Z) : bool := existsb (Z.eqb v) s.

(** The seat search of [join_game]: the first number of
    [range(1, max_players + 1)] that is not taken, [-1] when there is none. *)
Definition first_available_seat (max_players : Z) (taken_seats : list Z) : Z :=
  match find (fun seat_num => negb (mem seat_num taken_seats))
             (py_range 1 (max_players + 1)) with
  | Some seat_num => seat_num
  | None => -1
  end.

Definition join_player_id : string := "f0e9d8c7-b6a5-4321-fedc-ba9876543210".

Definition join_game (game_code : string) : M Z :=
  let player_id := join_player_id in
  try_except
    (game_res <- select_game game_code ;;
     match game_res with
     | None => raise (HTTPException 404 "Game not found.")
     | Some game =>
         let game_id := g_id game in
         let max_players := max_players (g_settings game) in
         if negb (String.eqb (g_status game) "waiting") then
           raise (HTTPException 403 "Game is already in progress.")
         else
           seats_res <- query (seats_of_game game_id) ;;
           if Z.of_nat (List.length seats_res) >=? max_players then
             raise (HTTPException 403 "Game is full.")
           else if existsb (fun seat => String.eqb (s_user_id seat) player_id)
                     seats_res then
             raise (HTTPException 400 "You are already in this game.")
           else
             let taken_seats := map s_seat_number seats_res in
             let available_seat :=
               first_available_seat max_players taken_seats in
             if available_seat =? -1 then
               raise (HTTPException 500
                 "Could not find an available seat, the game might be full.")
             else
               execute (insert_seat game_id player_id available_seat
                          (buy_in (g_settings game)) "playing") ;;
               ret available_seat
     end)
    "An error occurred while trying to join the game.".

Definition start_host_id : string := "a1b2c3d4-e5f6-7890-1234-567890abcdef".

Definition start_game (game_code : string) : M string :=
  let host_id := start_host_id in
  try_except
    (game_res <- select_game game_code ;;
     match game_res with
     | None => raise (HTTPException 404 "Game not found.")
     | Some game =>
         if negb (String.eqb (g_host_id game) host_id) then
           raise (HTTPException 403 "Only the host can start the game.")
         else if negb (String.eqb (g_status game) "waiting") then
           raise (HTTPException 400 "Game has already started or is finished.")
         else
           seats_res <- query (seats_of_game (g_id game)) ;;
           let players := map player_of_row seats_res in
           if (List.length players <? 2)%nat then
             raise (HTTPException 400
               "Cannot start a game with fewer than 2 players.")
           else
             execute (update_game_status (g_id game) "in_progress") ;;
             start_new_hand (g_id game) players (g_settings game) ;;
             ret "Game started successfully."
     end)
    "An error occurred while starting the game.".

End Games.

(** ** Vocabulary of the specification *)

Module Spec.
Import GameLogic Models Database Games.

(** The seat numbers of the seats with status [playing], in the order the
    players are given. *)
Definition eligible_seats (players : list Player) : list Z :=
  map seat_number (filter is_playing players).

(** The lowest number of a list of seat numbers. *)
Fixpoint lowest (l : list Z) : option Z :=
  match l with
  | [] => None
  | h :: t =>
      match lowest t with
      | None => Some h
      | Some m => Some (Z.min h m)
      end
  end.

(** The next eligible seat after seat [s], in ascending seat-number order,
    wrapping circularly: the lowest eligible seat above [s], and the lowest
    eligible seat of all when none is above. *)
Definition next_eligible (eligible : list Z) (s : Z) : option Z :=
  match lowest (filter (fun t => s <? t) eligible) with
  | Some t => Some t
  | None => lowest eligible
  end.

(** Chips held by a list of seats. *)
Definition total_chips (rows : list SeatRow) : Z :=
  fold_right Z.add 0 (map s_chip_count rows).

(** The row of a seat id, and the game-state row of a game. *)
Definition seat_row (pid : Z) (d : Db) : option SeatRow :=
  find (fun r => s_id r =? pid) (seats d).

Definition state_of_game (gid : Z) (d : Db) : option GameStateRow :=
  find (fun g => gs_game_id g =? gid) (game_state d).

(** A table as the endpoints build it: seat ids are a key of the seats
    table, seat numbers are unique within the game, and the game has one
    game-state row. *)
Record table_ok (gid : Z) (d : Db) : Prop := mkTableOk {
  seat_ids_unique : NoDup (map s_id (seats d));
  seat_numbers_unique : NoDup (map s_seat_number (seats_of_game gid d));
  one_game_state :
    List.length (filter (fun g => gs_game_id g =? gid) (game_state d)) = 1%nat
}.

(** The hole cards of a seat, and of the seats of a game, seat after seat. *)
Definition cards_of (r : SeatRow) : list Card :=
  match s_cards r with
  | Some cs => cs
  | None => []
  end.

Definition hole_cards (gid : Z) (d : Db) : list Card :=
  flat_map cards_of (seats_of_game gid d).

(** The chips a seat id holds. *)
Definition chips_of (pid : Z) (d : Db) : option Z :=
  option_map s_chip_count (seat_row pid d).

(** The state of the seats table after the dealing loop, for a deck listed
    top card first: each player's row receives the next two cards. *)
Fixpoint deal_db (players : list Player) (top_first : list Card) (d : Db)
  : Db :=
  match players, top_first with
  | p :: rest, c1 :: c2 :: below =>
      deal_db rest below (update_seat_cards (id p) [c1; c2] d)
  | _, _ => d
  end.

(** The same, row by row: the row of the [k]-th seat id receives the cards
    [2k] and [2k+1] from the top. *)
Fixpoint dealt_row (ids : list Z) (top_first : list Card) (r : SeatRow)
  : SeatRow :=
  match ids, top_first with
  | pid :: ids', c1 :: c2 :: below =>
      if s_id r =? pid then set_cards [c1; c2] r else dealt_row ids' below r
  | _, _ => r
  end.

(** [stable R m]: whatever [m] returns or raises, the database it leaves is
    related by [R] to the one it started from. *)
Definition stable {A : Type} (R : Db -> Db -> Prop) (m : M A) : Prop :=
  forall w, R (db w) (db (snd (m w))).

(** No seat of the table holds a negative number of chips. *)
Definition chips_nonneg (d : Db) : Prop :=
  Forall (fun r => 0 <= s_chip_count r) (seats d).

(** The index [random.choice] draws in [start_new_hand]: shuffling the 52
    cards has taken 51 draws before it. *)
Definition dealer_draw (players : list Player) (r : Rng) : nat :=
  Nat.modulo (draws r (cursor r + 51)) (List.length players).

(** The dealer seat a run of [start_new_hand] leaves in the game state. *)
Definition dealer_after (gid : Z) (players : list Player)
  (settings : GameSettings) (w : World) : option Z :=
  match state_of_game gid (db (snd (start_new_hand gid players settings w))) with
  | Some g => dealer_position g
  | None => None
  end.

End Spec.

(** ** Sample tables *)

Module Samples.
Import GameLogic Models Database Games.

Definition seat (n chips : Z) (st : string) : Player :=
  {| id := n; user_id := "user"; seat_number := n;
     status := Some st; chip_count := chips |}.

Definition heads_up : list Player :=
  [seat 1 100 "playing"; seat 2 100 "playing"].

Definition three_handed : list Player :=
  [seat 1 100 "playing"; seat 2 100 "playing"; seat 3 100 "playing"].

Definition four_handed : list Player :=
  [seat 4 100 "playing"; seat 2 100 "playing"; seat 7 100 "playing";
   seat 5 100 "playing"].

Definition one_playing : list Player :=
  [seat 1 100 "playing"; seat 2 100 "sitting_out"].

Definition none_playing : list Player :=
  [seat 1 100 "folded"; seat 2 100 "sitting_out"].

(** Two random sources: every draw 0, and every draw 1. *)
Definition rng_zeros : Rng := {| draws := fun _ => 0%nat; cursor := 0 |}.
Definition rng_ones : Rng := {| draws := fun _ => 1%nat; cursor := 0 |}.

Definition blinds_5_10 (buy max : Z) : GameSettings :=
  {| game_name := "table"; buy_in := buy; small_blind := 5; big_blind := 10;
     use_real_chips := false; max_players := max |}.

Definition row (n chips : Z) (uid st : string) : SeatRow :=
  {| s_id := n; s_game_id := 1; s_user_id := uid; s_seat_number := n;
     s_chip_count := chips; s_status := Some st; s_cards := None |}.

(** A waiting game 1 with code ABC123, its game-state row, and its seats. *)
Definition game_of (settings : GameSettings) : GameRow :=
  {| g_id := 1; g_game_code := "ABC123"; g_host_id := start_host_id;
     g_status := "waiting"; g_settings := settings |}.

Definition table_of (settings : GameSettings) (rows : list SeatRow) : Db :=
  {| games := [game_of settings];
     game_state := [ {| gs_game_id := 1; dealer_position := None;
                        pot_size := 0; current_bet := 0;
                        community_cards := []; current_player_turn := None |} ];
     seats := rows |}.

Definition two_seats (chips : Z) : list SeatRow :=
  [row 1 chips start_host_id "playing"; row 2 chips "guest" "playing"].

Definition three_seats (chips : Z) : list SeatRow :=
  [row 1 chips start_host_id "playing"; row 2 chips "guest" "playing";
   row 3 chips "third" "playing"].

Definition one_playing_seats : list SeatRow :=
  [row 1 100 start_host_id "playing"; row 2 100 "guest" "sitting_out"].

Definition host_alone : list SeatRow :=
  [row 1 100 start_host_id "playing"].

Definition players_of (d : Db) : list Player :=
  map player_of_row (seats_of_game 1 d).

End Samples.

(** ** api/games.py, the remaining functions, and the field constraints of
    models.py *)

Module Lobby.
Import GameLogic Models Database Games.

(** The length of a Python [str] is its number of code points.  A string
    here is a sequence of bytes, read as the UTF-8 encoding of the text: a
    code point is one byte that is not a continuation byte (10xxxxxx)
    followed by its continuation bytes. *)
Definition continuation_byte (c : ascii) : bool :=
  (128 <=? nat_of_ascii c)%nat && (nat_of_ascii c <? 192)%nat.

Fixpoint py_len (s : string) : nat :=
  match s with
  | EmptyString => 0%nat
  | String c rest =>
      ((if continuation_byte c then 0 else 1) + py_len rest)%nat
  end.

(** The constraints [GameSettings] declares on its fields:
    [game_name] of at most 50 characters, [buy_in], [small_blind] and
    [big_blind] above 0, [max_players] from 2 to 8. *)
Definition settings_valid (s : GameSettings) : bool :=
  (py_len (game_name s) <=? 50)%nat
  && (0 <? buy_in s) && (0 <? small_blind s) && (0 <? big_blind s)
  && (2 <=? max_players s) && (max_players s <=? 8).

(** [PlayerAction]: [action] one of the five literals, [amount] absent or
    above 0. *)
Record PlayerAction : Type := mkAction {
  action : string;
  amount : option Z
}.

Definition action_valid (a : PlayerAction) : bool :=
  existsb (String.eqb (action a)) ["fold"; "check"; "call"; "bet"; "raise"]
  && match amount a with
     | Some v => 0 <? v
     | None => true
     end.

(** [string.ascii_uppercase + string.digits] *)
Definition code_alphabet : list ascii :=
  list_ascii_of_string "ABCDEFGHIJKLMNOPQRSTUVWXYZ0123456789".

(** [population[i]] *)
Definition char_at (population : list ascii) (i : nat) : result ascii :=
  match nth_error population i with
  | Some c => Ok c
  | None => Raise (IndexError "string index out of range")
  end.

(** [random.choices(population, k=k)] without weights: [k] independent
    picks [population[floor(random() * n)]], first pick first.  The index
    [floor(random() * n)] is a draw of the random source reduced below
    [n]. *)
Fixpoint random_choices (population : list ascii) (k : nat) : M (list ascii) :=
  match k with
  | O => ret []
  | S k' =>
      i <- with_random (randbelow (List.length population)) ;;
      c <- lift (char_at population i) ;;
      rest <- random_choices population k' ;;
      ret (c :: rest)
  end.

Definition generate_game_code (length : nat) : M string :=
  picks <- random_choices code_alphabet length ;;
  ret (string_of_list_ascii picks).

(** What the tables fill in for the columns an insert leaves out: the status
    of a new game and the columns of a new game-state row.  The schema is
    not part of the sources, so these are parameters. *)
Record Schema : Type := mkSchema {
  default_status : string;
  default_dealer_position : option Z;
  default_pot_size : Z;
  default_current_bet : Z;
  default_community_cards : list Card;
  default_current_player_turn : option string
}.

(** A serial key for the games table. *)
Definition fresh_game_id (d : Db) : Z :=
  1 + fold_right Z.max 0 (map g_id (games d)).

Definition insert_game (sch : Schema) (new_id : Z) (code host : string)
  (settings : GameSettings) (d : Db) : Db :=
  {| games := games d ++
              [ {| g_id := new_id; g_game_code := code; g_host_id := host;
                   g_status := default_status sch; g_settings := settings |} ];
     game_state := game_state d;
     seats := seats d |}.

Definition insert_game_state (sch : Schema) (gid : Z) (d : Db) : Db :=
  {| games := games d;
     game_state := game_state d ++
                   [ {| gs_game_id := gid;
                        dealer_position := default_dealer_position sch;
                        pot_size := default_pot_size sch;
                        current_bet := default_current_bet sch;
                        community_cards := default_community_cards sch;
                        current_player_turn := default_current_player_turn sch |} ];
     seats := seats d |}.

(** [try: ... except Exception as e: raise HTTPException(500, detail)]:
    every exception of the body becomes the 500. *)
Definition try_except_any {A : Type} (body : M A) (detail : string) : M A :=
  fun w =>
    match body w with
    | (Ok a, w') => (Ok a, w')
    | (Raise _, w') => (Raise (HTTPException 500 detail), w')
    end.

Definition create_host_id : string := "a1b2c3d4-e5f6-7890-1234-567890abcdef".

(** [create_game]: returns the new game's id and code. *)
Definition create_game (sch : Schema) (settings : GameSettings)
  : M (Z * string) :=
  let host_id := create_host_id in
  if big_blind settings <? small_blind settings then
    raise (HTTPException 400
             "Big blind must be greater than or equal to small blind.")
  else
    game_code <- generate_game_code 6 ;;
    try_except_any
      (game_id <- query fresh_game_id ;;
       execute (insert_game sch game_id game_code host_id settings) ;;
       execute (insert_game_state sch game_id) ;;
       execute (insert_seat game_id host_id 1 (buy_in settings) "playing") ;;
       ret (game_id, game_code))
      "Could not create game.".

Definition get_game_state (game_code : string) : M unit :=
  raise (HTTPException 501 "Endpoint not fully implemented.").

Definition perform_action (game_code : string) (a : PlayerAction) : M unit :=
  raise (HTTPException 501 "Endpoint not fully implemented.").

End Lobby.

(** ** Observations on tables *)

Module Observe.
Import GameLogic Models Database Games Spec Lobby.

(** What identifies a seat row: everything but its chips and its cards. *)
Definition seat_identity (r : SeatRow) : Z * Z * string * Z * option string :=
  (s_id r, s_game_id r, s_user_id r, s_seat_number r, s_status r).

(** A row is kept as it is unless its id is one of [ids]. *)
Definition unless_id (ids : list Z) (r : SeatRow) : option SeatRow :=
  if mem (s_id r) ids then None else Some r.

(** A game-state row is kept as it is unless it is the row of game [gid]. *)
Definition unless_game (gid : Z) (g : GameStateRow) : option GameStateRow :=
  if gs_game_id g =? gid then None else Some g.

(** What [start_new_hand] cannot change, whatever it is given. *)
Record same_frame (gid : Z) (ids : list Z) (d d' : Db) : Prop := mkSameFrame {
  frame_games : games d' = games d;
  frame_identity : map seat_identity (seats d') = map seat_identity (seats d);
  frame_other_rows :
    map (unless_id ids) (seats d') = map (unless_id ids) (seats d);
  frame_state_keys :
    map gs_game_id (game_state d') = map gs_game_id (game_state d);
  frame_other_games :
    map (unless_game gid) (game_state d')
      = map (unless_game gid) (game_state d)
}.

(** The outcome of [start_new_hand], read off the number of players and
    their statuses. *)
Definition hand_outcome (players : list Player) : result unit :=
  if (26 <? List.length players)%nat then
    Raise (IndexError "pop from empty list")
  else
    match players with
    | [] => Raise (IndexError "Cannot choose from an empty sequence")
    | _ :: _ =>
        if existsb is_playing players then Ok tt else Raise ZeroDivisionError
    end.

(** The seats of a game stay within its capacity: no more than
    [max_players] of them, numbered within [1..max_players]. *)
Definition within_capacity (g : GameRow) (d : Db) : Prop :=
  Z.of_nat (List.length (seats_of_game (g_id g) d))
    <= max_players (g_settings g) /\
  Forall (fun r => 1 <= s_seat_number r <= max_players (g_settings g))
    (seats_of_game (g_id g) d).

(** Seat ids are a key, and within every game seat numbers are. *)
Definition seats_keyed (d : Db) : Prop :=
  NoDup (map s_id (seats d)) /\
  forall gid, NoDup (map s_seat_number (seats_of_game gid d)).

End Observe.

Module SamplesMore.
Import GameLogic Models Database Games Samples Lobby.

(** A schema whose new games wait for players and whose new game states are
    blank. *)
Definition waiting_schema : Schema :=
  {| default_status := "waiting"; default_dealer_position := None;
     default_pot_size := 0; default_current_bet := 0;
     default_community_cards := []; default_current_player_turn := None |}.

Definition empty_db : Db := {| games := []; game_state := []; seats := [] |}.

End SamplesMore.

(** ** Properties of game_logic.py *)

Module GameLogicFacts.
Import GameLogic Spec Samples.

Section Sorting.

Lemma insert_by_seat_perm (p : Player) (l : list Player) :
  Permutation (insert_by_seat p l) (p :: l).
Proof.
  induction l as [|q t IH]; simpl.
  - apply Permutation_refl.
  - destruct (seat_number p <=? seat_number q).
    + apply Permutation_refl.
    + rewrite IH. apply perm_swap.
Qed.

Lemma sorted_by_seat_perm (l : list Player) :
  Permutation (sorted_by_seat l) l.
Proof.
  induction l as [|p t IH]; simpl.
  - constructor.
  - rewrite insert_by_seat_perm. now constructor.
Qed.

Lemma player_seats_perm (players : list Player) :
  Permutation (player_seats players) (eligible_seats players).
Proof.
  unfold player_seats, eligible_seats, active_players.
  apply Permutation_map, sorted_by_seat_perm.
Qed.

Lemma player_seats_length (players : list Player) :
  List.length (player_seats players) = List.length (filter is_playing players).
Proof.
  rewrite (Permutation_length (player_seats_perm players)).
  unfold eligible_seats. apply length_map.
Qed.

Lemma insert_by_seat_sorted (p : Player) (l : list Player) :
  Sorted Z.le (map seat_number l) ->
  Sorted Z.le (map seat_number (insert_by_seat p l)).
Proof.
  induction l as [|q t IH]; simpl; intros Hs.
  - repeat constructor.
  - destruct (seat_number p <=? seat_number q) eqn:E; simpl.
    + constructor; [exact Hs|]. constructor. now apply Z.leb_le.
    + apply Z.leb_gt in E.
      inversion Hs as [|? ? Hst Hhd]; subst.
      constructor; [now apply IH|].
      destruct t as [|q' t']; simpl.
      * constructor. lia.
      * destruct (seat_number p <=? seat_number q'); simpl; constructor.
        -- lia.
        -- now inversion Hhd.
Qed.

Lemma player_seats_sorted (players : list Player) :
  Sorted Z.le (player_seats players).
Proof.
  unfold player_seats, active_players.
  induction (filter is_playing players) as [|p t IH]; simpl.
  - constructor.
  - now apply insert_by_seat_sorted.
Qed.

(** In a sorted list without repetition, later positions hold larger seats. *)
Lemma sorted_nth_lt (l : list Z) :
  Sorted Z.le l -> NoDup l ->
  forall i j a b, (i < j)%nat ->
    nth_error l i = Some a -> nth_error l j = Some b -> a < b.
Proof.
  intros Hs Hnd.
  apply Sorted_StronglySorted in Hs; [|intros x y z; apply Z.le_trans].
  induction Hs as [|h t Hst IH Hall]; intros i j a b Hij Ha Hb.
  - destruct i; discriminate.
  - inversion Hnd as [|? ? Hnotin Hnd']; subst.
    destruct j as [|j]; [lia|].
    destruct i as [|i]; simpl in *.
    + assert (h = a) by congruence. subst h.
      apply nth_error_In in Hb.
      rewrite Forall_forall in Hall. specialize (Hall _ Hb).
      assert (a <> b) by (intros ->; contradiction). lia.
    + apply (IH Hnd' i j); auto. lia.
Qed.

End Sorting.

Section Index.

Lemma index_Some (v : Z) (l : list Z) (i : nat) :
  index v l = Some i -> nth_error l i = Some v.
Proof.
  revert i; induction l as [|h t IH]; simpl; intros i H; [discriminate|].
  destruct (h =? v) eqn:E.
  - injection H as <-. apply Z.eqb_eq in E. now subst.
  - destruct (index v t) as [k|]; simpl in H; [|discriminate].
    injection H as <-. simpl. now apply IH.
Qed.

Lemma index_None (v : Z) (l : list Z) :
  index v l = None <-> ~ In v l.
Proof.
  induction l as [|h t IH]; simpl.
  - tauto.
  - destruct (h =? v) eqn:E.
    + apply Z.eqb_eq in E. split; [discriminate|]. intros H; exfalso; auto.
    + apply Z.eqb_neq in E.
      destruct (index v t); simpl.
      * split; [discriminate|]. intros H. exfalso. apply H. right.
        destruct IH as [_ IH]. 
        destruct (in_dec Z.eq_dec v t) as [Hin|Hn]; [exact Hin|].
        specialize (IH Hn). discriminate.
      * split; [|reflexivity]. intros _ [H|H]; [contradiction|].
        now apply IH.
Qed.

Lemma dealer_index_in (seats : list Z) (dealer_seat : Z) :
  In dealer_seat seats ->
  nth_error seats (dealer_index_of seats dealer_seat) = Some dealer_seat.
Proof.
  intros Hin. unfold dealer_index_of.
  destruct (index dealer_seat seats) as [i|] eqn:E.
  - now apply index_Some.
  - apply index_None in E. contradiction.
Qed.

Lemma dealer_index_lt (seats : list Z) (dealer_seat : Z) :
  seats <> [] ->
  (dealer_index_of seats dealer_seat < List.length seats)%nat.
Proof.
  intros Hne. unfold dealer_index_of.
  destruct (index dealer_seat seats) as [i|] eqn:E.
  - apply index_Some in E. apply nth_error_Some. congruence.
  - destruct seats; [contradiction|simpl; lia].
Qed.

End Index.

Section NextEligible.

Lemma lowest_None (l : list Z) : lowest l = None -> l = [].
Proof.
  destruct l as [|h t]; simpl; [reflexivity|].
  destruct (lowest t); discriminate.
Qed.

Lemma lowest_Some (l : list Z) (m : Z) :
  lowest l = Some m -> In m l /\ forall x, In x l -> m <= x.
Proof.
  revert m; induction l as [|h t IH]; simpl; intros m E; [discriminate|].
  destruct (lowest t) as [k|] eqn:Ek.
  - destruct (IH k eq_refl) as [Hk Hle].
    assert (m = Z.min h k) by congruence. subst m. split.
    + destruct (Z.min_spec h k) as [[_ ->]|[_ ->]]; auto.
    + intros x [<-|Hx]; [lia|]. specialize (Hle x Hx). lia.
  - apply lowest_None in Ek. subst t.
    assert (m = h) by congruence. subst m. split; [now left|].
    intros x [<-|[]]. lia.
Qed.

Lemma lowest_intro (l : list Z) (m : Z) :
  In m l -> (forall x, In x l -> m <= x) -> lowest l = Some m.
Proof.
  intros Hin Hle.
  destruct (lowest l) as [k|] eqn:E.
  - destruct (lowest_Some l k E) as [Hk Hkle].
    specialize (Hle k Hk). specialize (Hkle m Hin).
    f_equal. lia.
  - apply lowest_None in E. subst l. contradiction.
Qed.

Lemma next_eligible_above (eligible : list Z) (s t : Z) :
  In t eligible -> s < t ->
  (forall u, In u eligible -> s < u -> t <= u) ->
  next_eligible eligible s = Some t.
Proof.
  intros Hin Hlt Hmin. unfold next_eligible.
  rewrite (lowest_intro (filter (fun t0 => s <? t0) eligible) t).
  - reflexivity.
  - apply filter_In. split; [exact Hin|]. now apply Z.ltb_lt.
  - intros x Hx. apply filter_In in Hx as [Hx Hsx].
    apply Z.ltb_lt in Hsx. auto.
Qed.

Lemma next_eligible_wrap (eligible : list Z) (s t : Z) :
  In t eligible ->
  (forall u, In u eligible -> u <= s) ->
  (forall u, In u eligible -> t <= u) ->
  next_eligible eligible s = Some t.
Proof.
  intros Hin Hmax Hmin. unfold next_eligible.
  replace (filter (fun t0 => s <? t0) eligible) with (@nil Z).
  - simpl. now apply lowest_intro.
  - symmetry. clear Hin Hmin.
    induction eligible as [|h r IH]; simpl; [reflexivity|].
    assert (Hh : h <= s) by (apply Hmax; now left).
    apply Z.ltb_ge in Hh. rewrite Hh.
    apply IH. intros u Hu. apply Hmax. now right.
Qed.

Lemma sorted_nth_le (l : list Z) :
  Sorted Z.le l -> NoDup l ->
  forall i j a b, (i <= j)%nat ->
    nth_error l i = Some a -> nth_error l j = Some b -> a <= b.
Proof.
  intros Hs Hnd i j a b Hij Ha Hb.
  destruct (Nat.eq_dec i j) as [->|Hne].
  - assert (a = b) by congruence. lia.
  - assert (a < b); [|lia].
    apply (sorted_nth_lt l Hs Hnd i j); auto. lia.
Qed.

(** In the sorted list of distinct eligible seats, the seat one position
    further, wrapping at the end, is the next eligible seat. *)
Lemma next_position_is_next_eligible (l eligible : list Z) (i : nat) (s t : Z) :
  Sorted Z.le l -> NoDup l -> Permutation l eligible ->
  nth_error l i = Some s ->
  nth_error l (Nat.modulo (i + 1) (List.length l)) = Some t ->
  next_eligible eligible s = Some t.
Proof.
  intros Hs Hnd Hperm Hi Ht.
  assert (Hlen : (i < List.length l)%nat) by (apply nth_error_Some; congruence).
  assert (Hin : forall u, In u eligible -> exists j, nth_error l j = Some u).
  { intros u Hu. apply In_nth_error.
    eapply Permutation_in; [apply Permutation_sym, Hperm|exact Hu]. }
  assert (Htin : In t eligible).
  { eapply Permutation_in; [exact Hperm|]. eapply nth_error_In; eauto. }
  destruct (Nat.lt_ge_cases (i + 1) (List.length l)) as [Hsmall|Hwrap].
  - rewrite Nat.mod_small in Ht by exact Hsmall.
    apply next_eligible_above; [exact Htin| |].
    + apply (sorted_nth_lt l Hs Hnd i (i + 1)%nat); auto. lia.
    + intros u Hu Hsu. destruct (Hin u Hu) as [j Hj].
      apply (sorted_nth_le l Hs Hnd (i + 1)%nat j); auto.
      destruct (Nat.lt_ge_cases i j) as [Hlt|Hge]; [lia|].
      assert (u <= s) by (apply (sorted_nth_le l Hs Hnd j i); auto). lia.
  - assert (Heq : (i + 1)%nat = List.length l) by lia.
    rewrite Heq, Nat.Div0.mod_same in Ht.
    apply next_eligible_wrap; [exact Htin| |].
    + intros u Hu. destruct (Hin u Hu) as [j Hj].
      assert (j < List.length l)%nat by (apply nth_error_Some; congruence).
      apply (sorted_nth_le l Hs Hnd j i); auto. lia.
    + intros u Hu. destruct (Hin u Hu) as [j Hj].
      apply (sorted_nth_le l Hs Hnd 0%nat j); auto. lia.
Qed.

End NextEligible.

Section Positions.

Lemma getitem_Some (l : list Z) (i : nat) (v : Z) :
  nth_error l i = Some v -> getitem l i = Ok v.
Proof. unfold getitem. now intros ->. Qed.

Lemma nth_error_in_range (l : list Z) (i : nat) :
  (i < List.length l)%nat -> exists v, nth_error l i = Some v.
Proof.
  intros H. destruct (nth_error l i) as [v|] eqn:E; [now exists v|].
  apply nth_error_None in E. lia.
Qed.

(** Residues of nearby numbers differ. *)
Lemma mod_near_inj (n a b : nat) :
  (a <= b)%nat -> (b - a < n)%nat ->
  Nat.modulo a n = Nat.modulo b n -> a = b.
Proof.
  intros Hab Hlt Hmod.
  assert (Hn : n <> 0%nat) by lia.
  pose proof (Nat.div_mod_eq a n) as Ha.
  pose proof (Nat.div_mod_eq b n) as Hb.
  rewrite Hmod in Ha.
  assert (Hq : (a / n <= b / n)%nat) by (apply Nat.Div0.div_le_mono; lia).
  destruct (Nat.eq_dec (a / n) (b / n)) as [E|E]; [rewrite E in Ha; lia|].
  assert (Hm : (n * (a / n + 1) <= n * (b / n))%nat)
    by (apply Nat.mul_le_mono_l; lia).
  rewrite Nat.mul_add_distr_l in Hm. lia.
Qed.

(** What [get_player_positions] evaluates to once there is a playing seat:
    the seats one, two and three positions after the dealer index, and in
    heads-up the seat at the dealer index and the one after it. *)
Lemma positions_eval (players : list Player) (dealer_seat : Z) :
  let seats := player_seats players in
  let n := List.length seats in
  let di := dealer_index_of seats dealer_seat in
  n <> 0%nat ->
  exists btn sb bb utg,
    nth_error seats di = Some btn /\
    nth_error seats (Nat.modulo (di + 1) n) = Some sb /\
    nth_error seats (Nat.modulo (di + 2) n) = Some bb /\
    nth_error seats (Nat.modulo (di + 3) n) = Some utg /\
    get_player_positions players dealer_seat =
      (if Nat.eqb n 2 then Ok (btn, sb, btn) else Ok (sb, bb, utg)).
Proof.
  intros seats n di Hn.
  assert (Hdi : (di < n)%nat).
  { apply dealer_index_lt. intros E. apply Hn. unfold n. now rewrite E. }
  destruct (nth_error_in_range seats di Hdi) as [btn Hbtn].
  destruct (nth_error_in_range seats (Nat.modulo (di + 1) n)) as [sb Hsb];
    [now apply Nat.mod_upper_bound|].
  destruct (nth_error_in_range seats (Nat.modulo (di + 2) n)) as [bb Hbb];
    [now apply Nat.mod_upper_bound|].
  destruct (nth_error_in_range seats (Nat.modulo (di + 3) n)) as [utg Hutg];
    [now apply Nat.mod_upper_bound|].
  exists btn, sb, bb, utg. repeat (split; [assumption|]).
  unfold get_player_positions. fold seats. fold di. fold n.
  assert (Hmod : forall a, py_mod a n = Ok (Nat.modulo a n)).
  { intros a. unfold py_mod. destruct n; [contradiction|reflexivity]. }
  rewrite !Hmod. simpl rbind.
  rewrite (getitem_Some _ _ _ Hbtn), (getitem_Some _ _ _ Hsb),
    (getitem_Some _ _ _ Hbb), (getitem_Some _ _ _ Hutg).
  reflexivity.
Qed.

Lemma positions_no_seat (players : list Player) (dealer_seat : Z) :
  filter is_playing players = [] ->
  get_player_positions players dealer_seat = Raise ZeroDivisionError.
Proof.
  intros H. unfold get_player_positions, player_seats, active_players.
  rewrite H. reflexivity.
Qed.

Lemma positions_single_seat (players : list Player) (dealer_seat : Z) (p : Player) :
  filter is_playing players = [p] ->
  get_player_positions players dealer_seat =
    Ok (seat_number p, seat_number p, seat_number p).
Proof.
  intros H. unfold get_player_positions, player_seats, active_players.
  rewrite H. simpl. unfold dealer_index_of. simpl.
  destruct (seat_number p =? dealer_seat); reflexivity.
Qed.

Lemma eligible_NoDup_seats (players : list Player) :
  NoDup (eligible_seats players) -> NoDup (player_seats players).
Proof.
  apply Permutation_NoDup, Permutation_sym, player_seats_perm.
Qed.

Lemma eligible_length (players : list Player) :
  List.length (player_seats players) = List.length (eligible_seats players).
Proof. apply Permutation_length, player_seats_perm. Qed.

Lemma eligible_In (players : list Player) (s : Z) :
  In s (player_seats players) <-> In s (eligible_seats players).
Proof.
  split; apply Permutation_in;
    [|apply Permutation_sym]; apply player_seats_perm.
Qed.

End Positions.

Section PositionProperties.

(** C1 (amended).  With distinct seat numbers among [N >= 2] playing seats
    and the dealer seat among them, the big blind differs from the button
    and from the small blind.  In heads-up ([N = 2]) the button is the small
    blind and acts first.  With [N = 3] the button, small blind and big blind
    are pairwise distinct and the first to act is the button again.  With
    [N >= 4] all four seats are pairwise distinct. *)
Theorem positions_distinct (players : list Player) (dealer_seat : Z) :
  NoDup (eligible_seats players) ->
  In dealer_seat (eligible_seats players) ->
  (2 <= List.length (eligible_seats players))%nat ->
  exists sb bb utg,
    get_player_positions players dealer_seat = Ok (sb, bb, utg) /\
    bb <> dealer_seat /\ sb <> bb /\
    (List.length (eligible_seats players) = 2%nat ->
       sb = dealer_seat /\ utg = dealer_seat) /\
    (List.length (eligible_seats players) = 3%nat ->
       NoDup [dealer_seat; sb; bb] /\ utg = dealer_seat) /\
    ((4 <= List.length (eligible_seats players))%nat ->
       NoDup [dealer_seat; sb; bb; utg]).
Proof.
  intros Hnd Hin Hlen.
  apply eligible_NoDup_seats in Hnd. apply eligible_In in Hin.
  rewrite <- eligible_length in *.
  set (seats := player_seats players) in *.
  set (n := List.length seats) in *.
  set (di := dealer_index_of seats dealer_seat).
  destruct (positions_eval players dealer_seat) as
    (btn & sb & bb & utg & Hbtn & Hsb & Hbb & Hutg & Heval);
    [fold seats; fold n; lia|].
  fold seats in Hbtn, Hsb, Hbb, Hutg, Heval.
  fold n in Hsb, Hbb, Hutg, Heval. fold di in Hbtn, Hsb, Hbb, Hutg.
  assert (Hdi : (di < n)%nat) by (apply nth_error_Some; congruence).
  assert (btn = dealer_seat).
  { pose proof (dealer_index_in seats dealer_seat Hin) as H.
    fold di in H. congruence. }
  subst btn.
  (* distinct positions hold distinct seats *)
  assert (Hneq : forall i j a b, (i < n)%nat -> i <> j ->
            nth_error seats i = Some a -> nth_error seats j = Some b -> a <> b).
  { intros i j a b Hi Hij Ha Hb ->. apply Hij.
    apply (proj1 (NoDup_nth_error seats) Hnd i j Hi). congruence. }
  assert (Hshift : forall k k', (k < k')%nat -> (k' < n)%nat ->
            Nat.modulo (di + k) n <> Nat.modulo (di + k') n).
  { intros k k' Hk Hk' E. apply mod_near_inj in E; lia. }
  assert (Hdi0 : Nat.modulo (di + 0) n = di)
    by (rewrite Nat.add_0_r; now apply Nat.mod_small).
  assert (Hm : forall k, (Nat.modulo (di + k) n < n)%nat)
    by (intros k; apply Nat.mod_upper_bound; lia).
  destruct (Nat.eqb n 2) eqn:E2.
  - (* heads-up *)
    apply Nat.eqb_eq in E2.
    exists dealer_seat, sb, dealer_seat. split; [exact Heval|].
    assert (Hb : sb <> dealer_seat).
    { apply (Hneq (Nat.modulo (di + 1) n) di); auto.
      rewrite <- Hdi0 at 2. intros E. symmetry in E. revert E.
      apply Hshift; lia. }
    repeat split; try lia; auto.
  - apply Nat.eqb_neq in E2.
    exists sb, bb, utg. split; [exact Heval|].
    assert (Hsb' : sb <> dealer_seat).
    { apply (Hneq (Nat.modulo (di + 1) n) di); auto.
      rewrite <- Hdi0 at 2. intros E. symmetry in E. revert E.
      apply Hshift; lia. }
    assert (Hbb' : bb <> dealer_seat).
    { apply (Hneq (Nat.modulo (di + 2) n) di); auto.
      rewrite <- Hdi0 at 2. intros E. symmetry in E. revert E.
      apply Hshift; lia. }
    assert (Hsbbb : sb <> bb).
    { apply (Hneq (Nat.modulo (di + 1) n) (Nat.modulo (di + 2) n)); auto;
        apply Hshift; lia. }
    split; [exact Hbb'|]. split; [exact Hsbbb|].
    split; [intros; lia|]. split.
    + intros H3. split.
      * repeat constructor; simpl; intuition congruence.
      * rewrite H3 in Hutg.
        replace (di + 3)%nat with (di + 1 * 3)%nat in Hutg by lia.
        rewrite Nat.Div0.mod_add, Nat.mod_small in Hutg by lia.
        congruence.
    + intros H4.
      assert (utg <> dealer_seat).
      { apply (Hneq (Nat.modulo (di + 3) n) di); auto.
        rewrite <- Hdi0 at 2. intros E. symmetry in E. revert E.
        apply Hshift; lia. }
      assert (sb <> utg).
      { apply (Hneq (Nat.modulo (di + 1) n) (Nat.modulo (di + 3) n)); auto;
          apply Hshift; lia. }
      assert (bb <> utg).
      { apply (Hneq (Nat.modulo (di + 2) n) (Nat.modulo (di + 3) n)); auto;
          apply Hshift; lia. }
      repeat constructor; simpl; intuition congruence.
Qed.

Lemma positions_distinct_witness :
  exists sb bb utg,
    get_player_positions four_handed 4 = Ok (sb, bb, utg) /\
    bb <> 4 /\ sb <> bb /\
    (List.length (eligible_seats four_handed) = 2%nat -> sb = 4 /\ utg = 4) /\
    (List.length (eligible_seats four_handed) = 3%nat ->
       NoDup [4; sb; bb] /\ utg = 4) /\
    ((4 <= List.length (eligible_seats four_handed))%nat ->
       NoDup [4; sb; bb; utg]).
Proof.
  apply (positions_distinct four_handed 4).
  - repeat constructor; simpl; intuition lia.
  - simpl. auto.
  - simpl. lia.
Defined.

(** Three playing seats 1, 2, 3 with the button on seat 1: the first to act
    is seat 1, the button itself, so the four seats are not distinct. *)
Lemma positions_distinct_fails_three_handed :
  List.length (eligible_seats three_handed) = 3%nat /\
  In 1 (eligible_seats three_handed) /\
  get_player_positions three_handed 1 = Ok (2, 3, 1) /\
  ~ NoDup [1; 2; 3; 1].
Proof.
  repeat split; [simpl; auto|].
  intros H. inversion H as [|? ? Hnotin _]; subst.
  apply Hnotin. simpl. auto.
Qed.

(** C2.  For seats with distinct seat numbers and a dealer seat that is
    playing: with exactly 2 eligible seats the small blind and the first to
    act are the dealer seat and the big blind is the other eligible seat;
    with 3 or more, the small blind is the next eligible seat after the
    dealer (ascending seat numbers, wrapping), the big blind the next after
    the small blind, and the first to act the next after the big blind. *)
Theorem positions_follow_the_ring (players : list Player) (dealer_seat : Z) :
  NoDup (eligible_seats players) ->
  In dealer_seat (eligible_seats players) ->
  (List.length (eligible_seats players) = 2%nat ->
     exists bb,
       get_player_positions players dealer_seat =
         Ok (dealer_seat, bb, dealer_seat) /\
       In bb (eligible_seats players) /\ bb <> dealer_seat) /\
  ((3 <= List.length (eligible_seats players))%nat ->
     exists sb bb utg,
       get_player_positions players dealer_seat = Ok (sb, bb, utg) /\
       next_eligible (eligible_seats players) dealer_seat = Some sb /\
       next_eligible (eligible_seats players) sb = Some bb /\
       next_eligible (eligible_seats players) bb = Some utg).
Proof.
  intros Hnd Hin.
  pose proof (player_seats_perm players) as Hperm.
  pose proof (player_seats_sorted players) as Hsorted.
  pose proof (eligible_NoDup_seats players Hnd) as Hnd'.
  apply eligible_In in Hin.
  rewrite <- eligible_length.
  set (seats := player_seats players) in *.
  set (n := List.length seats) in *.
  set (di := dealer_index_of seats dealer_seat).
  assert (Hn : n <> 0%nat).
  { unfold n. destruct seats; [contradiction|discriminate]. }
  destruct (positions_eval players dealer_seat) as
    (btn & sb & bb & utg & Hbtn & Hsb & Hbb & Hutg & Heval);
    [fold seats; fold n; lia|].
  fold seats in Hbtn, Hsb, Hbb, Hutg, Heval.
  fold n in Hsb, Hbb, Hutg, Heval. fold di in Hbtn, Hsb, Hbb, Hutg.
  assert (btn = dealer_seat).
  { pose proof (dealer_index_in seats dealer_seat Hin) as H.
    fold di in H. congruence. }
  subst btn.
  assert (Hdi : (di < n)%nat) by (apply nth_error_Some; congruence).
  split.
  - intros H2. rewrite H2 in Heval. simpl in Heval.
    exists sb. split; [exact Heval|]. split.
    + apply eligible_In. eapply nth_error_In; eauto.
    + intros ->.
      assert (E : Nat.modulo (di + 1) n = di).
      { apply (proj1 (NoDup_nth_error seats) Hnd');
          [apply Nat.mod_upper_bound; lia|congruence]. }
      rewrite <- (Nat.mod_small di n) in E at 2 by lia.
      symmetry in E. apply mod_near_inj in E; lia.
  - intros H3.
    replace (Nat.eqb n 2) with false in Heval
      by (symmetry; apply Nat.eqb_neq; lia).
    exists sb, bb, utg. split; [exact Heval|].
    assert (Hstep : forall i, Nat.modulo (Nat.modulo (di + i) n + 1) n
                              = Nat.modulo (di + (i + 1)) n).
    { intros i. rewrite Nat.Div0.add_mod_idemp_l. f_equal. lia. }
    repeat split.
    + apply (next_position_is_next_eligible seats _ di); auto.
    + apply (next_position_is_next_eligible seats _ (Nat.modulo (di + 1) n));
        auto. fold n. rewrite Hstep. exact Hbb.
    + apply (next_position_is_next_eligible seats _ (Nat.modulo (di + 2) n));
        auto. fold n. rewrite Hstep. exact Hutg.
Qed.

Lemma positions_follow_the_ring_witness :
  (List.length (eligible_seats four_handed) = 2%nat ->
     exists bb,
       get_player_positions four_handed 5 = Ok (5, bb, 5) /\
       In bb (eligible_seats four_handed) /\ bb <> 5) /\
  ((3 <= List.length (eligible_seats four_handed))%nat ->
     exists sb bb utg,
       get_player_positions four_handed 5 = Ok (sb, bb, utg) /\
       next_eligible (eligible_seats four_handed) 5 = Some sb /\
       next_eligible (eligible_seats four_handed) sb = Some bb /\
       next_eligible (eligible_seats four_handed) bb = Some utg).
Proof.
  apply (positions_follow_the_ring four_handed 5).
  - repeat constructor; simpl; intuition lia.
  - simpl. auto.
Defined.

(** C10.  A dealer seat that is not among the playing seats is no failure:
    with at least 2 eligible seats the positions are those computed with the
    button on the lowest-numbered playing seat, the first of the sorted
    eligible seats. *)
Theorem absent_dealer_defaults_to_lowest_seat
  (players : list Player) (dealer_seat : Z) :
  ~ In dealer_seat (eligible_seats players) ->
  (2 <= List.length (eligible_seats players))%nat ->
  exists lowest_seat others positions,
    player_seats players = lowest_seat :: others /\
    In lowest_seat (eligible_seats players) /\
    (forall s, In s (eligible_seats players) -> lowest_seat <= s) /\
    get_player_positions players dealer_seat = Ok positions /\
    get_player_positions players lowest_seat = Ok positions.
Proof.
  intros Hnotin Hlen.
  rewrite <- eligible_length in Hlen.
  destruct (player_seats players) as [|s0 rest] eqn:Eseats;
    [simpl in Hlen; lia|].
  assert (Hd : dealer_index_of (player_seats players) dealer_seat = 0%nat).
  { unfold dealer_index_of.
    replace (index dealer_seat (player_seats players)) with (@None nat);
      [reflexivity|].
    symmetry. apply index_None. now rewrite eligible_In. }
  assert (Hs0 : dealer_index_of (player_seats players) s0 = 0%nat).
  { rewrite Eseats. unfold dealer_index_of. simpl. now rewrite Z.eqb_refl. }
  assert (Hsame : get_player_positions players dealer_seat
                  = get_player_positions players s0).
  { unfold get_player_positions. now rewrite Hd, Hs0. }
  destruct (positions_eval players dealer_seat) as
    (btn & sb & bb & utg & _ & _ & _ & _ & Heval);
    [rewrite Eseats; discriminate|].
  exists s0, rest.
  exists (if Nat.eqb (List.length (player_seats players)) 2
          then (btn, sb, btn) else (sb, bb, utg)).
  split; [reflexivity|]. split; [|split; [|split]].
  - apply eligible_In. rewrite Eseats. now left.
  - intros s Hs. apply eligible_In in Hs. rewrite Eseats in Hs.
    pose proof (player_seats_sorted players) as Hsorted.
    rewrite Eseats in Hsorted.
    apply Sorted_StronglySorted in Hsorted;
      [|intros x y z; apply Z.le_trans].
    inversion Hsorted as [|? ? _ Hall]; subst.
    destruct Hs as [<-|Hs]; [lia|].
    rewrite Forall_forall in Hall. auto.
  - rewrite Heval. now destruct (Nat.eqb _ 2).
  - rewrite <- Hsame, Heval. now destruct (Nat.eqb _ 2).
Qed.

Lemma absent_dealer_defaults_to_lowest_seat_witness :
  exists lowest_seat others positions,
    player_seats four_handed = lowest_seat :: others /\
    In lowest_seat (eligible_seats four_handed) /\
    (forall s, In s (eligible_seats four_handed) -> lowest_seat <= s) /\
    get_player_positions four_handed 3 = Ok positions /\
    get_player_positions four_handed lowest_seat = Ok positions.
Proof.
  apply (absent_dealer_defaults_to_lowest_seat four_handed 3).
  - simpl. intuition lia.
  - simpl. lia.
Defined.

End PositionProperties.

Section Deck.

Lemma nth_error_set_nth {A : Type} (x : list A) (i j : nat) (a v : A) :
  nth_error x i = Some a ->
  nth_error (set_nth i v x) j = if Nat.eqb i j then Some v else nth_error x j.
Proof.
  revert i j; induction x as [|h t IH]; intros i j Hi.
  - destruct i; discriminate.
  - destruct i as [|i]; destruct j as [|j]; simpl in *; try reflexivity.
    now apply IH.
Qed.

(** Overwriting position [i] trades the element there for the new one. *)
Lemma set_nth_trade {A : Type} (x : list A) (i : nat) (a v : A) :
  nth_error x i = Some a ->
  exists l, Permutation x (a :: l) /\ Permutation (set_nth i v x) (v :: l).
Proof.
  revert i; induction x as [|h t IH]; intros i Hi.
  - destruct i; discriminate.
  - destruct i as [|i]; simpl in *.
    + injection Hi as ->. exists t. split; apply Permutation_refl.
    + destruct (IH i Hi) as (l & Hx & Hs).
      exists (h :: l). split.
      * rewrite Hx. apply perm_swap.
      * rewrite Hs. apply perm_swap.
Qed.

Lemma swap_perm {A : Type} (i j : nat) (x : list A) :
  Permutation (swap i j x) x.
Proof.
  unfold swap.
  destruct (nth_error x i) as [xi|] eqn:Ei; [|apply Permutation_refl].
  destruct (nth_error x j) as [xj|] eqn:Ej; [|apply Permutation_refl].
  destruct (set_nth_trade x i xi xj Ei) as (l & Hx & Hy).
  assert (Ej' : nth_error (set_nth i xj x) j = Some xj).
  { rewrite (nth_error_set_nth x i j xi xj Ei).
    destruct (Nat.eqb i j); [reflexivity|exact Ej]. }
  destruct (set_nth_trade (set_nth i xj x) j xj xi Ej') as (l' & Hy' & Hz).
  assert (Hll : Permutation l l').
  { apply (Permutation_cons_inv (a := xj)).
    now rewrite <- Hy, <- Hy'. }
  now rewrite Hz, <- Hll, Hx.
Qed.

Lemma shuffle_from_perm {A : Type} (i : nat) (x : list A) (r : Rng) :
  Permutation (fst (shuffle_from i x r)) x.
Proof.
  revert x r; induction i as [|i IH]; intros x r; simpl.
  - apply Permutation_refl.
  - rewrite IH. apply swap_perm.
Qed.

Lemma shuffle_deck_perm (deck : list Card) (r : Rng) :
  Permutation (fst (shuffle_deck deck r)) deck.
Proof. apply shuffle_from_perm. Qed.

Lemma create_deck_NoDup : NoDup create_deck.
Proof.
  assert (E : nodup string_dec create_deck = create_deck)
    by (vm_compute; reflexivity).
  rewrite <- E. apply NoDup_nodup.
Qed.

Lemma create_deck_length : List.length create_deck = 52%nat.
Proof. reflexivity. Qed.

(** C8.  [create_deck] returns 52 cards without repetition, exactly the
    combinations of one of the 13 ranks with one of the 4 suits, and
    [shuffle_deck] returns a permutation of its input, of the same length. *)
Theorem deck_is_standard_and_shuffle_permutes :
  List.length RANKS = 13%nat /\ List.length SUITS = 4%nat /\
  List.length create_deck = 52%nat /\
  NoDup create_deck /\
  (forall c, In c create_deck <->
     exists rank suit, In rank RANKS /\ In suit SUITS /\
                       c = (rank ++ suit)%string) /\
  (forall deck r,
     Permutation (fst (shuffle_deck deck r)) deck /\
     List.length (fst (shuffle_deck deck r)) = List.length deck).
Proof.
  split; [reflexivity|]. split; [reflexivity|].
  split; [exact create_deck_length|]. split; [exact create_deck_NoDup|].
  split.
  - intros c. unfold create_deck. rewrite in_flat_map. split.
    + intros (suit & Hsuit & Hc). apply in_map_iff in Hc as (rank & <- & Hrank).
      now exists rank, suit.
    + intros (rank & suit & Hrank & Hsuit & ->).
      exists suit. split; [exact Hsuit|]. apply in_map_iff. now exists rank.
  - intros deck r. split.
    + apply shuffle_deck_perm.
    + apply Permutation_length, shuffle_deck_perm.
Qed.

End Deck.

Section Examples.

Example heads_up_positions :
  get_player_positions heads_up 2 = Ok (2, 1, 2).
Proof. reflexivity. Qed.

Example four_handed_positions :
  get_player_positions four_handed 5 = Ok (7, 2, 4).
Proof. reflexivity. Qed.

Example four_handed_absent_dealer :
  get_player_positions four_handed 3 = Ok (4, 5, 7).
Proof. reflexivity. Qed.

Example none_playing_positions :
  get_player_positions none_playing 1 = Raise ZeroDivisionError.
Proof. reflexivity. Qed.

Example next_eligible_wraps :
  next_eligible (eligible_seats four_handed) 7 = Some 2.
Proof. reflexivity. Qed.

End Examples.

End GameLogicFacts.

(** ** Properties of api/games.py *)

Module GamesFacts.
Import GameLogic Models Database Games Spec Samples GameLogicFacts.

Section Monad.

Lemma bind_Ok {A B : Type} (m : M A) (k : A -> M B) (w w' : World) (a : A) :
  m w = (Ok a, w') -> bind m k w = k a w'.
Proof. unfold bind. now intros ->. Qed.

Lemma bind_Raise {A B : Type} (m : M A) (k : A -> M B) (w w' : World) (e : exn) :
  m w = (Raise e, w') -> bind m k w = (Raise e, w').
Proof. unfold bind. now intros ->. Qed.

Lemma bind_ret {A B : Type} (a : A) (k : A -> M B) (w : World) :
  bind (ret a) k w = k a w.
Proof. reflexivity. Qed.

Lemma bind_execute {B : Type} (f : Db -> Db) (k : unit -> M B) (w : World) :
  bind (execute f) k w = k tt {| db := f (db w); rng := rng w |}.
Proof. reflexivity. Qed.

Variable R : Db -> Db -> Prop.
Hypothesis R_refl : forall d, R d d.
Hypothesis R_trans : forall d1 d2 d3, R d1 d2 -> R d2 d3 -> R d1 d3.

Lemma stable_ret {A : Type} (a : A) : stable R (ret a).
Proof. intros w. apply R_refl. Qed.

Lemma stable_raise {A : Type} (e : exn) : stable R (@raise A e).
Proof. intros w. apply R_refl. Qed.

Lemma stable_lift {A : Type} (r : result A) : stable R (lift r).
Proof. intros w. apply R_refl. Qed.

Lemma stable_query {A : Type} (f : Db -> A) : stable R (query f).
Proof. intros w. apply R_refl. Qed.

Lemma stable_with_random {A : Type} (f : Rng -> A * Rng) :
  stable R (with_random f).
Proof. intros w. unfold with_random. destruct (f (rng w)). apply R_refl. Qed.

Lemma stable_execute (f : Db -> Db) :
  (forall d, R d (f d)) -> stable R (execute f).
Proof. intros H w. apply H. Qed.

Lemma stable_bind {A B : Type} (m : M A) (k : A -> M B) :
  stable R m -> (forall a, stable R (k a)) -> stable R (bind m k).
Proof.
  intros Hm Hk w. unfold bind. specialize (Hm w).
  destruct (m w) as [[a|e] w1]; simpl in *.
  - apply (R_trans _ (db w1)); [exact Hm|]. apply Hk.
  - exact Hm.
Qed.

Lemma stable_try_except {A : Type} (m : M A) (detail : string) :
  stable R m -> stable R (try_except m detail).
Proof.
  intros Hm w. unfold try_except. specialize (Hm w).
  destruct (m w) as [[a|e] w1]; simpl in *; [exact Hm|].
  destruct e; exact Hm.
Qed.

Lemma stable_random_choice (l : list Z) : stable R (random_choice l).
Proof.
  destruct l as [|h t]; [apply stable_raise|].
  apply stable_bind; [apply stable_with_random|].
  intros i. apply stable_lift.
Qed.

Lemma stable_subscript (p : option Player) : stable R (subscript p).
Proof. destruct p; [apply stable_ret|apply stable_raise]. Qed.

End Monad.

Section StartNewHandStable.

Variable R : Db -> Db -> Prop.
Hypothesis R_refl : forall d, R d d.
Hypothesis R_trans : forall d1 d2 d3, R d1 d2 -> R d2 d3 -> R d1 d3.

Lemma player_at_In (players : list Player) (seat : Z) (p : Player) :
  player_at players seat = Some p -> In p players /\ seat_number p = seat.
Proof.
  intros H. apply find_some in H as [Hin Heq].
  split; [exact Hin|]. now apply Z.eqb_eq.
Qed.

Lemma stable_bind_subscript {B : Type} (o : option Player)
  (k : Player -> M B) :
  (forall p, o = Some p -> stable R (k p)) ->
  stable R (bind (subscript o) k).
Proof.
  intros H. destruct o as [p|].
  - intros w. apply (H p eq_refl).
  - intros w. apply R_refl.
Qed.

Lemma stable_deal_cards (players : list Player) (deck : list Card) :
  (forall pid cs d, R d (update_seat_cards pid cs d)) ->
  stable R (deal_cards players deck).
Proof.
  intros Hcards. revert deck.
  induction players as [|p rest IH]; intros deck; simpl.
  - now apply stable_ret.
  - apply stable_bind; auto using stable_lift. intros [c1 deck1].
    apply stable_bind; auto using stable_lift. intros [c2 deck2].
    apply stable_bind; auto. now apply stable_execute.
Qed.

(** Every write of [start_new_hand] is a card update, a chip update of one
    of the given players to its stack less a blind, or the game-state
    update. *)
Lemma stable_start_new_hand (gid : Z) (players : list Player)
  (settings : GameSettings) :
  (forall pid cs d, R d (update_seat_cards pid cs d)) ->
  (forall p d, In p players ->
     R d (update_seat_chip_count (id p)
            (chip_count p - small_blind settings) d)) ->
  (forall p d, In p players ->
     R d (update_seat_chip_count (id p)
            (chip_count p - big_blind settings) d)) ->
  (forall dealer pot bet cs turn d,
     R d (update_game_state gid dealer pot bet cs turn d)) ->
  stable R (start_new_hand gid players settings).
Proof.
  intros Hcards Hsb Hbb Hstate. unfold start_new_hand.
  apply stable_bind; auto using stable_with_random. intros deck.
  apply stable_bind; auto using stable_deal_cards. intros _.
  apply stable_bind; auto using stable_random_choice. intros dealer_seat.
  apply stable_bind; auto using stable_lift. intros [[sb_seat bb_seat] utg_seat].
  apply stable_bind_subscript. intros sb_player Esb.
  apply player_at_In in Esb as [Hsbin _].
  apply stable_bind; [exact R_trans|apply stable_execute; auto|]. intros _.
  apply stable_bind_subscript. intros bb_player Ebb.
  apply player_at_In in Ebb as [Hbbin _].
  apply stable_bind; [exact R_trans|apply stable_execute; auto|]. intros _.
  destruct (player_at players utg_seat);
    [apply stable_execute; auto|now apply stable_raise].
Qed.

End StartNewHandStable.

Section Chips.

Lemma chips_nonneg_cards (pid : Z) (cs : list Card) (d : Db) :
  chips_nonneg d -> chips_nonneg (update_seat_cards pid cs d).
Proof.
  unfold chips_nonneg, update_seat_cards, update_where. simpl.
  intros H. apply Forall_map. eapply Forall_impl; [|exact H].
  intros r Hr. now destruct (s_id r =? pid).
Qed.

Lemma chips_nonneg_chip_count (pid v : Z) (d : Db) :
  0 <= v -> chips_nonneg d -> chips_nonneg (update_seat_chip_count pid v d).
Proof.
  unfold chips_nonneg, update_seat_chip_count, update_where. simpl.
  intros Hv H. apply Forall_map. eapply Forall_impl; [|exact H].
  intros r Hr. now destruct (s_id r =? pid).
Qed.

(** Whichever seats the random dealer makes the blinds, and whether or not
    the run completes, [start_new_hand] leaves no seat below zero when every
    seat it is given covers both blinds. *)
Lemma start_new_hand_chips_nonneg (gid : Z) (players : list Player)
  (settings : GameSettings) (w : World) :
  chips_nonneg (db w) ->
  (forall p, In p players ->
     small_blind settings <= chip_count p /\
     big_blind settings <= chip_count p) ->
  chips_nonneg (db (snd (start_new_hand gid players settings w))).
Proof.
  intros Hbefore Hcover.
  apply (stable_start_new_hand (fun d d' => chips_nonneg d -> chips_nonneg d'));
    auto.
  - intros pid cs d. apply chips_nonneg_cards.
  - intros p d Hp. apply chips_nonneg_chip_count.
    destruct (Hcover p Hp). lia.
  - intros p d Hp. apply chips_nonneg_chip_count.
    destruct (Hcover p Hp). lia.
Qed.

(** Two seats with 5 chips each and blinds 5/10: the big-blind seat is left
    with 5 - 10 = -5 chips. *)
Lemma blinds_overdraw_short_stack :
  chips_nonneg (table_of (blinds_5_10 5 4) (two_seats 5)) /\
  0 < small_blind (blinds_5_10 5 4) /\ 0 < big_blind (blinds_5_10 5 4) /\
  chips_of 2
    (db (snd (start_new_hand 1
                (players_of (table_of (blinds_5_10 5 4) (two_seats 5)))
                (blinds_5_10 5 4)
                {| db := table_of (blinds_5_10 5 4) (two_seats 5);
                   rng := rng_zeros |}))) = Some (-5).
Proof.
  split; [|split; [|split]].
  - unfold chips_nonneg. cbn. repeat constructor; cbn; lia.
  - reflexivity.
  - reflexivity.
  - vm_compute. reflexivity.
Qed.

End Chips.

Section Running.

Lemma world_eta (w : World) : {| db := db w; rng := rng w |} = w.
Proof. now destruct w. Qed.

Lemma list_pop_top (c : Card) (below : list Card) :
  list_pop (rev (c :: below)) = Ok (c, rev below).
Proof. unfold list_pop. now rewrite rev_involutive. Qed.

(** With two cards per player in the deck the dealing loop completes; the
    deck is listed here top card first. *)
Lemma deal_cards_run (players : list Player) (top_first : list Card) (w : World) :
  (2 * List.length players <= List.length top_first)%nat ->
  deal_cards players (rev top_first) w =
    (Ok (rev (skipn (2 * List.length players) top_first)),
     {| db := deal_db players top_first (db w); rng := rng w |}).
Proof.
  revert top_first w.
  induction players as [|p rest IH]; intros t w Hlen.
  - simpl. unfold ret. now rewrite world_eta.
  - destruct t as [|c1 [|c2 below]]; simpl in Hlen; try lia.
    cbn [deal_cards].
    rewrite (bind_Ok _ _ w w (c1, rev (c2 :: below)))
      by (unfold lift; now rewrite list_pop_top).
    rewrite (bind_Ok _ _ w w (c2, rev below))
      by (unfold lift; now rewrite list_pop_top).
    rewrite (bind_Ok _ _ w
               {| db := update_seat_cards (id p) [c1; c2] (db w); rng := rng w |}
               tt) by reflexivity.
    rewrite IH by (simpl; lia).
    replace (2 * List.length (p :: rest))%nat
      with (S (S (2 * List.length rest))) by (simpl; lia).
    reflexivity.
Qed.

Lemma shuffle_from_rng {A : Type} (i : nat) (x : list A) (r : Rng) :
  snd (shuffle_from i x r) =
    {| draws := draws r; cursor := (cursor r + i)%nat |}.
Proof.
  revert x r; induction i as [|i IH]; intros x r; simpl.
  - rewrite Nat.add_0_r. now destruct r.
  - rewrite IH. simpl. f_equal. lia.
Qed.

Lemma shuffled_deck_length (r : Rng) :
  List.length (fst (shuffle_deck create_deck r)) = 52%nat.
Proof.
  rewrite (Permutation_length (shuffle_deck_perm create_deck r)).
  reflexivity.
Qed.

Lemma shuffled_deck_rng (r : Rng) :
  snd (shuffle_deck create_deck r) =
    {| draws := draws r; cursor := (cursor r + 51)%nat |}.
Proof. unfold shuffle_deck, random_shuffle. now rewrite shuffle_from_rng. Qed.

Lemma player_at_exists (players : list Player) (s : Z) :
  In s (map seat_number players) -> exists p, player_at players s = Some p.
Proof.
  intros Hin. unfold player_at.
  destruct (find (fun p => seat_number p =? s) players) as [p|] eqn:E;
    [now exists p|].
  apply in_map_iff in Hin as (q & Hq & Hin).
  pose proof (find_none _ _ E q Hin) as Hn. simpl in Hn.
  apply Z.eqb_neq in Hn. contradiction.
Qed.

Lemma player_seats_are_seats (players : list Player) (s : Z) :
  In s (player_seats players) -> In s (map seat_number players).
Proof.
  intros H. apply eligible_In in H. unfold eligible_seats in H.
  apply in_map_iff in H as (p & <- & Hp). apply filter_In in Hp as [Hp _].
  now apply in_map.
Qed.

(** The positions returned are seats of playing players. *)
Lemma positions_are_playing (players : list Player) (dealer_seat : Z) :
  filter is_playing players <> [] ->
  exists sb bb utg,
    get_player_positions players dealer_seat = Ok (sb, bb, utg) /\
    In sb (player_seats players) /\ In bb (player_seats players) /\
    In utg (player_seats players).
Proof.
  intros Hne.
  destruct (positions_eval players dealer_seat) as
    (btn & sb & bb & utg & Hbtn & Hsb & Hbb & Hutg & Heval).
  { rewrite player_seats_length. destruct (filter is_playing players);
      [contradiction|discriminate]. }
  apply nth_error_In in Hbtn, Hsb, Hbb, Hutg.
  destruct (Nat.eqb _ 2).
  - now exists btn, sb, btn.
  - now exists sb, bb, utg.
Qed.


(** The run of [start_new_hand] on a non-empty list of at most 26 players
    with a playing seat among them: it completes, and the world it leaves is
    the dealt table with the two blinds taken and the game state set. *)
Lemma start_new_hand_run (gid : Z) (players : list Player)
  (settings : GameSettings) (w : World) :
  players <> [] ->
  (List.length players <= 26)%nat ->
  filter is_playing players <> [] ->
  exists dealer sb_seat bb_seat utg_seat sb_player bb_player utg_player,
    nth_error (map seat_number players) (dealer_draw players (rng w))
      = Some dealer /\
    get_player_positions players dealer = Ok (sb_seat, bb_seat, utg_seat) /\
    player_at players sb_seat = Some sb_player /\
    player_at players bb_seat = Some bb_player /\
    player_at players utg_seat = Some utg_player /\
    start_new_hand gid players settings w =
      (Ok tt,
       {| db :=
            update_game_state gid dealer
              (small_blind settings + big_blind settings)
              (big_blind settings) [] (user_id utg_player)
              (update_seat_chip_count (id bb_player)
                 (chip_count bb_player - big_blind settings)
                 (update_seat_chip_count (id sb_player)
                    (chip_count sb_player - small_blind settings)
                    (deal_db players
                       (rev (fst (shuffle_deck create_deck (rng w))))
                       (db w))));
          rng := {| draws := draws (rng w);
                    cursor := S (cursor (rng w) + 51) |} |}).
Proof.
  intros Hne Hlen Hplaying.
  pose proof (shuffled_deck_length (rng w)) as Hdeck.
  pose proof (shuffled_deck_rng (rng w)) as Hrng.
  destruct (shuffle_deck create_deck (rng w)) as [deck r1] eqn:Hshuffle.
  cbn [fst snd] in Hdeck, Hrng |- *. subst r1.
  set (seats := map seat_number players).
  assert (Hseats : (dealer_draw players (rng w) < List.length seats)%nat).
  { unfold seats, dealer_draw. rewrite length_map.
    apply Nat.mod_upper_bound. destruct players; [contradiction|discriminate]. }
  destruct (nth_error_in_range seats _ Hseats) as [dealer Hdealer].
  destruct (positions_are_playing players dealer Hplaying) as
    (sb_seat & bb_seat & utg_seat & Hpos & Hsb & Hbb & Hutg).
  apply player_seats_are_seats, player_at_exists in Hsb, Hbb, Hutg.
  destruct Hsb as [sb_player Hsb], Hbb as [bb_player Hbb],
    Hutg as [utg_player Hutg].
  exists dealer, sb_seat, bb_seat, utg_seat, sb_player, bb_player, utg_player.
  repeat (split; [assumption|]).
  unfold start_new_hand.
  rewrite (bind_Ok _ _ w
             {| db := db w;
                rng := {| draws := draws (rng w);
                          cursor := (cursor (rng w) + 51)%nat |} |} deck)
    by (unfold with_random; now rewrite Hshuffle).
  rewrite <- (rev_involutive deck) at 1.
  erewrite bind_Ok;
    [|apply deal_cards_run; rewrite length_rev, Hdeck; lia].
  cbn [db rng].
  rewrite (bind_Ok _ _ _
             {| db := deal_db players (rev deck) (db w);
                rng := {| draws := draws (rng w);
                          cursor := S (cursor (rng w) + 51) |} |} dealer).
  2:{ unfold random_choice. fold seats.
      destruct seats as [|s0 rest] eqn:Eseats; [simpl in Hseats; lia|].
      rewrite <- Eseats in *.
      erewrite bind_Ok by (unfold with_random, randbelow; reflexivity).
      unfold lift. cbn [db rng draws cursor].
      rewrite (getitem_Some _ _ dealer); [reflexivity|].
      unfold dealer_draw in Hdealer. unfold seats at 2.
      rewrite length_map. exact Hdealer. }
  rewrite (bind_Ok _ _ _ _ (sb_seat, bb_seat, utg_seat))
    by (unfold lift; now rewrite Hpos).
  cbv beta iota zeta.
  rewrite Hsb, Hbb, Hutg. cbv beta iota delta [subscript].
  rewrite !bind_ret, !bind_execute. cbn [db rng].
  reflexivity.
Qed.

Lemma deal_db_game_state (players : list Player) (t : list Card) (d : Db) :
  game_state (deal_db players t d) = game_state d.
Proof.
  revert t d; induction players as [|p rest IH]; intros t d; [reflexivity|].
  destruct t as [|c1 [|c2 below]]; try reflexivity.
  simpl. now rewrite IH.
Qed.

Lemma state_of_game_updated (gid dealer pot bet : Z) (cs : list Card)
  (turn : string) (d : Db) (g0 : GameStateRow) :
  state_of_game gid d = Some g0 ->
  state_of_game gid (update_game_state gid dealer pot bet cs turn d) =
    Some {| gs_game_id := gs_game_id g0; dealer_position := Some dealer;
            pot_size := pot; current_bet := bet; community_cards := cs;
            current_player_turn := Some turn |}.
Proof.
  unfold state_of_game, update_game_state, update_where. simpl.
  induction (game_state d) as [|g rest IH]; simpl; [discriminate|].
  destruct (gs_game_id g =? gid) eqn:E; simpl.
  - rewrite E. now intros [= ->].
  - rewrite E. exact IH.
Qed.

(** The game state a completed run of [start_new_hand] leaves. *)
Lemma start_new_hand_state (gid : Z) (players : list Player)
  (settings : GameSettings) (w : World) (g0 : GameStateRow) :
  players <> [] ->
  (List.length players <= 26)%nat ->
  filter is_playing players <> [] ->
  state_of_game gid (db w) = Some g0 ->
  exists dealer turn,
    nth_error (map seat_number players) (dealer_draw players (rng w))
      = Some dealer /\
    fst (start_new_hand gid players settings w) = Ok tt /\
    state_of_game gid (db (snd (start_new_hand gid players settings w))) =
      Some {| gs_game_id := gs_game_id g0; dealer_position := Some dealer;
              pot_size := small_blind settings + big_blind settings;
              current_bet := big_blind settings; community_cards := [];
              current_player_turn := Some turn |}.
Proof.
  intros Hne Hlen Hplaying Hstate.
  destruct (start_new_hand_run gid players settings w Hne Hlen Hplaying) as
    (dealer & sb & bb & utg & sbp & bbp & utgp & Hd & _ & _ & _ & _ & Hrun).
  exists dealer, (user_id utgp). split; [exact Hd|].
  rewrite Hrun. cbn [fst snd db]. split; [reflexivity|].
  apply state_of_game_updated.
  unfold state_of_game in *. cbn [game_state update_seat_chip_count with_seats].
  now rewrite deal_db_game_state.
Qed.

End Running.

Section Dealer.

(** C6 (amended).  On a table with a game-state row, handed between 1 and
    26 players of whom one at least is playing, [start_new_hand] assigns as
    dealer the seat number [random.choice] draws among all the players it is
    given: the seat at the index the random source yields after the
    shuffle.  Every given player's seat is assigned under some stream of
    the random source. *)
Theorem dealer_is_drawn_at_random (gid : Z) (players : list Player)
  (settings : GameSettings) (w : World) :
  players <> [] ->
  (List.length players <= 26)%nat ->
  filter is_playing players <> [] ->
  state_of_game gid (db w) <> None ->
  dealer_after gid players settings w =
    nth_error (map seat_number players) (dealer_draw players (rng w)) /\
  (exists p, In p players /\
     dealer_after gid players settings w = Some (seat_number p)) /\
  (forall p, In p players ->
     exists r,
       dealer_after gid players settings {| db := db w; rng := r |} =
         Some (seat_number p)).
Proof.
  intros Hne Hlen Hplaying Hstate.
  destruct (state_of_game gid (db w)) as [g0|] eqn:Eg; [clear Hstate|congruence].
  assert (Hat : forall r,
            dealer_after gid players settings {| db := db w; rng := r |} =
              nth_error (map seat_number players) (dealer_draw players r)).
  { intros r.
    destruct (start_new_hand_state gid players settings
                {| db := db w; rng := r |} g0 Hne Hlen Hplaying Eg) as
      (dealer & turn & Hd & _ & Hs).
    unfold dealer_after. rewrite Hs. cbn [dealer_position rng] in *.
    now rewrite Hd. }
  assert (Hw : dealer_after gid players settings w =
               nth_error (map seat_number players) (dealer_draw players (rng w))).
  { rewrite <- (world_eta w) at 1. apply Hat. }
  split; [exact Hw|]. split.
  - assert (Hi : (dealer_draw players (rng w) < List.length players)%nat).
    { apply Nat.mod_upper_bound. destruct players; [contradiction|discriminate]. }
    destruct (nth_error players (dealer_draw players (rng w))) as [p|] eqn:Ep;
      [|apply nth_error_None in Ep; lia].
    exists p. split; [eapply nth_error_In; eauto|].
    rewrite Hw. now apply map_nth_error.
  - intros p Hp. apply In_nth_error in Hp as [i Hi].
    assert (Hlt : (i < List.length players)%nat)
      by (apply nth_error_Some; congruence).
    exists {| draws := fun _ => i; cursor := 0 |}.
    rewrite Hat. unfold dealer_draw. cbn [draws cursor].
    rewrite Nat.mod_small by exact Hlt.
    now apply map_nth_error.
Qed.

Lemma dealer_is_drawn_at_random_witness :
  dealer_after 1 three_handed (blinds_5_10 100 4)
    {| db := table_of (blinds_5_10 100 4) (three_seats 100); rng := rng_ones |} =
    nth_error (map seat_number three_handed)
      (dealer_draw three_handed rng_ones) /\
  (exists p, In p three_handed /\
     dealer_after 1 three_handed (blinds_5_10 100 4)
       {| db := table_of (blinds_5_10 100 4) (three_seats 100);
          rng := rng_ones |} = Some (seat_number p)) /\
  (forall p, In p three_handed ->
     exists r,
       dealer_after 1 three_handed (blinds_5_10 100 4)
         {| db := table_of (blinds_5_10 100 4) (three_seats 100); rng := r |} =
         Some (seat_number p)).
Proof.
  apply (dealer_is_drawn_at_random 1 three_handed (blinds_5_10 100 4)
           {| db := table_of (blinds_5_10 100 4) (three_seats 100);
              rng := rng_ones |}).
  - discriminate.
  - cbn. lia.
  - discriminate.
  - discriminate.
Defined.

(** The same two players and the same settings, run on a random source whose
    draws are all 0 and on one whose draws are all 1: the first run makes
    seat 1 the dealer, the second seat 2. *)
Lemma dealer_differs_between_runs :
  dealer_after 1 heads_up (blinds_5_10 100 4)
    {| db := table_of (blinds_5_10 100 4) (two_seats 100); rng := rng_zeros |}
    = Some 1 /\
  dealer_after 1 heads_up (blinds_5_10 100 4)
    {| db := table_of (blinds_5_10 100 4) (two_seats 100); rng := rng_ones |}
    = Some 2.
Proof. split; vm_compute; reflexivity. Qed.

End Dealer.

Section Rows.

Lemma dealt_row_id (ids : list Z) (t : list Card) (r : SeatRow) :
  s_id (dealt_row ids t r) = s_id r /\
  s_game_id (dealt_row ids t r) = s_game_id r /\
  s_chip_count (dealt_row ids t r) = s_chip_count r /\
  s_seat_number (dealt_row ids t r) = s_seat_number r.
Proof.
  revert t; induction ids as [|pid ids IH]; intros t; simpl; [auto|].
  destruct t as [|c1 [|c2 below]]; auto.
  destruct (s_id r =? pid); [simpl; auto|apply IH].
Qed.

Lemma dealt_row_other (ids : list Z) (t : list Card) (r : SeatRow) :
  ~ In (s_id r) ids -> dealt_row ids t r = r.
Proof.
  revert t; induction ids as [|pid ids IH]; intros t Hn; simpl; [reflexivity|].
  destruct t as [|c1 [|c2 below]]; try reflexivity.
  destruct (s_id r =? pid) eqn:E.
  - apply Z.eqb_eq in E. exfalso. apply Hn. now left.
  - apply IH. intros H. apply Hn. now right.
Qed.

(** Row by row, the dealing loop is [dealt_row] when the players' ids are
    distinct. *)
Lemma deal_db_rows (players : list Player) (t : list Card) (d : Db) :
  NoDup (map id players) ->
  deal_db players t d =
    with_seats d (map (dealt_row (map id players) t) (seats d)).
Proof.
  revert t d; induction players as [|p rest IH]; intros t d Hnd.
  - simpl. rewrite map_id. now destruct d.
  - destruct t as [|c1 [|c2 below]];
      try (simpl; rewrite map_id; now destruct d).
    inversion Hnd as [|? ? Hnotin Hnd']; subst.
    cbn [deal_db]. rewrite IH by exact Hnd'.
    unfold update_seat_cards, with_seats, update_where. cbn [seats games game_state].
    f_equal. rewrite map_map. apply map_ext. intros r.
    cbn [map dealt_row].
    destruct (s_id r =? id p) eqn:E; [|reflexivity].
    apply dealt_row_other. cbn [s_id set_cards].
    apply Z.eqb_eq in E. now rewrite E.
Qed.

Lemma find_row_by_id (l : list SeatRow) (r : SeatRow) :
  NoDup (map s_id l) -> In r l ->
  find (fun x => s_id x =? s_id r) l = Some r.
Proof.
  induction l as [|h t IH]; intros Hnd Hin; [contradiction|].
  inversion Hnd as [|? ? Hnotin Hnd']; subst. simpl.
  destruct Hin as [->|Hin].
  - now rewrite Z.eqb_refl.
  - destruct (s_id h =? s_id r) eqn:E.
    + apply Z.eqb_eq in E. exfalso. apply Hnotin. rewrite E. now apply in_map.
    + now apply IH.
Qed.

Lemma find_map_same_id (h : SeatRow -> SeatRow) (pid : Z) (l : list SeatRow) :
  (forall r, s_id (h r) = s_id r) ->
  find (fun x => s_id x =? pid) (map h l) =
    option_map h (find (fun x => s_id x =? pid) l).
Proof.
  intros Hid. induction l as [|r t IH]; simpl; [reflexivity|].
  rewrite Hid. destruct (s_id r =? pid); [reflexivity|exact IH].
Qed.

Lemma filter_map_same_game (h : SeatRow -> SeatRow) (gid : Z) (l : list SeatRow) :
  (forall r, s_game_id (h r) = s_game_id r) ->
  filter (fun r => s_game_id r =? gid) (map h l) =
    map h (filter (fun r => s_game_id r =? gid) l).
Proof.
  intros Hg. induction l as [|r t IH]; simpl; [reflexivity|].
  rewrite Hg. destruct (s_game_id r =? gid); simpl; now rewrite IH.
Qed.

(** Rewriting the chip count of one row of a keyed list moves the total by
    the difference. *)
Lemma total_chips_update (l : list SeatRow) (r : SeatRow) (v : Z) :
  NoDup (map s_id l) -> In r l ->
  total_chips (update_where (fun x => s_id x =? s_id r) (set_chip_count v) l) =
    total_chips l - s_chip_count r + v.
Proof.
  unfold total_chips, update_where.
  induction l as [|h t IH]; intros Hnd Hin; [contradiction|].
  inversion Hnd as [|? ? Hnotin Hnd']; subst. simpl.
  destruct Hin as [->|Hin].
  - rewrite Z.eqb_refl. simpl.
    replace (map (fun r0 => if s_id r0 =? s_id r then set_chip_count v r0 else r0) t)
      with t; [lia|].
    rewrite <- (map_id t) at 1. apply map_ext_in. intros x Hx.
    destruct (s_id x =? s_id r) eqn:E; [|reflexivity].
    apply Z.eqb_eq in E. exfalso. apply Hnotin. rewrite <- E. now apply in_map.
  - destruct (s_id h =? s_id r) eqn:E.
    + apply Z.eqb_eq in E. exfalso. apply Hnotin. rewrite E. now apply in_map.
    + rewrite IH by assumption. lia.
Qed.

Lemma total_chips_same (h : SeatRow -> SeatRow) (l : list SeatRow) :
  (forall r, s_chip_count (h r) = s_chip_count r) ->
  total_chips (map h l) = total_chips l.
Proof.
  intros Hc. unfold total_chips. rewrite map_map. f_equal.
  apply map_ext. exact Hc.
Qed.

Lemma NoDup_filter_ids (gid : Z) (d : Db) :
  NoDup (map s_id (seats d)) -> NoDup (map s_id (seats_of_game gid d)).
Proof.
  unfold seats_of_game. induction (seats d) as [|r t IH]; simpl; intros Hnd;
    [constructor|].
  inversion Hnd as [|? ? Hnotin Hnd']; subst.
  destruct (s_game_id r =? gid); simpl; [|now apply IH].
  constructor; [|now apply IH].
  intros H. apply Hnotin. apply in_map_iff in H as (x & Hx & Hin).
  apply filter_In in Hin as [Hin _]. rewrite <- Hx. now apply in_map.
Qed.

Lemma NoDup_map_injective_on {A B : Type} (f : A -> B) (l : list A) (x y : A) :
  NoDup (map f l) -> In x l -> In y l -> f x = f y -> x = y.
Proof.
  induction l as [|h t IH]; intros Hnd Hx Hy E; [contradiction|].
  inversion Hnd as [|? ? Hnotin Hnd']; subst.
  destruct Hx as [->|Hx], Hy as [->|Hy]; auto.
  - exfalso. apply Hnotin. rewrite E. now apply in_map.
  - exfalso. apply Hnotin. rewrite <- E. now apply in_map.
Qed.

End Rows.

Section Blinds.

Lemma distinct_keys_filter {K T : Type} (keep : T -> bool) (key : T -> K)
  (rows : list T) :
  NoDup (map key rows) -> NoDup (map key (filter keep rows)).
Proof.
  intros Hnd. induction rows as [|r rest IH]; [constructor|].
  apply NoDup_cons_iff in Hnd as [Hfresh Hrest]. cbn [filter].
  destruct (keep r); [|now apply IH]. cbn [map].
  apply NoDup_cons; [|now apply IH].
  intros Hin. apply Hfresh.
  apply in_map_iff in Hin as (x & Hx & Hin).
  apply filter_In in Hin as [Hin _]. rewrite <- Hx. now apply in_map.
Qed.

(** With two playing seats or more, of distinct seat numbers, the two blinds
    fall on different seats wherever the dealer seat is. *)
Lemma blinds_differ (players : list Player) (dealer_seat sb bb utg : Z) :
  NoDup (eligible_seats players) ->
  (2 <= List.length (eligible_seats players))%nat ->
  get_player_positions players dealer_seat = Ok (sb, bb, utg) ->
  sb <> bb.
Proof.
  intros Hnd Hlen Hpos.
  apply eligible_NoDup_seats in Hnd. rewrite <- eligible_length in Hlen.
  destruct (positions_eval players dealer_seat) as
    (btn & sb' & bb' & utg' & Hbtn & Hsb & Hbb & Hutg & Heval); [lia|].
  set (seats := player_seats players) in *.
  set (n := List.length seats) in *.
  set (di := dealer_index_of seats dealer_seat) in *.
  assert (Hdi : (di < n)%nat) by (apply nth_error_Some; congruence).
  rewrite Hpos in Heval.
  assert (Hneq : forall i j a b, (i < n)%nat -> i <> j ->
            nth_error seats i = Some a -> nth_error seats j = Some b -> a <> b).
  { intros i j a b Hi Hij Ha Hb ->. apply Hij.
    apply (proj1 (NoDup_nth_error seats) Hnd i j Hi). congruence. }
  destruct (Nat.eqb n 2) eqn:E2.
  - apply Nat.eqb_eq in E2. injection Heval as -> -> _.
    apply (Hneq di (Nat.modulo (di + 1) n)); auto.
    intros E. rewrite <- (Nat.mod_small di n) in E at 1 by lia.
    apply mod_near_inj in E; lia.
  - apply Nat.eqb_neq in E2. injection Heval as -> -> _.
    apply (Hneq (Nat.modulo (di + 1) n) (Nat.modulo (di + 2) n)); auto.
    + apply Nat.mod_upper_bound. lia.
    + intros E. apply mod_near_inj in E; lia.
Qed.

Lemma chip_update_keeps (pid v : Z) (r : SeatRow) :
  s_id (if s_id r =? pid then set_chip_count v r else r) = s_id r /\
  s_game_id (if s_id r =? pid then set_chip_count v r else r) = s_game_id r.
Proof. destruct (s_id r =? pid); auto. Qed.

Lemma find_filter_nonempty {A : Type} (p : A -> bool) (l : list A) :
  filter p l <> [] -> exists a, find p l = Some a.
Proof.
  induction l as [|h t IH]; simpl; [congruence|].
  destruct (p h); [now exists h|exact IH].
Qed.

End Blinds.

Section Conservation.

(** C3 (amended).  On a table with unique seat ids and seat numbers and a
    game-state row, with the players read from the table, at most 26 of them
    and at least 2 playing: [start_new_hand] completes; the small-blind seat
    holds exactly [small_blind] less and the big-blind seat exactly
    [big_blind] less than before; [pot_size] is [small_blind + big_blind] and
    [current_bet] is [big_blind]; and the seats' chips plus the pot equal the
    seats' chips before the hand. *)
Theorem blinds_conserve_chips (gid : Z) (players : list Player)
  (settings : GameSettings) (w : World) :
  table_ok gid (db w) ->
  players = map player_of_row (seats_of_game gid (db w)) ->
  (List.length players <= 26)%nat ->
  (2 <= List.length (eligible_seats players))%nat ->
  exists dealer sb_seat bb_seat utg_seat sb_row bb_row g,
    fst (start_new_hand gid players settings w) = Ok tt /\
    get_player_positions players dealer = Ok (sb_seat, bb_seat, utg_seat) /\
    In sb_row (seats_of_game gid (db w)) /\ s_seat_number sb_row = sb_seat /\
    In bb_row (seats_of_game gid (db w)) /\ s_seat_number bb_row = bb_seat /\
    chips_of (s_id sb_row) (db (snd (start_new_hand gid players settings w))) =
      Some (s_chip_count sb_row - small_blind settings) /\
    chips_of (s_id bb_row) (db (snd (start_new_hand gid players settings w))) =
      Some (s_chip_count bb_row - big_blind settings) /\
    state_of_game gid (db (snd (start_new_hand gid players settings w))) =
      Some g /\
    dealer_position g = Some dealer /\
    pot_size g = small_blind settings + big_blind settings /\
    current_bet g = big_blind settings /\
    total_chips (seats_of_game gid
                   (db (snd (start_new_hand gid players settings w))))
      + pot_size g
    = total_chips (seats_of_game gid (db w)).
Proof.
  intros [Hids Hnums Hstate] Hplayers Hlen Hplaying.
  set (rows := seats (db w)) in *.
  set (grows := seats_of_game gid (db w)) in *.
  assert (Hgids : NoDup (map s_id grows)) by now apply NoDup_filter_ids.
  assert (Hpids : NoDup (map id players)).
  { rewrite Hplayers, map_map. exact Hgids. }
  assert (Helig : NoDup (eligible_seats players)).
  { unfold eligible_seats. apply distinct_keys_filter.
    rewrite Hplayers, map_map. exact Hnums. }
  assert (Hactive : filter is_playing players <> []).
  { unfold eligible_seats in Hplaying. rewrite length_map in Hplaying.
    destruct (filter is_playing players); [simpl in Hplaying; lia|discriminate]. }
  assert (Hne : players <> []).
  { intros E. apply Hactive. now rewrite E. }
  destruct (find_filter_nonempty (fun g => gs_game_id g =? gid)
              (game_state (db w))) as [g0 Hg0].
  { intros E. rewrite E in Hstate. discriminate. }
  destruct (start_new_hand_run gid players settings w Hne Hlen Hactive) as
    (dealer & sb & bb & utg & sbp & bbp & utgp &
     Hd & Hpos & Hsb & Hbb & Hutg & Hrun).
  remember (rev (fst (shuffle_deck create_deck (rng w)))) as top_first eqn:Et.
  clear Et. rewrite Hrun. clear Hrun. cbn [fst snd db].
  pose proof (blinds_differ players dealer sb bb utg Helig Hplaying Hpos) as Hdiff.
  apply player_at_In in Hsb as [Hsbin Hsbseat], Hbb as [Hbbin Hbbseat].
  rewrite Hplayers in Hsbin, Hbbin.
  apply in_map_iff in Hsbin as (sb_row & Esb & Hsbrow).
  apply in_map_iff in Hbbin as (bb_row & Ebb & Hbbrow).
  assert (Hsbrows : In sb_row rows)
    by (unfold grows, seats_of_game in Hsbrow; now apply filter_In in Hsbrow).
  assert (Hbbrows : In bb_row rows)
    by (unfold grows, seats_of_game in Hbbrow; now apply filter_In in Hbbrow).
  assert (Hidneq : s_id sb_row <> s_id bb_row).
  { intros E.
    assert (sb_row = bb_row)
      by (apply (NoDup_map_injective_on s_id rows); auto).
    subst bb_row. apply Hdiff. rewrite <- Hsbseat, <- Hbbseat. congruence. }
  assert (Esbid : id sbp = s_id sb_row) by (now rewrite <- Esb).
  assert (Ebbid : id bbp = s_id bb_row) by (now rewrite <- Ebb).
  assert (Esbc : chip_count sbp = s_chip_count sb_row) by (now rewrite <- Esb).
  assert (Ebbc : chip_count bbp = s_chip_count bb_row) by (now rewrite <- Ebb).
  assert (Esbn : s_seat_number sb_row = sb) by (now rewrite <- Hsbseat, <- Esb).
  assert (Ebbn : s_seat_number bb_row = bb) by (now rewrite <- Hbbseat, <- Ebb).
  exists dealer, sb, bb, utg, sb_row, bb_row.
  exists {| gs_game_id := gs_game_id g0; dealer_position := Some dealer;
            pot_size := small_blind settings + big_blind settings;
            current_bet := big_blind settings; community_cards := [];
            current_player_turn := Some (user_id utgp) |}.
  cbn [pot_size current_bet dealer_position].
  rewrite (deal_db_rows players _ (db w) Hpids). fold rows.
  rewrite Esbid, Ebbid, Esbc, Ebbc.
  set (F := dealt_row (map id players) top_first).
  set (vs := s_chip_count sb_row - small_blind settings).
  set (vb := s_chip_count bb_row - big_blind settings).
  set (hs := fun r => if s_id r =? s_id sb_row then set_chip_count vs r else r).
  set (hb := fun r => if s_id r =? s_id bb_row then set_chip_count vb r else r).
  assert (HF : forall r, s_id (F r) = s_id r /\ s_game_id (F r) = s_game_id r /\
                         s_chip_count (F r) = s_chip_count r).
  { intros r. destruct (dealt_row_id (map id players) top_first r)
      as (? & ? & ? & ?). auto. }
  assert (Hhs : forall r, s_id (hs r) = s_id r /\ s_game_id (hs r) = s_game_id r)
    by (intros r; apply chip_update_keeps).
  assert (Hhb : forall r, s_id (hb r) = s_id r /\ s_game_id (hb r) = s_game_id r)
    by (intros r; apply chip_update_keeps).
  assert (Hhs_sb : hs (F sb_row) = set_chip_count vs (F sb_row)).
  { unfold hs. rewrite (proj1 (HF sb_row)). now rewrite Z.eqb_refl. }
  assert (Hhs_bb : hs (F bb_row) = F bb_row).
  { unfold hs. rewrite (proj1 (HF bb_row)).
    destruct (s_id bb_row =? s_id sb_row) eqn:E; [|reflexivity].
    apply Z.eqb_eq in E. congruence. }
  assert (Hhb_sb : hb (set_chip_count vs (F sb_row)) = set_chip_count vs (F sb_row)).
  { unfold hb. cbn [s_id set_chip_count]. rewrite (proj1 (HF sb_row)).
    destruct (s_id sb_row =? s_id bb_row) eqn:E; [|reflexivity].
    apply Z.eqb_eq in E. congruence. }
  assert (Hhb_bb : hb (F bb_row) = set_chip_count vb (F bb_row)).
  { unfold hb. rewrite (proj1 (HF bb_row)). now rewrite Z.eqb_refl. }
  assert (Hfinal : forall r, In r rows ->
            seat_row (s_id r)
              (update_game_state gid dealer
                 (small_blind settings + big_blind settings)
                 (big_blind settings) [] (user_id utgp)
                 (update_seat_chip_count (s_id bb_row) vb
                    (update_seat_chip_count (s_id sb_row) vs
                       (with_seats (db w) (map F rows)))))
            = Some (hb (hs (F r)))).
  { intros r Hr. unfold seat_row, update_game_state, update_seat_chip_count,
      with_seats, update_where. cbn [seats].
    fold hs. fold hb.
    rewrite !find_map_same_id;
      [|intros x; apply HF|intros x; apply Hhs|intros x; apply Hhb].
    fold rows. now rewrite (find_row_by_id rows r Hids Hr). }
  repeat split; auto.
  - unfold chips_of. rewrite (Hfinal sb_row Hsbrows).
    now rewrite Hhs_sb, Hhb_sb.
  - unfold chips_of. rewrite (Hfinal bb_row Hbbrows).
    now rewrite Hhs_bb, Hhb_bb.
  - apply state_of_game_updated. exact Hg0.
  - unfold seats_of_game, update_game_state, update_seat_chip_count,
      with_seats, update_where. cbn [seats].
    fold hs. fold hb.
    rewrite !filter_map_same_game;
      [|intros x; apply HF|intros x; apply Hhs|intros x; apply Hhb].
    fold rows. change (filter (fun r => s_game_id r =? gid) rows) with grows.
    assert (Hl2 : NoDup (map s_id (map F grows))).
    { rewrite map_map. erewrite map_ext; [exact Hgids|]. intros x. apply HF. }
    assert (Hl1 : NoDup (map s_id (map hs (map F grows)))).
    { rewrite map_map. erewrite map_ext; [exact Hl2|]. intros x. apply Hhs. }
    assert (Hin1 : In (F bb_row) (map hs (map F grows))).
    { rewrite <- Hhs_bb. now apply in_map, in_map. }
    pose proof (total_chips_update _ _ vb Hl1 Hin1) as T1.
    pose proof (total_chips_update _ _ vs Hl2 (in_map F _ _ Hsbrow)) as T2.
    unfold update_where in T1, T2.
    rewrite (proj1 (HF bb_row)) in T1. rewrite (proj1 (HF sb_row)) in T2.
    fold hb in T1. fold hs in T2.
    rewrite T1, T2, (total_chips_same F) by (intros x; apply HF).
    rewrite (proj2 (proj2 (HF bb_row))), (proj2 (proj2 (HF sb_row))).
    unfold vs, vb. lia.
Qed.

Lemma blinds_conserve_chips_witness :
  exists dealer sb_seat bb_seat utg_seat sb_row bb_row g,
    fst (start_new_hand 1
           (players_of (table_of (blinds_5_10 100 4) (three_seats 100)))
           (blinds_5_10 100 4)
           {| db := table_of (blinds_5_10 100 4) (three_seats 100);
              rng := rng_ones |}) = Ok tt /\
    get_player_positions
      (players_of (table_of (blinds_5_10 100 4) (three_seats 100))) dealer
      = Ok (sb_seat, bb_seat, utg_seat) /\
    In sb_row (seats_of_game 1 (table_of (blinds_5_10 100 4) (three_seats 100))) /\
    s_seat_number sb_row = sb_seat /\
    In bb_row (seats_of_game 1 (table_of (blinds_5_10 100 4) (three_seats 100))) /\
    s_seat_number bb_row = bb_seat /\
    chips_of (s_id sb_row)
      (db (snd (start_new_hand 1
                  (players_of (table_of (blinds_5_10 100 4) (three_seats 100)))
                  (blinds_5_10 100 4)
                  {| db := table_of (blinds_5_10 100 4) (three_seats 100);
                     rng := rng_ones |}))) =
      Some (s_chip_count sb_row - small_blind (blinds_5_10 100 4)) /\
    chips_of (s_id bb_row)
      (db (snd (start_new_hand 1
                  (players_of (table_of (blinds_5_10 100 4) (three_seats 100)))
                  (blinds_5_10 100 4)
                  {| db := table_of (blinds_5_10 100 4) (three_seats 100);
                     rng := rng_ones |}))) =
      Some (s_chip_count bb_row - big_blind (blinds_5_10 100 4)) /\
    state_of_game 1
      (db (snd (start_new_hand 1
                  (players_of (table_of (blinds_5_10 100 4) (three_seats 100)))
                  (blinds_5_10 100 4)
                  {| db := table_of (blinds_5_10 100 4) (three_seats 100);
                     rng := rng_ones |}))) = Some g /\
    dealer_position g = Some dealer /\
    pot_size g =
      small_blind (blinds_5_10 100 4) + big_blind (blinds_5_10 100 4) /\
    current_bet g = big_blind (blinds_5_10 100 4) /\
    total_chips
      (seats_of_game 1
         (db (snd (start_new_hand 1
                     (players_of (table_of (blinds_5_10 100 4) (three_seats 100)))
                     (blinds_5_10 100 4)
                     {| db := table_of (blinds_5_10 100 4) (three_seats 100);
                        rng := rng_ones |}))))
      + pot_size g
    = total_chips (seats_of_game 1 (table_of (blinds_5_10 100 4) (three_seats 100))).
Proof.
  apply (blinds_conserve_chips 1
           (players_of (table_of (blinds_5_10 100 4) (three_seats 100)))
           (blinds_5_10 100 4)
           {| db := table_of (blinds_5_10 100 4) (three_seats 100);
              rng := rng_ones |}).
  - constructor; cbn.
    + repeat constructor; cbn; intuition lia.
    + repeat constructor; cbn; intuition lia.
    + reflexivity.
  - reflexivity.
  - cbn. lia.
  - cbn. lia.
Defined.

(** One playing seat and one sitting out, 100 chips each, blinds 5/10: both
    blinds fall on the playing seat and the second write replaces the first,
    so the seats hold 190 chips and the pot 15, against 200 before. *)
Lemma blinds_on_one_seat_lose_chips :
  total_chips (seats_of_game 1 (table_of (blinds_5_10 100 4) one_playing_seats))
    = 200 /\
  total_chips
    (seats_of_game 1
       (db (snd (start_new_hand 1
                   (players_of (table_of (blinds_5_10 100 4) one_playing_seats))
                   (blinds_5_10 100 4)
                   {| db := table_of (blinds_5_10 100 4) one_playing_seats;
                      rng := rng_zeros |})))) = 190 /\
  option_map pot_size
    (state_of_game 1
       (db (snd (start_new_hand 1
                   (players_of (table_of (blinds_5_10 100 4) one_playing_seats))
                   (blinds_5_10 100 4)
                   {| db := table_of (blinds_5_10 100 4) one_playing_seats;
                      rng := rng_zeros |})))) = Some 15.
Proof. repeat split; vm_compute; reflexivity. Qed.

End Conservation.

Section Dealing.

(** Without a playing seat the run deals, draws the dealer and stops at the
    modulo by the number of playing seats. *)
Lemma start_new_hand_no_playing (gid : Z) (players : list Player)
  (settings : GameSettings) (w : World) :
  players <> [] ->
  (List.length players <= 26)%nat ->
  filter is_playing players = [] ->
  start_new_hand gid players settings w =
    (Raise ZeroDivisionError,
     {| db := deal_db players (rev (fst (shuffle_deck create_deck (rng w))))
                (db w);
        rng := {| draws := draws (rng w);
                  cursor := S (cursor (rng w) + 51) |} |}).
Proof.
  intros Hne Hlen Hplaying.
  pose proof (shuffled_deck_length (rng w)) as Hdeck.
  pose proof (shuffled_deck_rng (rng w)) as Hrng.
  destruct (shuffle_deck create_deck (rng w)) as [deck r1] eqn:Hshuffle.
  cbn [fst snd] in Hdeck, Hrng |- *. subst r1.
  set (seats := map seat_number players).
  assert (Hseats : (dealer_draw players (rng w) < List.length seats)%nat).
  { unfold seats, dealer_draw. rewrite length_map.
    apply Nat.mod_upper_bound. destruct players; [contradiction|discriminate]. }
  destruct (nth_error_in_range seats _ Hseats) as [dealer Hdealer].
  unfold start_new_hand.
  rewrite (bind_Ok _ _ w
             {| db := db w;
                rng := {| draws := draws (rng w);
                          cursor := (cursor (rng w) + 51)%nat |} |} deck)
    by (unfold with_random; now rewrite Hshuffle).
  rewrite <- (rev_involutive deck) at 1.
  erewrite bind_Ok;
    [|apply deal_cards_run; rewrite length_rev, Hdeck; lia].
  cbn [db rng].
  rewrite (bind_Ok _ _ _
             {| db := deal_db players (rev deck) (db w);
                rng := {| draws := draws (rng w);
                          cursor := S (cursor (rng w) + 51) |} |} dealer).
  2:{ unfold random_choice. fold seats.
      destruct seats as [|s0 rest] eqn:Eseats; [simpl in Hseats; lia|].
      rewrite <- Eseats in *.
      erewrite bind_Ok by (unfold with_random, randbelow; reflexivity).
      unfold lift. cbn [db rng draws cursor].
      rewrite (getitem_Some _ _ dealer); [reflexivity|].
      unfold dealer_draw in Hdealer. unfold seats at 2.
      rewrite length_map. exact Hdealer. }
  apply bind_Raise. unfold lift.
  now rewrite (positions_no_seat players dealer Hplaying).
Qed.

Lemma start_new_hand_no_players (gid : Z) (settings : GameSettings) (w : World) :
  start_new_hand gid [] settings w =
    (Raise (IndexError "Cannot choose from an empty sequence"),
     {| db := db w;
        rng := {| draws := draws (rng w);
                  cursor := (cursor (rng w) + 51)%nat |} |}).
Proof.
  pose proof (shuffled_deck_rng (rng w)) as Hrng.
  destruct (shuffle_deck create_deck (rng w)) as [deck r1] eqn:Hshuffle.
  cbn [snd] in Hrng. subst r1.
  unfold start_new_hand.
  rewrite (bind_Ok _ _ w
             {| db := db w;
                rng := {| draws := draws (rng w);
                          cursor := (cursor (rng w) + 51)%nat |} |} deck)
    by (unfold with_random; now rewrite Hshuffle).
  reflexivity.
Qed.

(** The seats table after any run of [start_new_hand] on at most 26 players
    of distinct ids: the dealt rows, touched afterwards only in fields other
    than the cards; and the run does not fail on an empty deck. *)
Lemma start_new_hand_seats (gid : Z) (players : list Player)
  (settings : GameSettings) (w : World) :
  NoDup (map id players) ->
  (List.length players <= 26)%nat ->
  fst (start_new_hand gid players settings w)
    <> Raise (IndexError "pop from empty list") /\
  exists h,
    (forall r, s_id (h r) = s_id r /\ s_game_id (h r) = s_game_id r /\
               s_cards (h r) = s_cards r) /\
    seats (db (snd (start_new_hand gid players settings w))) =
      map h (map (dealt_row (map id players)
                    (rev (fst (shuffle_deck create_deck (rng w)))))
               (seats (db w))).
Proof.
  intros Hnd Hlen.
  destruct players as [|p0 rest] eqn:Eplayers.
  - rewrite start_new_hand_no_players. cbn [fst snd db]. split; [discriminate|].
    exists (fun r => r). split; [auto|]. now rewrite !map_id.
  - rewrite <- Eplayers in *.
    assert (Hne : players <> []) by (rewrite Eplayers; discriminate).
    clear Eplayers p0 rest.
    destruct (filter is_playing players) as [|q qs] eqn:Eplaying.
    + rewrite (start_new_hand_no_playing gid players settings w Hne Hlen Eplaying).
      cbn [fst snd db]. split; [discriminate|].
      exists (fun r => r). split; [auto|].
      rewrite (deal_db_rows players _ (db w) Hnd). cbn [seats with_seats].
      now rewrite map_id.
    + destruct (start_new_hand_run gid players settings w Hne Hlen) as
        (dealer & sb & bb & utg & sbp & bbp & utgp & _ & _ & _ & _ & _ & Hrun).
      { rewrite Eplaying. discriminate. }
      remember (rev (fst (shuffle_deck create_deck (rng w)))) as top_first eqn:Et.
      clear Et. rewrite Hrun. clear Hrun. cbn [fst snd db].
      split; [discriminate|].
      rewrite (deal_db_rows players _ (db w) Hnd).
      exists (fun r =>
                (fun x => if s_id x =? id bbp
                          then set_chip_count (chip_count bbp - big_blind settings) x
                          else x)
                  (if s_id r =? id sbp
                   then set_chip_count (chip_count sbp - small_blind settings) r
                   else r)).
      split.
      * intros r. destruct (s_id r =? id sbp); cbn;
          destruct (s_id r =? id bbp); cbn; auto.
      * unfold update_game_state, update_seat_chip_count, with_seats,
          update_where. cbn [seats]. now rewrite (map_map _ _ (map _ _)).
Qed.

End Dealing.

Section HoleCards.

Lemma dealt_row_two_cards (ids : list Z) (t : list Card) (r : SeatRow) :
  In (s_id r) ids ->
  (2 * List.length ids <= List.length t)%nat ->
  exists c1 c2, s_cards (dealt_row ids t r) = Some [c1; c2].
Proof.
  revert t; induction ids as [|pid ids IH]; intros t Hin Hlen; [contradiction|].
  destruct t as [|c1 [|c2 below]]; simpl in Hlen; try lia.
  simpl. destruct (s_id r =? pid) eqn:E.
  - now exists c1, c2.
  - apply IH; [|lia]. destruct Hin as [->|Hin]; [|exact Hin].
    rewrite Z.eqb_refl in E. discriminate.
Qed.

(** Rows of distinct ids, dealt in their order, hold the top cards of the
    deck in order, two each. *)
Lemma dealt_hole_cards (rows : list SeatRow) (t : list Card) :
  NoDup (map s_id rows) ->
  (2 * List.length rows <= List.length t)%nat ->
  flat_map cards_of (map (dealt_row (map s_id rows) t) rows) =
    firstn (2 * List.length rows) t.
Proof.
  revert t; induction rows as [|r0 rest IH]; intros t Hnd Hlen; [reflexivity|].
  inversion Hnd as [|? ? Hnotin Hnd']; subst.
  destruct t as [|c1 [|c2 below]]; simpl in Hlen; try lia.
  replace (2 * List.length (r0 :: rest))%nat
    with (S (S (2 * List.length rest))) by (simpl; lia).
  cbn [map flat_map dealt_row firstn]. rewrite Z.eqb_refl.
  cbn [cards_of s_cards set_cards app]. do 2 f_equal.
  rewrite <- (IH below Hnd') by lia. f_equal.
  apply map_ext_in. intros r Hr.
  destruct (s_id r =? s_id r0) eqn:E; [|reflexivity].
  apply Z.eqb_eq in E. exfalso. apply Hnotin. rewrite <- E. now apply in_map.
Qed.

Lemma hole_cards_same (h : SeatRow -> SeatRow) (l : list SeatRow) :
  (forall r, s_cards (h r) = s_cards r) ->
  flat_map cards_of (map h l) = flat_map cards_of l.
Proof.
  intros Hc. induction l as [|r t IH]; simpl; [reflexivity|].
  rewrite IH. unfold cards_of at 1. now rewrite Hc.
Qed.

Lemma NoDup_firstn {A : Type} (n : nat) (l : list A) :
  NoDup l -> NoDup (firstn n l).
Proof.
  revert n; induction l as [|a t IH]; intros n Hnd.
  - rewrite firstn_nil. constructor.
  - destruct n as [|n]; [constructor|]. simpl.
    inversion Hnd as [|? ? Hnotin Hnd']; subst.
    constructor; [|now apply IH].
    intros H. apply Hnotin. rewrite <- (firstn_skipn n t).
    apply in_or_app. now left.
Qed.

(** C7.  With the players read from a table of unique seat ids, at most 8
    of them: the dealing loop completes and leaves the deck without its top
    two cards per player, and the run never fails on an empty deck; every
    seat of the game (playing or not) holds exactly two hole cards after the
    run; the hole cards, seat after seat, are the top cards of the shuffled
    deck in order; and no card is dealt twice. *)
Theorem two_hole_cards_from_the_top (gid : Z) (players : list Player)
  (settings : GameSettings) (w : World) :
  NoDup (map s_id (seats (db w))) ->
  players = map player_of_row (seats_of_game gid (db w)) ->
  (List.length players <= 8)%nat ->
  fst (deal_cards players (fst (shuffle_deck create_deck (rng w)))
         {| db := db w; rng := snd (shuffle_deck create_deck (rng w)) |})
    = Ok (rev (skipn (2 * List.length players)
                 (rev (fst (shuffle_deck create_deck (rng w)))))) /\
  fst (start_new_hand gid players settings w)
    <> Raise (IndexError "pop from empty list") /\
  (forall r,
     In r (seats_of_game gid (db (snd (start_new_hand gid players settings w)))) ->
     exists c1 c2, s_cards r = Some [c1; c2]) /\
  hole_cards gid (db (snd (start_new_hand gid players settings w))) =
    firstn (2 * List.length players)
      (rev (fst (shuffle_deck create_deck (rng w)))) /\
  NoDup (hole_cards gid (db (snd (start_new_hand gid players settings w)))).
Proof.
  intros Hids Hplayers Hlen.
  set (grows := seats_of_game gid (db w)) in *.
  assert (Hgids : NoDup (map s_id grows)) by now apply NoDup_filter_ids.
  assert (Epids : map id players = map s_id grows)
    by (rewrite Hplayers, map_map; reflexivity).
  assert (Hpids : NoDup (map id players)) by (now rewrite Epids).
  assert (Hn : List.length players = List.length grows)
    by (rewrite Hplayers; apply length_map).
  pose proof (shuffled_deck_length (rng w)) as Hdeck.
  pose proof (shuffle_deck_perm create_deck (rng w)) as Hperm.
  destruct (start_new_hand_seats gid players settings w Hpids) as
    (Hpop & h & Hh & Hseats); [lia|].
  remember (fst (shuffle_deck create_deck (rng w))) as deck eqn:Edeck.
  remember (snd (shuffle_deck create_deck (rng w))) as r1 eqn:Er1.
  clear Edeck Er1.
  assert (Hgame :
    seats_of_game gid (db (snd (start_new_hand gid players settings w))) =
      map h (map (dealt_row (map s_id grows) (rev deck)) grows)).
  { unfold seats_of_game at 1. rewrite Hseats, Epids.
    rewrite !filter_map_same_game; [reflexivity| |].
    - intros x. apply dealt_row_id.
    - intros x. apply Hh. }
  assert (H2n : (2 * List.length grows <= List.length (rev deck))%nat)
    by (rewrite length_rev, Hdeck; lia).
  assert (Hcards :
    hole_cards gid (db (snd (start_new_hand gid players settings w))) =
      firstn (2 * List.length players) (rev deck)).
  { unfold hole_cards. rewrite Hgame, hole_cards_same by (intros x; apply Hh).
    rewrite Hn. now apply dealt_hole_cards. }
  split; [|split; [exact Hpop|split; [|split; [exact Hcards|]]]].
  - rewrite <- (rev_involutive deck) at 1.
    rewrite deal_cards_run by (rewrite Hn; exact H2n). reflexivity.
  - intros r Hr. rewrite Hgame in Hr.
    apply in_map_iff in Hr as (r1' & <- & Hr).
    apply in_map_iff in Hr as (r0 & <- & Hr).
    rewrite (proj2 (proj2 (Hh _))).
    apply dealt_row_two_cards; [|rewrite length_map; exact H2n].
    now apply in_map.
  - rewrite Hcards. apply NoDup_firstn.
    apply (Permutation_NoDup (l := create_deck)); [|exact create_deck_NoDup].
    apply Permutation_sym. rewrite <- Permutation_rev. exact Hperm.
Qed.

Lemma two_hole_cards_from_the_top_witness :
  fst (deal_cards (players_of (table_of (blinds_5_10 100 4) (three_seats 100)))
         (fst (shuffle_deck create_deck rng_ones))
         {| db := table_of (blinds_5_10 100 4) (three_seats 100);
            rng := snd (shuffle_deck create_deck rng_ones) |})
    = Ok (rev (skipn (2 * List.length (players_of (table_of (blinds_5_10 100 4) (three_seats 100))))
                 (rev (fst (shuffle_deck create_deck rng_ones))))) /\
  fst (start_new_hand 1 (players_of (table_of (blinds_5_10 100 4) (three_seats 100))) (blinds_5_10 100 4) {| db := table_of (blinds_5_10 100 4) (three_seats 100); rng := rng_ones |})
    <> Raise (IndexError "pop from empty list") /\
  (forall r,
     In r (seats_of_game 1 (db (snd (start_new_hand 1 (players_of (table_of (blinds_5_10 100 4) (three_seats 100))) (blinds_5_10 100 4) {| db := table_of (blinds_5_10 100 4) (three_seats 100); rng := rng_ones |})))) ->
     exists c1 c2, s_cards r = Some [c1; c2]) /\
  hole_cards 1 (db (snd (start_new_hand 1 (players_of (table_of (blinds_5_10 100 4) (three_seats 100))) (blinds_5_10 100 4) {| db := table_of (blinds_5_10 100 4) (three_seats 100); rng := rng_ones |}))) =
    firstn (2 * List.length (players_of (table_of (blinds_5_10 100 4) (three_seats 100))))
      (rev (fst (shuffle_deck create_deck rng_ones))) /\
  NoDup (hole_cards 1 (db (snd (start_new_hand 1 (players_of (table_of (blinds_5_10 100 4) (three_seats 100))) (blinds_5_10 100 4) {| db := table_of (blinds_5_10 100 4) (three_seats 100); rng := rng_ones |})))).
Proof.
  apply (two_hole_cards_from_the_top 1 (players_of (table_of (blinds_5_10 100 4) (three_seats 100))) (blinds_5_10 100 4) {| db := table_of (blinds_5_10 100 4) (three_seats 100); rng := rng_ones |}).
  - cbn. repeat constructor; cbn; intuition lia.
  - reflexivity.
  - cbn. lia.
Defined.

End HoleCards.

Section Joining.

Lemma mem_In (v : Z) (s : list Z) : mem v s = true <-> In v s.
Proof.
  unfold mem. rewrite existsb_exists. split.
  - intros (x & Hx & E). apply Z.eqb_eq in E. now subst.
  - intros H. exists v. split; [exact H|apply Z.eqb_refl].
Qed.

(** The first number of a range that passes a test: nothing below it in the
    range passes; and when none is found, nothing in the range passes. *)
Lemma find_in_range (p : Z -> bool) (a : Z) (n : nat) :
  match find p (map (fun k => a + Z.of_nat k) (seq 0 n)) with
  | Some x => a <= x < a + Z.of_nat n /\ p x = true /\
              forall k, a <= k < x -> p k = false
  | None => forall k, a <= k < a + Z.of_nat n -> p k = false
  end.
Proof.
  revert a; induction n as [|n IH]; intros a.
  - simpl. intros k Hk. lia.
  - cbn [seq map find]. rewrite <- seq_shift, map_map.
    rewrite (map_ext _ (fun k => (a + 1) + Z.of_nat k))
      by (intros k; lia).
    replace (a + Z.of_nat 0) with a by lia.
    destruct (p a) eqn:Ea.
    + repeat split; try lia; auto; intros k Hk; lia.
    + specialize (IH (a + 1)).
      destruct (find p (map (fun k => a + 1 + Z.of_nat k) (seq 0 n))) as [x|].
      * destruct IH as (Hx & Hpx & Hbelow). repeat split; try lia; auto.
        intros k Hk. destruct (Z.eq_dec k a) as [->|Hne]; [exact Ea|].
        apply Hbelow. lia.
      * intros k Hk. destruct (Z.eq_dec k a) as [->|Hne]; [exact Ea|].
        apply IH. lia.
Qed.

Lemma py_range_NoDup (a b : Z) : NoDup (py_range a b).
Proof.
  unfold py_range. apply Injective_map_NoDup; [|apply seq_NoDup].
  intros x y H. lia.
Qed.

Lemma py_range_In (a b k : Z) : a <= k < b -> In k (py_range a b).
Proof.
  intros Hk. unfold py_range. apply in_map_iff.
  exists (Z.to_nat (k - a)). split; [lia|]. apply in_seq. lia.
Qed.

(** While fewer than [max_players] seats are taken, the search finds a seat:
    the lowest number of [1..max_players] that is not taken. *)
Lemma first_available_seat_spec (max_players : Z) (taken : list Z) :
  Z.of_nat (List.length taken) < max_players ->
  1 <= first_available_seat max_players taken <= max_players /\
  ~ In (first_available_seat max_players taken) taken /\
  forall k, 1 <= k < first_available_seat max_players taken -> In k taken.
Proof.
  intros Hroom. unfold first_available_seat, py_range.
  pose proof (find_in_range (fun s => negb (mem s taken)) 1
                (Z.to_nat (max_players + 1 - 1))) as Hfind.
  destruct (find (fun s => negb (mem s taken))
              (map (fun k => 1 + Z.of_nat k)
                 (seq 0 (Z.to_nat (max_players + 1 - 1))))) as [x|].
  - destruct Hfind as (Hx & Hpx & Hbelow). split; [lia|]. split.
    + intros Hin. apply mem_In in Hin. rewrite Hin in Hpx. discriminate.
    + intros k Hk. apply mem_In. specialize (Hbelow k Hk).
      now apply negb_false_iff in Hbelow.
  - exfalso.
    assert (Hincl : incl (py_range 1 (max_players + 1)) taken).
    { intros k Hk. apply mem_In.
      unfold py_range in Hk. apply in_map_iff in Hk as (j & <- & Hj).
      apply in_seq in Hj.
      specialize (Hfind (1 + Z.of_nat j)).
      apply negb_false_iff. apply Hfind. lia. }
    apply NoDup_incl_length in Hincl; [|apply py_range_NoDup].
    unfold py_range in Hincl. rewrite length_map, length_seq in Hincl. lia.
Qed.

Lemma already_seated_In (uid : string) (rows : list SeatRow) :
  existsb (fun seat => String.eqb (s_user_id seat) uid) rows = true <->
  In uid (map s_user_id rows).
Proof.
  rewrite existsb_exists, in_map_iff. split.
  - intros (r & Hr & E). apply String.eqb_eq in E. now exists r.
  - intros (r & E & Hr). exists r. split; [exact Hr|]. now apply String.eqb_eq.
Qed.

(** [join_game] on a code that selects exactly one game. *)
Lemma join_game_eval (code : string) (w : World) (g : GameRow) :
  games_with_code code (db w) = [g] ->
  join_game code w =
    if negb (String.eqb (g_status g) "waiting") then
      (Raise (HTTPException 403 "Game is already in progress."), w)
    else if Z.of_nat (List.length (seats_of_game (g_id g) (db w)))
              >=? max_players (g_settings g) then
      (Raise (HTTPException 403 "Game is full."), w)
    else if existsb (fun seat => String.eqb (s_user_id seat) join_player_id)
              (seats_of_game (g_id g) (db w)) then
      (Raise (HTTPException 400 "You are already in this game."), w)
    else if first_available_seat (max_players (g_settings g))
              (map s_seat_number (seats_of_game (g_id g) (db w))) =? -1 then
      (Raise (HTTPException 500
                "Could not find an available seat, the game might be full."), w)
    else
      (Ok (first_available_seat (max_players (g_settings g))
             (map s_seat_number (seats_of_game (g_id g) (db w)))),
       {| db := insert_seat (g_id g) join_player_id
                  (first_available_seat (max_players (g_settings g))
                     (map s_seat_number (seats_of_game (g_id g) (db w))))
                  (buy_in (g_settings g)) "playing" (db w);
          rng := rng w |}).
Proof.
  intros Hg. unfold join_game, try_except, select_game, bind, query, ret, raise,
    execute. rewrite Hg.
  destruct (negb (String.eqb (g_status g) "waiting")); [reflexivity|].
  destruct (Z.of_nat _ >=? _); [reflexivity|].
  destruct (existsb _ _); [reflexivity|].
  destruct (first_available_seat _ _ =? -1); reflexivity.
Qed.

End Joining.

Section JoinGame.

(** C9.  When the code selects one game: [join_game] rejects, writing
    nothing, whenever the game is not waiting, or the table already holds
    [max_players] seats (or more), or the player already has a seat in the
    game; otherwise it inserts one seat for the player, numbered with the
    lowest number of [1..max_players] that no seat of the table has. *)
Theorem join_game_takes_lowest_free_seat (code : string) (w : World)
  (g : GameRow) :
  games_with_code code (db w) = [g] ->
  (g_status g <> "waiting" \/
   max_players (g_settings g)
     <= Z.of_nat (List.length (seats_of_game (g_id g) (db w))) \/
   In join_player_id (map s_user_id (seats_of_game (g_id g) (db w))) ->
   exists status_code detail,
     join_game code w = (Raise (HTTPException status_code detail), w)) /\
  (~ (g_status g <> "waiting" \/
      max_players (g_settings g)
        <= Z.of_nat (List.length (seats_of_game (g_id g) (db w))) \/
      In join_player_id (map s_user_id (seats_of_game (g_id g) (db w)))) ->
   exists seat,
     join_game code w =
       (Ok seat,
        {| db := insert_seat (g_id g) join_player_id seat
                   (buy_in (g_settings g)) "playing" (db w);
           rng := rng w |}) /\
     1 <= seat <= max_players (g_settings g) /\
     ~ In seat (map s_seat_number (seats_of_game (g_id g) (db w))) /\
     forall k, 1 <= k < seat ->
       In k (map s_seat_number (seats_of_game (g_id g) (db w)))).
Proof.
  intros Hg. rewrite (join_game_eval code w g Hg).
  set (rows := seats_of_game (g_id g) (db w)).
  destruct (String.eqb (g_status g) "waiting") eqn:Estatus; cbn [negb].
  2:{ apply String.eqb_neq in Estatus. split.
      - intros _. eauto.
      - intros Hn. exfalso. apply Hn. now left. }
  apply String.eqb_eq in Estatus.
  destruct (Z.of_nat (List.length rows) >=? max_players (g_settings g)) eqn:Efull.
  { apply Z.geb_le in Efull. split.
    - intros _. eauto.
    - intros Hn. exfalso. apply Hn. right. now left. }
  assert (Hroom : Z.of_nat (List.length rows) < max_players (g_settings g)).
  { destruct (Z.geb_spec (Z.of_nat (List.length rows))
                (max_players (g_settings g))); [discriminate|lia]. }
  destruct (existsb (fun seat => String.eqb (s_user_id seat) join_player_id) rows)
    eqn:Eseated.
  { apply already_seated_In in Eseated. split.
    - intros _. eauto.
    - intros Hn. exfalso. apply Hn. right. now right. }
  assert (Hnew : ~ In join_player_id (map s_user_id rows)).
  { intros H. apply already_seated_In in H. congruence. }
  destruct (first_available_seat_spec (max_players (g_settings g))
              (map s_seat_number rows)) as (Hrange & Hfree & Hlowest).
  { now rewrite length_map. }
  replace (first_available_seat (max_players (g_settings g))
             (map s_seat_number rows) =? -1) with false
    by (symmetry; apply Z.eqb_neq; lia).
  split.
  - intros [H|[H|H]]; [contradiction|lia|contradiction].
  - intros _. eexists. split; [reflexivity|]. auto.
Qed.

Lemma join_game_takes_lowest_free_seat_witness :
  (g_status (game_of (blinds_5_10 100 4)) <> "waiting" \/
   max_players (g_settings (game_of (blinds_5_10 100 4)))
     <= Z.of_nat (List.length
                    (seats_of_game (g_id (game_of (blinds_5_10 100 4)))
                       (table_of (blinds_5_10 100 4) (two_seats 100)))) \/
   In join_player_id
     (map s_user_id
        (seats_of_game (g_id (game_of (blinds_5_10 100 4)))
           (table_of (blinds_5_10 100 4) (two_seats 100)))) ->
   exists status_code detail,
     join_game "ABC123"
       {| db := table_of (blinds_5_10 100 4) (two_seats 100); rng := rng_zeros |}
     = (Raise (HTTPException status_code detail),
        {| db := table_of (blinds_5_10 100 4) (two_seats 100);
           rng := rng_zeros |})) /\
  (~ (g_status (game_of (blinds_5_10 100 4)) <> "waiting" \/
      max_players (g_settings (game_of (blinds_5_10 100 4)))
        <= Z.of_nat (List.length
                       (seats_of_game (g_id (game_of (blinds_5_10 100 4)))
                          (table_of (blinds_5_10 100 4) (two_seats 100)))) \/
      In join_player_id
        (map s_user_id
           (seats_of_game (g_id (game_of (blinds_5_10 100 4)))
              (table_of (blinds_5_10 100 4) (two_seats 100))))) ->
   exists seat,
     join_game "ABC123"
       {| db := table_of (blinds_5_10 100 4) (two_seats 100); rng := rng_zeros |}
     = (Ok seat,
        {| db := insert_seat (g_id (game_of (blinds_5_10 100 4)))
                   join_player_id seat
                   (buy_in (g_settings (game_of (blinds_5_10 100 4))))
                   "playing" (table_of (blinds_5_10 100 4) (two_seats 100));
           rng := rng_zeros |}) /\
     1 <= seat <= max_players (g_settings (game_of (blinds_5_10 100 4))) /\
     ~ In seat
         (map s_seat_number
            (seats_of_game (g_id (game_of (blinds_5_10 100 4)))
               (table_of (blinds_5_10 100 4) (two_seats 100)))) /\
     forall k, 1 <= k < seat ->
       In k
         (map s_seat_number
            (seats_of_game (g_id (game_of (blinds_5_10 100 4)))
               (table_of (blinds_5_10 100 4) (two_seats 100))))).
Proof.
  apply (join_game_takes_lowest_free_seat "ABC123"
           {| db := table_of (blinds_5_10 100 4) (two_seats 100);
              rng := rng_zeros |}
           (game_of (blinds_5_10 100 4))).
  reflexivity.
Defined.

(** Whatever the code selects, a rejected join leaves the world as it was. *)
Lemma join_game_rejection_writes_nothing (code : string) (w : World) (e : exn) :
  fst (join_game code w) = Raise e -> snd (join_game code w) = w.
Proof.
  destruct (games_with_code code (db w)) as [|g [|g' rest]] eqn:Hg.
  - unfold join_game, try_except, select_game, bind, query, raise.
    now rewrite Hg.
  - rewrite (join_game_eval code w g Hg).
    repeat match goal with
           | |- context [if ?b then _ else _] => destruct b
           end; cbn [fst snd]; auto; discriminate.
  - unfold join_game, try_except, select_game, bind, query, raise.
    now rewrite Hg.
Qed.

End JoinGame.

Section Starting.

(** [start_game] by the host on a waiting game the code selects. *)
Lemma start_game_guard (code : string) (w : World) (g : GameRow) :
  games_with_code code (db w) = [g] ->
  g_host_id g = start_host_id ->
  g_status g = "waiting" ->
  (List.length (seats_of_game (g_id g) (db w)) < 2)%nat ->
  start_game code w =
    (Raise (HTTPException 400 "Cannot start a game with fewer than 2 players."),
     w).
Proof.
  intros Hg Hhost Hstatus Hfew.
  unfold start_game, try_except, select_game.
  unfold bind at 1. unfold bind at 1. unfold query at 1. rewrite Hg.
  unfold ret at 1. rewrite Hhost, Hstatus, !String.eqb_refl. cbn [negb].
  unfold bind at 1. unfold query at 1. rewrite length_map.
  apply Nat.ltb_lt in Hfew. rewrite Hfew. reflexivity.
Qed.

(** C4 (amended).  With fewer than 2 playing seats [get_player_positions]
    raises no insufficient-players error: without a playing seat it fails on
    the modulo by zero, and with exactly one it returns that seat as small
    blind, big blind and first to act.  The check for too few players is
    [start_game]'s, on the number of seats of the table: the host starting a
    waiting game that holds fewer than 2 seats is refused with status 400 and
    nothing is written. *)
Theorem too_few_players_is_refused_by_start_game
  (players : list Player) (dealer_seat : Z) :
  (List.length (filter is_playing players) < 2)%nat ->
  (filter is_playing players = [] /\
   get_player_positions players dealer_seat = Raise ZeroDivisionError \/
   exists p,
     filter is_playing players = [p] /\
     get_player_positions players dealer_seat =
       Ok (seat_number p, seat_number p, seat_number p)) /\
  (forall code w g,
     games_with_code code (db w) = [g] ->
     g_host_id g = start_host_id ->
     g_status g = "waiting" ->
     players = map player_of_row (seats_of_game (g_id g) (db w)) ->
     (List.length players < 2)%nat ->
     start_game code w =
       (Raise (HTTPException 400
                 "Cannot start a game with fewer than 2 players."), w)).
Proof.
  intros Hfew. split.
  - destruct (filter is_playing players) as [|p [|q rest]] eqn:E.
    + left. split; [reflexivity|]. now apply positions_no_seat.
    + right. exists p. split; [reflexivity|]. now apply positions_single_seat.
    + simpl in Hfew. lia.
  - intros code w g Hg Hhost Hstatus Hplayers Hlen.
    apply (start_game_guard code w g); auto.
    rewrite Hplayers, length_map in Hlen. exact Hlen.
Qed.

Lemma too_few_players_is_refused_by_start_game_witness :
  (filter is_playing (players_of (table_of (blinds_5_10 100 4) host_alone)) = [] /\
   get_player_positions
     (players_of (table_of (blinds_5_10 100 4) host_alone)) 1
     = Raise ZeroDivisionError \/
   exists p,
     filter is_playing (players_of (table_of (blinds_5_10 100 4) host_alone))
       = [p] /\
     get_player_positions
       (players_of (table_of (blinds_5_10 100 4) host_alone)) 1 =
       Ok (seat_number p, seat_number p, seat_number p)) /\
  (forall code w g,
     games_with_code code (db w) = [g] ->
     g_host_id g = start_host_id ->
     g_status g = "waiting" ->
     players_of (table_of (blinds_5_10 100 4) host_alone)
       = map player_of_row (seats_of_game (g_id g) (db w)) ->
     (List.length (players_of (table_of (blinds_5_10 100 4) host_alone)) < 2)%nat ->
     start_game code w =
       (Raise (HTTPException 400
                 "Cannot start a game with fewer than 2 players."), w)).
Proof.
  apply (too_few_players_is_refused_by_start_game
           (players_of (table_of (blinds_5_10 100 4) host_alone)) 1).
  cbn. lia.
Defined.

(** One playing seat and one sitting out: [get_player_positions] does not
    fail, it returns seat 1 three times. *)
Lemma one_playing_seat_is_not_refused :
  (List.length (filter is_playing one_playing) < 2)%nat /\
  get_player_positions one_playing 1 = Ok (1, 1, 1).
Proof. split; [cbn; lia|reflexivity]. Qed.

(** The host alone at the table: [start_game] refuses with status 400 and
    leaves the world as it was. *)
Example start_game_host_alone :
  start_game "ABC123"
    {| db := table_of (blinds_5_10 100 4) host_alone; rng := rng_zeros |} =
    (Raise (HTTPException 400 "Cannot start a game with fewer than 2 players."),
     {| db := table_of (blinds_5_10 100 4) host_alone; rng := rng_zeros |}).
Proof. reflexivity. Qed.

End Starting.

Section ChipsOfEveryOperation.

Lemma join_game_chips_nonneg (code : string) (w : World) :
  chips_nonneg (db w) ->
  (forall g, games_with_code code (db w) = [g] -> 0 <= buy_in (g_settings g)) ->
  chips_nonneg (db (snd (join_game code w))).
Proof.
  intros Hbefore Hbuy.
  destruct (fst (join_game code w)) as [seat|e] eqn:Eres.
  - destruct (games_with_code code (db w)) as [|g [|g' rest]] eqn:Hg.
    + exfalso. revert Eres.
      unfold join_game, try_except, select_game, bind, query, raise.
      now rewrite Hg.
    + specialize (Hbuy g eq_refl). revert Eres.
      rewrite (join_game_eval code w g Hg).
      repeat match goal with
             | |- context [if ?b then _ else _] => destruct b
             end; cbn [fst snd db]; try discriminate.
      intros _. unfold chips_nonneg, insert_seat, with_seats. cbn [seats].
      apply Forall_app. split; [exact Hbefore|].
      constructor; [exact Hbuy|constructor].
    + exfalso. revert Eres.
      unfold join_game, try_except, select_game, bind, query, raise.
      now rewrite Hg.
  - now rewrite (join_game_rejection_writes_nothing code w e Eres).
Qed.

Lemma start_game_chips_nonneg (code : string) (w : World) :
  chips_nonneg (db w) ->
  (forall g r, games_with_code code (db w) = [g] ->
     In r (seats_of_game (g_id g) (db w)) ->
     small_blind (g_settings g) <= s_chip_count r /\
     big_blind (g_settings g) <= s_chip_count r) ->
  chips_nonneg (db (snd (start_game code w))).
Proof.
  intros Hbefore Hcover.
  unfold start_game, try_except, select_game, bind, query, ret, raise, execute.
  destruct (games_with_code code (db w)) as [|g [|g' rest]] eqn:Hg;
    try exact Hbefore.
  destruct (negb (String.eqb (g_host_id g) start_host_id)); [exact Hbefore|].
  destruct (negb (String.eqb (g_status g) "waiting")); [exact Hbefore|].
  destruct (List.length _ <? 2)%nat; [exact Hbefore|].
  cbn [db rng].
  set (w1 := {| db := update_game_status (g_id g) "in_progress" (db w);
                rng := rng w |}).
  assert (Hafter : chips_nonneg
            (db (snd (start_new_hand (g_id g)
                        (map player_of_row (seats_of_game (g_id g) (db w)))
                        (g_settings g) w1)))).
  { apply start_new_hand_chips_nonneg; [exact Hbefore|].
    intros p Hp. apply in_map_iff in Hp as (r & <- & Hr).
    now apply (Hcover g r). }
  destruct (start_new_hand (g_id g)
              (map player_of_row (seats_of_game (g_id g) (db w)))
              (g_settings g) w1) as [[[]|e] w2]; cbn [snd] in *;
    [exact Hafter|destruct e; exact Hafter].
Qed.

(** C5 (amended).  On a table where no seat is below zero, each operation
    leaves no seat below zero under the condition that covers it:
    [start_new_hand] (and [start_game], which runs it on the seats of the
    game) when every seat it is given holds at least the small blind and at
    least the big blind, whichever seats the random dealer makes the blinds
    and whether or not the run completes; [join_game] when the game's buy-in
    is not negative. *)
Theorem chips_stay_nonnegative (w : World) :
  chips_nonneg (db w) ->
  (forall gid players settings,
     (forall p, In p players ->
        small_blind settings <= chip_count p /\
        big_blind settings <= chip_count p) ->
     chips_nonneg (db (snd (start_new_hand gid players settings w)))) /\
  (forall code,
     (forall g r, games_with_code code (db w) = [g] ->
        In r (seats_of_game (g_id g) (db w)) ->
        small_blind (g_settings g) <= s_chip_count r /\
        big_blind (g_settings g) <= s_chip_count r) ->
     chips_nonneg (db (snd (start_game code w)))) /\
  (forall code,
     (forall g, games_with_code code (db w) = [g] ->
        0 <= buy_in (g_settings g)) ->
     chips_nonneg (db (snd (join_game code w)))).
Proof.
  intros Hbefore. split; [|split].
  - intros gid players settings. now apply start_new_hand_chips_nonneg.
  - intros code. now apply start_game_chips_nonneg.
  - intros code. now apply join_game_chips_nonneg.
Qed.

Lemma chips_stay_nonnegative_witness :
  (forall gid players settings,
     (forall p, In p players ->
        small_blind settings <= chip_count p /\
        big_blind settings <= chip_count p) ->
     chips_nonneg
       (db (snd (start_new_hand gid players settings
                   {| db := table_of (blinds_5_10 100 4) (two_seats 100);
                      rng := rng_zeros |})))) /\
  (forall code,
     (forall g r,
        games_with_code code (table_of (blinds_5_10 100 4) (two_seats 100))
          = [g] ->
        In r (seats_of_game (g_id g)
                (table_of (blinds_5_10 100 4) (two_seats 100))) ->
        small_blind (g_settings g) <= s_chip_count r /\
        big_blind (g_settings g) <= s_chip_count r) ->
     chips_nonneg
       (db (snd (start_game code
                   {| db := table_of (blinds_5_10 100 4) (two_seats 100);
                      rng := rng_zeros |})))) /\
  (forall code,
     (forall g,
        games_with_code code (table_of (blinds_5_10 100 4) (two_seats 100))
          = [g] ->
        0 <= buy_in (g_settings g)) ->
     chips_nonneg
       (db (snd (join_game code
                   {| db := table_of (blinds_5_10 100 4) (two_seats 100);
                      rng := rng_zeros |})))).
Proof.
  apply (chips_stay_nonnegative
           {| db := table_of (blinds_5_10 100 4) (two_seats 100);
              rng := rng_zeros |}).
  unfold chips_nonneg. cbn. repeat constructor; cbn; lia.
Defined.

(** The run of the sample table of two seats of 100 chips with blinds 5/10:
    the seats end with 95 and 90 chips. *)
Example start_game_two_seats_chips :
  map s_chip_count
    (seats (db (snd (start_game "ABC123"
                       {| db := table_of (blinds_5_10 100 4) (two_seats 100);
                          rng := rng_zeros |})))) = [95; 90].
Proof. vm_compute. reflexivity. Qed.

End ChipsOfEveryOperation.

End GamesFacts.

(** ** Further properties of game_logic.py *)

Module GameLogicMore.
Import GameLogic Models Database Games Spec Samples Observe.
Import GameLogicFacts GamesFacts.

Section PositionsMore.

(** [get_player_positions] fails only when no seat is playing, and then on
    the modulo by zero; otherwise the three seats it returns are seats of
    playing players. *)
Theorem positions_fail_only_without_playing_seat
  (players : list Player) (dealer_seat : Z) :
  (filter is_playing players = [] /\
   get_player_positions players dealer_seat = Raise ZeroDivisionError) \/
  (filter is_playing players <> [] /\
   exists sb bb utg,
     get_player_positions players dealer_seat = Ok (sb, bb, utg) /\
     In sb (eligible_seats players) /\ In bb (eligible_seats players) /\
     In utg (eligible_seats players)).
Proof.
  destruct (filter is_playing players) as [|p rest] eqn:E.
  - left. split; [reflexivity|]. now apply positions_no_seat.
  - right. split; [discriminate|].
    destruct (positions_are_playing players dealer_seat) as
      (sb & bb & utg & Hpos & Hsb & Hbb & Hutg).
    { rewrite E. discriminate. }
    exists sb, bb, utg. rewrite <- !eligible_In. auto.
Qed.

(** Two ascending lists with the same elements are the same list. *)
Lemma ascending_unique (l1 l2 : list Z) :
  Sorted Z.le l1 -> Sorted Z.le l2 -> Permutation l1 l2 -> l1 = l2.
Proof.
  intros H1 H2.
  apply Sorted_StronglySorted in H1; [|intros x y z; apply Z.le_trans].
  apply Sorted_StronglySorted in H2; [|intros x y z; apply Z.le_trans].
  revert l2 H2. induction H1 as [|a t1 Ht1 IH Ha]; intros l2 H2 Hperm.
  - apply Permutation_nil in Hperm. now subst.
  - destruct H2 as [|b t2 Ht2 Hb].
    + apply Permutation_sym, Permutation_nil in Hperm. discriminate.
    + assert (a = b).
      { rewrite Forall_forall in Ha, Hb.
        assert (Hb_in : In b (a :: t1))
          by (eapply Permutation_in; [apply Permutation_sym, Hperm|now left]).
        assert (Ha_in : In a (b :: t2))
          by (eapply Permutation_in; [exact Hperm|now left]).
        destruct Hb_in as [->|Hb_in]; [reflexivity|].
        destruct Ha_in as [->|Ha_in]; [reflexivity|].
        specialize (Ha b Hb_in). specialize (Hb a Ha_in). lia. }
      subst b. f_equal. apply IH; [exact Ht2|].
      now apply Permutation_cons_inv in Hperm.
Qed.

(** The positions depend on the playing seats only, not on the order in
    which the seats are listed nor on the seats of any other status. *)
Theorem positions_ignore_listing_order
  (players players' : list Player) (dealer_seat : Z) :
  Permutation (eligible_seats players) (eligible_seats players') ->
  get_player_positions players dealer_seat =
    get_player_positions players' dealer_seat.
Proof.
  intros Hperm.
  assert (E : player_seats players = player_seats players').
  { apply ascending_unique; try apply player_seats_sorted.
    rewrite (player_seats_perm players), (player_seats_perm players').
    exact Hperm. }
  unfold get_player_positions. now rewrite E.
Qed.

Lemma positions_ignore_listing_order_witness :
  get_player_positions three_handed 2 =
    get_player_positions
      (seat 9 100 "folded" :: rev three_handed) 2.
Proof.
  apply (positions_ignore_listing_order three_handed
           (seat 9 100 "folded" :: rev three_handed) 2).
  cbn. apply Permutation_rev.
Defined.

Lemma dealer_index_unique (l : list Z) (i : nat) (v : Z) :
  NoDup l -> nth_error l i = Some v -> dealer_index_of l v = i.
Proof.
  intros Hnd Hi. unfold dealer_index_of.
  destruct (index v l) as [j|] eqn:E.
  - apply index_Some in E. symmetry.
    apply (proj1 (NoDup_nth_error l) Hnd i j);
      [apply nth_error_Some|]; congruence.
  - apply index_None in E. exfalso. apply E. eapply nth_error_In; eauto.
Qed.

(** Moving the button one eligible seat on moves the blinds with it: with 3
    or more playing seats, the button on the former small blind makes the
    former big blind the small blind and the former first-to-act the big
    blind; in heads-up, the button on the former big blind swaps the two
    roles. *)
Theorem blinds_rotate_with_the_button
  (players : list Player) (dealer_seat sb bb utg : Z) :
  NoDup (eligible_seats players) ->
  In dealer_seat (eligible_seats players) ->
  get_player_positions players dealer_seat = Ok (sb, bb, utg) ->
  (List.length (eligible_seats players) = 2%nat ->
     get_player_positions players bb = Ok (bb, sb, bb)) /\
  ((3 <= List.length (eligible_seats players))%nat ->
     exists next_utg,
       get_player_positions players sb = Ok (bb, utg, next_utg)).
Proof.
  intros Hnd Hin Hpos.
  apply eligible_NoDup_seats in Hnd. apply eligible_In in Hin.
  rewrite <- eligible_length.
  assert (Hn : List.length (player_seats players) <> 0%nat).
  { destruct (player_seats players); [contradiction|discriminate]. }
  destruct (positions_eval players dealer_seat Hn) as
    (btn & sb0 & bb0 & utg0 & Hbtn & Hsb & Hbb & Hutg & Heval).
  rewrite Hpos in Heval.
  set (seats := player_seats players) in *.
  set (n := List.length seats) in *.
  set (di := dealer_index_of seats dealer_seat) in *.
  assert (Hstep : forall i, Nat.modulo (Nat.modulo (di + i) n + 1) n
                            = Nat.modulo (di + (i + 1)) n).
  { intros i. rewrite Nat.Div0.add_mod_idemp_l. f_equal. lia. }
  assert (Hstep2 : forall i, Nat.modulo (Nat.modulo (di + i) n + 2) n
                             = Nat.modulo (di + (i + 2)) n).
  { intros i. rewrite Nat.Div0.add_mod_idemp_l. f_equal. lia. }
  split.
  - intros H2. rewrite H2 in Heval. cbn [Nat.eqb] in Heval.
    assert (sb = btn /\ bb = sb0) as [-> ->] by (split; congruence).
    destruct (positions_eval players sb0 Hn) as
      (btn' & sb' & bb' & utg' & Hbtn' & Hsb' & _ & _ & Heval').
    fold seats in Hbtn', Hsb', Heval'. fold n in Hsb', Heval'.
    rewrite (dealer_index_unique seats _ sb0 Hnd Hsb) in Hbtn', Hsb'.
    rewrite Hstep in Hsb'. rewrite H2 in Heval'. cbn [Nat.eqb] in Heval'.
    rewrite Heval'. f_equal.
    assert (btn' = sb0) by congruence. subst btn'.
    assert (Hback : Nat.modulo (di + (1 + 1)) n = di).
    { rewrite H2. replace (di + (1 + 1))%nat with (di + 1 * 2)%nat by lia.
      rewrite Nat.Div0.mod_add. apply Nat.mod_small.
      rewrite <- H2. apply nth_error_Some. congruence. }
    rewrite Hback in Hsb'. assert (sb' = btn) by congruence. now subst.
  - intros H3.
    assert (E2 : Nat.eqb n 2 = false) by (apply Nat.eqb_neq; lia).
    rewrite E2 in Heval.
    assert (sb = sb0 /\ bb = bb0 /\ utg = utg0) as (-> & -> & ->)
      by (repeat split; congruence).
    destruct (positions_eval players sb0 Hn) as
      (btn' & sb' & bb' & utg' & _ & Hsb' & Hbb' & _ & Heval').
    fold seats in Hsb', Hbb', Heval'. fold n in Hsb', Hbb', Heval'.
    rewrite (dealer_index_unique seats _ sb0 Hnd Hsb) in Hsb', Hbb'.
    rewrite Hstep in Hsb'. rewrite Hstep2 in Hbb'.
    rewrite E2 in Heval'. exists utg'. rewrite Heval'.
    replace (1 + 1)%nat with 2%nat in Hsb' by lia.
    replace (1 + 2)%nat with 3%nat in Hbb' by lia.
    assert (sb' = bb0) by congruence. assert (bb' = utg0) by congruence.
    now subst.
Qed.

Lemma blinds_rotate_with_the_button_witness :
  (List.length (eligible_seats four_handed) = 2%nat ->
     get_player_positions four_handed 2 = Ok (2, 7, 2)) /\
  ((3 <= List.length (eligible_seats four_handed))%nat ->
     exists next_utg,
       get_player_positions four_handed 7 = Ok (2, 4, next_utg)).
Proof.
  apply (blinds_rotate_with_the_button four_handed 5 7 2 4).
  - repeat constructor; cbn; intuition lia.
  - cbn. auto.
  - reflexivity.
Defined.

End PositionsMore.

End GameLogicMore.

(** ** Further properties of api/games.py *)

Module GamesMore.
Import GameLogic Models Database Games Spec Samples Lobby Observe SamplesMore.
Import GameLogicFacts GamesFacts.

Section Outcome.

Lemma list_pop_nil : list_pop [] = Raise (IndexError "pop from empty list").
Proof. reflexivity. Qed.

(** A deck with fewer than two cards per player runs out in the loop. *)
Lemma deal_cards_exhausted (players : list Player) (top_first : list Card)
  (w : World) :
  (List.length top_first < 2 * List.length players)%nat ->
  fst (deal_cards players (rev top_first) w)
    = Raise (IndexError "pop from empty list").
Proof.
  revert top_first w.
  induction players as [|p rest IH]; intros t w Hlen; [simpl in Hlen; lia|].
  cbn [deal_cards].
  destruct t as [|c1 [|c2 below]].
  - unfold bind, lift. cbn [rev]. now rewrite list_pop_nil.
  - rewrite (bind_Ok _ _ w w (c1, rev []))
      by (unfold lift; now rewrite list_pop_top).
    unfold bind, lift. cbn [rev]. now rewrite list_pop_nil.
  - rewrite (bind_Ok _ _ w w (c1, rev (c2 :: below)))
      by (unfold lift; now rewrite list_pop_top).
    rewrite (bind_Ok _ _ w w (c2, rev below))
      by (unfold lift; now rewrite list_pop_top).
    rewrite (bind_Ok _ _ w
               {| db := update_seat_cards (id p) [c1; c2] (db w); rng := rng w |}
               tt) by reflexivity.
    apply IH. simpl in Hlen |- *. lia.
Qed.

Lemma start_new_hand_too_many (gid : Z) (players : list Player)
  (settings : GameSettings) (w : World) :
  (26 < List.length players)%nat ->
  fst (start_new_hand gid players settings w)
    = Raise (IndexError "pop from empty list").
Proof.
  intros Hmany.
  pose proof (shuffled_deck_length (rng w)) as Hdeck.
  destruct (shuffle_deck create_deck (rng w)) as [deck r1] eqn:Hshuffle.
  cbn [fst] in Hdeck.
  unfold start_new_hand.
  rewrite (bind_Ok _ _ w {| db := db w; rng := r1 |} deck)
    by (unfold with_random; now rewrite Hshuffle).
  pose proof (deal_cards_exhausted players (rev deck)
                {| db := db w; rng := r1 |}) as Hdeal.
  rewrite rev_involutive, length_rev, Hdeck in Hdeal.
  specialize (Hdeal ltac:(lia)).
  unfold bind at 1.
  destruct (deal_cards players deck {| db := db w; rng := r1 |}) as [[rest|e] w2];
    cbn [fst] in Hdeal |- *; [discriminate|]. congruence.
Qed.

Lemma some_playing (players : list Player) :
  existsb is_playing players = true <-> filter is_playing players <> [].
Proof.
  induction players as [|p rest IH]; simpl.
  - split; [discriminate|congruence].
  - destruct (is_playing p); simpl; [|exact IH].
    split; [discriminate|reflexivity].
Qed.

Lemma start_new_hand_ends (gid : Z) (players : list Player)
  (settings : GameSettings) (w : World) :
  fst (start_new_hand gid players settings w) = hand_outcome players.
Proof.
  unfold hand_outcome.
  destruct (Nat.ltb_spec 26 (List.length players)) as [Hmany|Hfew].
  - now apply start_new_hand_too_many.
  - destruct players as [|p0 rest] eqn:E.
    + now rewrite start_new_hand_no_players.
    + rewrite <- E in *.
      assert (Hne : players <> []) by (rewrite E; discriminate).
      clear E p0 rest.
      destruct (existsb is_playing players) eqn:Eplaying.
      * apply some_playing in Eplaying.
        destruct (start_new_hand_run gid players settings w Hne Hfew Eplaying)
          as (? & ? & ? & ? & ? & ? & ? & _ & _ & _ & _ & _ & Hrun).
        remember (rev (fst (shuffle_deck create_deck (rng w)))) as t eqn:Et.
        clear Et. now rewrite Hrun.
      * assert (Hnone : filter is_playing players = []).
        { destruct (filter is_playing players) eqn:Ef; [reflexivity|].
          assert (existsb is_playing players = true)
            by (apply some_playing; rewrite Ef; discriminate).
          congruence. }
        now rewrite (start_new_hand_no_playing gid players settings w
                       Hne Hfew Hnone).
Qed.

(** How a run of [start_new_hand] ends is decided by the players alone: an
    empty deck with more than 26 players, an empty choice without players,
    a modulo by zero when no player is playing, and completion otherwise;
    so it completes exactly with 1 to 26 players one of whom is playing. *)
Theorem start_new_hand_outcome (gid : Z) (players : list Player)
  (settings : GameSettings) (w : World) :
  fst (start_new_hand gid players settings w) = hand_outcome players /\
  (fst (start_new_hand gid players settings w) = Ok tt <->
   (0 < List.length players <= 26)%nat /\ existsb is_playing players = true).
Proof.
  rewrite start_new_hand_ends. split; [reflexivity|].
  unfold hand_outcome.
  destruct (Nat.ltb_spec 26 (List.length players)) as [Hmany|Hfew].
  - split; [discriminate|]. intros [Hlen _]. lia.
  - destruct players as [|p rest].
    + split; [discriminate|]. intros [Hlen _]. simpl in Hlen. lia.
    + destruct (existsb is_playing (p :: rest)).
      * split; [|reflexivity]. intros _. split; [simpl in *; lia|reflexivity].
      * split; [discriminate|]. intros [_ H]. discriminate.
Qed.

End Outcome.

Section StableOnPlayers.

Variable R : Db -> Db -> Prop.
Hypothesis R_refl : forall d, R d d.
Hypothesis R_trans : forall d1 d2 d3, R d1 d2 -> R d2 d3 -> R d1 d3.

Lemma stable_deal_cards_of (players : list Player) (deck : list Card) :
  (forall p cs d, In p players -> R d (update_seat_cards (id p) cs d)) ->
  stable R (deal_cards players deck).
Proof.
  revert deck. induction players as [|p rest IH]; intros deck Hcards.
  - now apply stable_ret.
  - cbn [deal_cards].
    apply stable_bind; auto using stable_lift. intros [c1 deck1].
    apply stable_bind; auto using stable_lift. intros [c2 deck2].
    apply stable_bind; [exact R_trans| |].
    + apply stable_execute. intros d. apply Hcards. now left.
    + intros _. apply IH. intros q cs d Hq. apply Hcards. now right.
Qed.

(** The writes of [start_new_hand], each on a row of one of the players it
    is given or on the game state of its game. *)
Lemma stable_start_new_hand_of (gid : Z) (players : list Player)
  (settings : GameSettings) :
  (forall p cs d, In p players -> R d (update_seat_cards (id p) cs d)) ->
  (forall p v d, In p players -> R d (update_seat_chip_count (id p) v d)) ->
  (forall dealer pot bet cs turn d,
     R d (update_game_state gid dealer pot bet cs turn d)) ->
  stable R (start_new_hand gid players settings).
Proof.
  intros Hcards Hchips Hstate. unfold start_new_hand.
  apply stable_bind; auto using stable_with_random. intros deck.
  apply stable_bind; auto using stable_deal_cards_of. intros _.
  apply stable_bind; auto using stable_random_choice. intros dealer_seat.
  apply stable_bind; auto using stable_lift. intros [[sb_seat bb_seat] utg_seat].
  apply stable_bind_subscript; [exact R_refl|]. intros sb_player Esb.
  apply player_at_In in Esb as [Hsbin _].
  apply stable_bind; [exact R_trans|apply stable_execute; auto|]. intros _.
  apply stable_bind_subscript; [exact R_refl|]. intros bb_player Ebb.
  apply player_at_In in Ebb as [Hbbin _].
  apply stable_bind; [exact R_trans|apply stable_execute; auto|]. intros _.
  destruct (player_at players utg_seat);
    [apply stable_execute; auto|now apply stable_raise].
Qed.

End StableOnPlayers.

Section Frame.

Lemma same_frame_refl (gid : Z) (ids : list Z) (d : Db) :
  same_frame gid ids d d.
Proof. now constructor. Qed.

Lemma same_frame_trans (gid : Z) (ids : list Z) (d1 d2 d3 : Db) :
  same_frame gid ids d1 d2 -> same_frame gid ids d2 d3 ->
  same_frame gid ids d1 d3.
Proof. intros [] []. constructor; congruence. Qed.

(** Rewriting, in the rows of one id among [ids], fields other than those
    that identify the row. *)
Lemma same_frame_row_update (gid : Z) (ids : list Z) (pid : Z)
  (f : SeatRow -> SeatRow) (d : Db) :
  In pid ids ->
  (forall r, seat_identity (f r) = seat_identity r) ->
  same_frame gid ids d
    (with_seats d (update_where (fun r => s_id r =? pid) f (seats d))).
Proof.
  intros Hin Hf. constructor; cbn [games seats game_state with_seats];
    try reflexivity.
  - unfold update_where. rewrite map_map. apply map_ext. intros r.
    destruct (s_id r =? pid); [apply Hf|reflexivity].
  - unfold update_where. rewrite map_map. apply map_ext. intros r.
    destruct (s_id r =? pid) eqn:E; [|reflexivity].
    apply Z.eqb_eq in E. unfold unless_id.
    assert (Hid : s_id (f r) = s_id r).
    { specialize (Hf r). unfold seat_identity in Hf. congruence. }
    rewrite Hid, E.
    replace (mem pid ids) with true; [reflexivity|].
    symmetry. now apply mem_In.
Qed.

Lemma same_frame_game_state (gid : Z) (ids : list Z) (dealer pot bet : Z)
  (cs : list Card) (turn : string) (d : Db) :
  same_frame gid ids d (update_game_state gid dealer pot bet cs turn d).
Proof.
  constructor; cbn [games seats game_state update_game_state];
    try reflexivity; unfold update_where; rewrite map_map; apply map_ext;
    intros g; destruct (gs_game_id g =? gid) eqn:E; try reflexivity.
  unfold unless_game. cbn [gs_game_id]. now rewrite E.
Qed.

Lemma start_new_hand_same_frame (gid : Z) (players : list Player)
  (settings : GameSettings) (w : World) :
  same_frame gid (map id players) (db w)
    (db (snd (start_new_hand gid players settings w))).
Proof.
  apply (stable_start_new_hand_of (same_frame gid (map id players))).
  - apply same_frame_refl.
  - apply same_frame_trans.
  - intros p cs d Hp. apply same_frame_row_update; [now apply in_map|].
    intros r. reflexivity.
  - intros p v d Hp. apply same_frame_row_update; [now apply in_map|].
    intros r. reflexivity.
  - intros. apply same_frame_game_state.
Qed.

(** Whatever it is given and however it ends, [start_new_hand] leaves the
    games table as it was, adds, removes and re-identifies no seat row
    (id, game, user, seat number and status stay), changes no row whose id
    is not the id of a player it was given, and changes no game-state row
    of another game; both tables keep their numbers of rows. *)
Theorem start_new_hand_frame (gid : Z) (players : list Player)
  (settings : GameSettings) (w : World) :
  same_frame gid (map id players) (db w)
    (db (snd (start_new_hand gid players settings w))) /\
  List.length (seats (db (snd (start_new_hand gid players settings w))))
    = List.length (seats (db w)) /\
  List.length (game_state (db (snd (start_new_hand gid players settings w))))
    = List.length (game_state (db w)).
Proof.
  pose proof (start_new_hand_same_frame gid players settings w) as Hframe.
  split; [exact Hframe|].
  destruct Hframe as [_ Hident _ Hkeys _]. split.
  - rewrite <- (length_map seat_identity), Hident. apply length_map.
  - rewrite <- (length_map gs_game_id), Hkeys. apply length_map.
Qed.

End Frame.

Section Turn.

(** After a completed start-up the game state holds as dealer the seat
    [random.choice] drew among the given players, names, as the player whose
    turn it is, the user of the first seat in the given list that has the
    first-to-act seat number for that dealer, and shows no community card. *)
Theorem first_to_act_gets_the_turn (gid : Z) (players : list Player)
  (settings : GameSettings) (w : World) :
  (List.length players <= 26)%nat ->
  existsb is_playing players = true ->
  state_of_game gid (db w) <> None ->
  exists dealer sb bb utg p g,
    nth_error (map seat_number players) (dealer_draw players (rng w))
      = Some dealer /\
    get_player_positions players dealer = Ok (sb, bb, utg) /\
    player_at players utg = Some p /\
    state_of_game gid (db (snd (start_new_hand gid players settings w)))
      = Some g /\
    dealer_position g = Some dealer /\
    current_player_turn g = Some (user_id p) /\
    community_cards g = [].
Proof.
  intros Hlen Hplaying Hstate.
  apply some_playing in Hplaying.
  assert (Hne : players <> []) by (intros ->; now apply Hplaying).
  destruct (state_of_game gid (db w)) as [g0|] eqn:Eg; [clear Hstate|congruence].
  destruct (start_new_hand_run gid players settings w Hne Hlen Hplaying) as
    (dealer & sb & bb & utg & sbp & bbp & utgp & Hd & Hpos & _ & _ & Hutg & Hrun).
  remember (rev (fst (shuffle_deck create_deck (rng w)))) as top_first eqn:Et.
  clear Et. rewrite Hrun. clear Hrun. cbn [snd db].
  exists dealer, sb, bb, utg, utgp.
  eexists. split; [exact Hd|]. split; [exact Hpos|]. split; [exact Hutg|].
  split.
  - apply state_of_game_updated.
    unfold state_of_game in *.
    cbn [game_state update_seat_chip_count with_seats].
    rewrite deal_db_game_state. exact Eg.
  - cbn. auto.
Qed.

Lemma first_to_act_gets_the_turn_witness :
  exists dealer sb bb utg p g,
    nth_error (map seat_number three_handed)
      (dealer_draw three_handed rng_ones) = Some dealer /\
    get_player_positions three_handed dealer = Ok (sb, bb, utg) /\
    player_at three_handed utg = Some p /\
    state_of_game 1
      (db (snd (start_new_hand 1 three_handed (blinds_5_10 100 4)
                  {| db := table_of (blinds_5_10 100 4) (three_seats 100);
                     rng := rng_ones |})))
      = Some g /\
    dealer_position g = Some dealer /\
    current_player_turn g = Some (user_id p) /\
    community_cards g = [].
Proof.
  apply (first_to_act_gets_the_turn 1 three_handed (blinds_5_10 100 4)
           {| db := table_of (blinds_5_10 100 4) (three_seats 100);
              rng := rng_ones |}).
  - cbn. lia.
  - reflexivity.
  - discriminate.
Defined.

End Turn.

Section JoinMore.

Lemma join_game_selects (code : string) (w : World) (seat : Z) :
  fst (join_game code w) = Ok seat ->
  exists g, games_with_code code (db w) = [g].
Proof.
  intros Hok.
  destruct (games_with_code code (db w)) as [|g [|g' rest]] eqn:Hg;
    [exfalso|now exists g|exfalso]; revert Hok;
    unfold join_game, try_except, select_game, bind, query, raise;
    now rewrite Hg.
Qed.

(** What an accepted join tells about the table it found, and what it
    leaves. *)
Lemma join_game_accepted (code : string) (w : World) (g : GameRow) (seat : Z) :
  games_with_code code (db w) = [g] ->
  fst (join_game code w) = Ok seat ->
  g_status g = "waiting" /\
  Z.of_nat (List.length (seats_of_game (g_id g) (db w)))
    < max_players (g_settings g) /\
  ~ In join_player_id (map s_user_id (seats_of_game (g_id g) (db w))) /\
  seat = first_available_seat (max_players (g_settings g))
           (map s_seat_number (seats_of_game (g_id g) (db w))) /\
  snd (join_game code w) =
    {| db := insert_seat (g_id g) join_player_id seat
               (buy_in (g_settings g)) "playing" (db w);
       rng := rng w |}.
Proof.
  intros Hg. rewrite (join_game_eval code w g Hg).
  destruct (String.eqb (g_status g) "waiting") eqn:Estatus; cbn [negb fst];
    [|discriminate].
  apply String.eqb_eq in Estatus.
  destruct (Z.geb_spec (Z.of_nat (List.length (seats_of_game (g_id g) (db w))))
              (max_players (g_settings g))) as [Hfull|Hroom];
    cbn [fst]; [discriminate|].
  destruct (existsb _ (seats_of_game (g_id g) (db w))) eqn:Eseated;
    cbn [fst]; [discriminate|].
  destruct (first_available_seat _ _ =? -1); cbn [fst snd]; [discriminate|].
  intros [= <-]. repeat split; auto.
  intros H. apply already_seated_In in H. congruence.
Qed.

Lemma below_fresh_seat_id (d : Db) (r : SeatRow) :
  In r (seats d) -> s_id r < fresh_seat_id d.
Proof.
  unfold fresh_seat_id. induction (seats d) as [|h t IH]; [contradiction|].
  intros [->|Hin]; cbn [map fold_right]; [lia|]. specialize (IH Hin). lia.
Qed.

Lemma NoDup_added_last {A : Type} (l : list A) (x : A) :
  NoDup l -> ~ In x l -> NoDup (l ++ [x])%list.
Proof.
  intros Hnd Hx. apply (Permutation_NoDup (l := x :: l)).
  - apply Permutation_cons_append.
  - now constructor.
Qed.

Lemma seats_of_game_insert (gid g : Z) (uid st : string) (seat chips : Z)
  (d : Db) :
  seats_of_game gid (insert_seat g uid seat chips st d) =
    (seats_of_game gid d ++
     (if g =? gid
      then [ {| s_id := fresh_seat_id d; s_game_id := g; s_user_id := uid;
                s_seat_number := seat; s_chip_count := chips;
                s_status := Some st; s_cards := None |} ]
      else []))%list.
Proof.
  unfold seats_of_game, insert_seat, with_seats. cbn [seats].
  rewrite filter_app. cbn [filter s_game_id]. reflexivity.
Qed.

(** [join_game] keeps the keys of the seats table: seat ids stay distinct,
    and within every game seat numbers stay distinct. *)
Theorem join_game_keeps_seats_keyed (code : string) (w : World) :
  seats_keyed (db w) -> seats_keyed (db (snd (join_game code w))).
Proof.
  intros [Hids Hnums].
  destruct (fst (join_game code w)) as [seat|e] eqn:Eres.
  2:{ rewrite (join_game_rejection_writes_nothing code w e Eres). now split. }
  destruct (join_game_selects code w seat Eres) as [g Hg].
  destruct (join_game_accepted code w g seat Hg Eres) as
    (_ & Hroom & _ & Hseat & ->). cbn [db].
  destruct (first_available_seat_spec (max_players (g_settings g))
              (map s_seat_number (seats_of_game (g_id g) (db w)))) as
    (_ & Hfree & _); [now rewrite length_map|].
  rewrite <- Hseat in Hfree.
  split.
  - unfold insert_seat, with_seats. cbn [seats]. rewrite map_app.
    apply NoDup_added_last; [exact Hids|]. cbn [map s_id].
    intros Hin. apply in_map_iff in Hin as (r & Hr & Hin).
    apply below_fresh_seat_id in Hin. lia.
  - intros gid. rewrite seats_of_game_insert.
    destruct (g_id g =? gid) eqn:E.
    + apply Z.eqb_eq in E. subst gid. rewrite map_app.
      apply NoDup_added_last; [apply Hnums|exact Hfree].
    + rewrite app_nil_r. apply Hnums.
Qed.

Lemma join_game_keeps_seats_keyed_witness :
  seats_keyed
    (db (snd (join_game "ABC123"
                {| db := table_of (blinds_5_10 100 4) (two_seats 100);
                   rng := rng_zeros |}))).
Proof.
  apply (join_game_keeps_seats_keyed "ABC123"
           {| db := table_of (blinds_5_10 100 4) (two_seats 100);
              rng := rng_zeros |}).
  split.
  - cbn. repeat constructor; cbn; intuition lia.
  - intros gid. unfold seats_of_game. apply distinct_keys_filter.
    cbn. repeat constructor; cbn; intuition lia.
Defined.

(** [join_game] never seats a player beyond the capacity of the game: a
    game with at most [max_players] seats, numbered within
    [1..max_players], is still so after any join. *)
Theorem join_game_stays_within_capacity (code : string) (w : World)
  (g : GameRow) :
  games_with_code code (db w) = [g] ->
  within_capacity g (db w) ->
  within_capacity g (db (snd (join_game code w))).
Proof.
  intros Hg [Hcount Hrange].
  destruct (fst (join_game code w)) as [seat|e] eqn:Eres.
  2:{ rewrite (join_game_rejection_writes_nothing code w e Eres). now split. }
  destruct (join_game_accepted code w g seat Hg Eres) as
    (_ & Hroom & _ & Hseat & ->). cbn [db].
  destruct (first_available_seat_spec (max_players (g_settings g))
              (map s_seat_number (seats_of_game (g_id g) (db w)))) as
    (Hin_range & _ & _); [now rewrite length_map|].
  rewrite <- Hseat in Hin_range.
  unfold within_capacity. rewrite seats_of_game_insert, Z.eqb_refl.
  rewrite length_app. cbn [List.length]. split; [lia|].
  apply Forall_app. split; [exact Hrange|].
  constructor; [exact Hin_range|constructor].
Qed.

Lemma join_game_stays_within_capacity_witness :
  within_capacity (game_of (blinds_5_10 100 4))
    (db (snd (join_game "ABC123"
                {| db := table_of (blinds_5_10 100 4) (two_seats 100);
                   rng := rng_zeros |}))).
Proof.
  apply (join_game_stays_within_capacity "ABC123"
           {| db := table_of (blinds_5_10 100 4) (two_seats 100);
              rng := rng_zeros |}
           (game_of (blinds_5_10 100 4))).
  - reflexivity.
  - split; cbn; [lia|]. repeat constructor; cbn; lia.
Defined.

(** A player who has just been seated cannot join the same game again: the
    second request is rejected and writes nothing, with 403 "Game is full."
    when the first join took the last seat (the capacity is checked first),
    and with 400 "You are already in this game." otherwise. *)
Theorem second_join_is_rejected (code : string) (w : World) (g : GameRow)
  (seat : Z) :
  games_with_code code (db w) = [g] ->
  fst (join_game code w) = Ok seat ->
  join_game code (snd (join_game code w)) =
    (Raise
       (if Z.of_nat (List.length (seats_of_game (g_id g) (db w))) + 1
             >=? max_players (g_settings g)
        then HTTPException 403 "Game is full."
        else HTTPException 400 "You are already in this game."),
     snd (join_game code w)).
Proof.
  intros Hg Hok.
  destruct (join_game_accepted code w g seat Hg Hok) as
    (Hstatus & _ & _ & _ & ->).
  rewrite (join_game_eval code _ g) by exact Hg.
  cbn [db]. rewrite Hstatus. cbn [String.eqb Ascii.eqb Bool.eqb negb].
  rewrite seats_of_game_insert, Z.eqb_refl, length_app. cbn [List.length].
  replace (Z.of_nat (List.length (seats_of_game (g_id g) (db w)) + 1))
    with (Z.of_nat (List.length (seats_of_game (g_id g) (db w))) + 1) by lia.
  destruct (_ >=? _); [reflexivity|].
  rewrite existsb_app. cbn [existsb s_user_id].
  rewrite String.eqb_refl, orb_true_r. cbn [orb]. reflexivity.
Qed.

Lemma second_join_is_rejected_witness :
  join_game "ABC123"
    (snd (join_game "ABC123"
            {| db := table_of (blinds_5_10 100 4) (two_seats 100);
               rng := rng_zeros |})) =
    (Raise
       (if Z.of_nat
             (List.length
                (seats_of_game (g_id (game_of (blinds_5_10 100 4)))
                   (db {| db := table_of (blinds_5_10 100 4) (two_seats 100);
                          rng := rng_zeros |}))) + 1
             >=? max_players (g_settings (game_of (blinds_5_10 100 4)))
        then HTTPException 403 "Game is full."
        else HTTPException 400 "You are already in this game."),
     snd (join_game "ABC123"
            {| db := table_of (blinds_5_10 100 4) (two_seats 100);
               rng := rng_zeros |})).
Proof.
  apply (second_join_is_rejected "ABC123"
           {| db := table_of (blinds_5_10 100 4) (two_seats 100);
              rng := rng_zeros |}
           (game_of (blinds_5_10 100 4)) 3).
  - reflexivity.
  - reflexivity.
Defined.

End JoinMore.

Section StartMore.

(** [start_game] once its checks have passed: it marks the game and runs
    the hand start-up; whatever that raises is answered with a 500. *)
Lemma start_game_run (code : string) (w : World) (g : GameRow) :
  games_with_code code (db w) = [g] ->
  g_host_id g = start_host_id ->
  g_status g = "waiting" ->
  (2 <= List.length (seats_of_game (g_id g) (db w)))%nat ->
  snd (start_game code w) =
    snd (start_new_hand (g_id g)
           (map player_of_row (seats_of_game (g_id g) (db w)))
           (g_settings g)
           {| db := update_game_status (g_id g) "in_progress" (db w);
              rng := rng w |}) /\
  fst (start_game code w) =
    match hand_outcome (map player_of_row (seats_of_game (g_id g) (db w))) with
    | Ok _ => Ok "Game started successfully."
    | Raise _ =>
        Raise (HTTPException 500 "An error occurred while starting the game.")
    end.
Proof.
  intros Hg Hhost Hstatus Hseats.
  pose proof (start_new_hand_ends (g_id g)
                (map player_of_row (seats_of_game (g_id g) (db w)))
                (g_settings g)
                {| db := update_game_status (g_id g) "in_progress" (db w);
                   rng := rng w |}) as Hends.
  assert (Heq : start_game code w =
    match start_new_hand (g_id g)
            (map player_of_row (seats_of_game (g_id g) (db w)))
            (g_settings g)
            {| db := update_game_status (g_id g) "in_progress" (db w);
               rng := rng w |} with
    | (Ok _, w2) => (Ok "Game started successfully.", w2)
    | (Raise (HTTPException c d), w2) => (Raise (HTTPException c d), w2)
    | (Raise _, w2) =>
        (Raise (HTTPException 500 "An error occurred while starting the game."),
         w2)
    end).
  { unfold start_game, try_except, select_game.
    unfold bind at 1. unfold bind at 1. unfold query at 1. rewrite Hg.
    unfold ret at 1. rewrite Hhost, Hstatus, !String.eqb_refl. cbn [negb].
    unfold bind at 1. unfold query at 1. rewrite length_map.
    replace (List.length (seats_of_game (g_id g) (db w)) <? 2)%nat with false
      by (symmetry; apply Nat.ltb_ge; exact Hseats).
    rewrite bind_execute. unfold bind at 1.
    destruct (start_new_hand _ _ _ _) as [[[]|e] w2];
      [reflexivity|destruct e; reflexivity]. }
  rewrite Heq. clear Heq.
  destruct (start_new_hand _ _ _ _) as [[[]|e] w2]; cbn [fst snd] in *.
  - rewrite <- Hends. now split.
  - rewrite <- Hends. split.
    + now destruct e.
    + destruct e; try reflexivity.
      exfalso. revert Hends. unfold hand_outcome.
      repeat match goal with
             | |- context [if ?b then _ else _] => destruct b
             | |- context [match ?l with [] => _ | _ :: _ => _ end] => destruct l
             end; discriminate.
Qed.

Lemma start_game_not_waiting (code : string) (w : World) (g : GameRow) :
  games_with_code code (db w) = [g] ->
  g_host_id g = start_host_id ->
  g_status g <> "waiting" ->
  start_game code w =
    (Raise (HTTPException 400 "Game has already started or is finished."), w).
Proof.
  intros Hg Hhost Hstatus.
  unfold start_game, try_except, select_game.
  unfold bind at 1. unfold bind at 1. unfold query at 1. rewrite Hg.
  unfold ret at 1. rewrite Hhost, String.eqb_refl. cbn [negb].
  apply String.eqb_neq in Hstatus. rewrite Hstatus. reflexivity.
Qed.

Lemma games_with_code_marked (code st : string) (gid : Z) (d : Db) :
  games_with_code code (update_game_status gid st d) =
    map (fun g => if g_id g =? gid
                  then {| g_id := g_id g; g_game_code := g_game_code g;
                          g_host_id := g_host_id g; g_status := st;
                          g_settings := g_settings g |}
                  else g)
      (games_with_code code d).
Proof.
  unfold games_with_code, update_game_status, update_where. cbn [games].
  induction (games d) as [|g rest IH]; [reflexivity|].
  cbn [map filter]. destruct (g_id g =? gid) eqn:E; cbn [g_game_code];
    destruct (String.eqb (g_game_code g) code); cbn [map];
    rewrite ?E, IH; reflexivity.
Qed.

(** Once [start_game] has passed its checks the game is in progress, also
    when the hand start-up then fails and the caller is answered with a
    500: the game no longer accepts a join (403) nor a second start (400),
    and neither request writes anything. *)
Theorem started_game_is_closed (code : string) (w : World) (g : GameRow) :
  games_with_code code (db w) = [g] ->
  g_host_id g = start_host_id ->
  g_status g = "waiting" ->
  (2 <= List.length (seats_of_game (g_id g) (db w)))%nat ->
  (exists g',
     games_with_code code (db (snd (start_game code w))) = [g'] /\
     g_id g' = g_id g /\ g_status g' = "in_progress") /\
  join_game code (snd (start_game code w)) =
    (Raise (HTTPException 403 "Game is already in progress."),
     snd (start_game code w)) /\
  start_game code (snd (start_game code w)) =
    (Raise (HTTPException 400 "Game has already started or is finished."),
     snd (start_game code w)).
Proof.
  intros Hg Hhost Hstatus Hseats.
  destruct (start_game_run code w g Hg Hhost Hstatus Hseats) as [Hsnd _].
  set (g' := {| g_id := g_id g; g_game_code := g_game_code g;
                g_host_id := g_host_id g; g_status := "in_progress";
                g_settings := g_settings g |}).
  assert (Hg' : games_with_code code (db (snd (start_game code w))) = [g']).
  { rewrite Hsnd. unfold games_with_code at 1.
    rewrite (frame_games _ _ _ _ (start_new_hand_same_frame _ _ _ _)).
    cbn [db]. fold (games_with_code code
                      (update_game_status (g_id g) "in_progress" (db w))).
    rewrite games_with_code_marked, Hg. cbn [map].
    now rewrite Z.eqb_refl. }
  split; [exists g'; now repeat split|]. split.
  - rewrite (join_game_eval code _ g' Hg'). reflexivity.
  - apply (start_game_not_waiting code _ g' Hg'); [exact Hhost|].
    cbn. discriminate.
Qed.

Lemma started_game_is_closed_witness :
  (exists g',
     games_with_code "ABC123"
       (db (snd (start_game "ABC123"
                   {| db := table_of (blinds_5_10 100 4) (two_seats 100);
                      rng := rng_zeros |}))) = [g'] /\
     g_id g' = g_id (game_of (blinds_5_10 100 4)) /\
     g_status g' = "in_progress") /\
  join_game "ABC123"
    (snd (start_game "ABC123"
            {| db := table_of (blinds_5_10 100 4) (two_seats 100);
               rng := rng_zeros |})) =
    (Raise (HTTPException 403 "Game is already in progress."),
     snd (start_game "ABC123"
            {| db := table_of (blinds_5_10 100 4) (two_seats 100);
               rng := rng_zeros |})) /\
  start_game "ABC123"
    (snd (start_game "ABC123"
            {| db := table_of (blinds_5_10 100 4) (two_seats 100);
               rng := rng_zeros |})) =
    (Raise (HTTPException 400 "Game has already started or is finished."),
     snd (start_game "ABC123"
            {| db := table_of (blinds_5_10 100 4) (two_seats 100);
               rng := rng_zeros |})).
Proof.
  apply (started_game_is_closed "ABC123"
           {| db := table_of (blinds_5_10 100 4) (two_seats 100);
              rng := rng_zeros |}
           (game_of (blinds_5_10 100 4))).
  - reflexivity.
  - reflexivity.
  - reflexivity.
  - cbn. lia.
Defined.

Lemma existsb_of_map {A B : Type} (f : B -> bool) (h : A -> B) (l : list A) :
  existsb f (map h l) = existsb (fun x => f (h x)) l.
Proof. induction l as [|a t IH]; simpl; [reflexivity|now rewrite IH]. Qed.

(** The answer of [start_game] once its checks have passed, with 2 seats or
    more: success when the table holds at most 26 seats and one of them at
    least is playing, and a 500 otherwise. *)
Theorem start_game_answer (code : string) (w : World) (g : GameRow) :
  games_with_code code (db w) = [g] ->
  g_host_id g = start_host_id ->
  g_status g = "waiting" ->
  (2 <= List.length (seats_of_game (g_id g) (db w)))%nat ->
  fst (start_game code w) =
    if (List.length (seats_of_game (g_id g) (db w)) <=? 26)%nat
       && existsb (fun r => is_playing (player_of_row r))
            (seats_of_game (g_id g) (db w))
    then Ok "Game started successfully."
    else Raise (HTTPException 500 "An error occurred while starting the game.").
Proof.
  intros Hg Hhost Hstatus Hseats.
  destruct (start_game_run code w g Hg Hhost Hstatus Hseats) as [_ ->].
  unfold hand_outcome. rewrite length_map.
  destruct (Nat.ltb_spec 26 (List.length (seats_of_game (g_id g) (db w))))
    as [Hmany|Hfew].
  - replace (_ <=? 26)%nat with false by (symmetry; apply Nat.leb_gt; lia).
    reflexivity.
  - replace (_ <=? 26)%nat with true by (symmetry; apply Nat.leb_le; lia).
    cbn [andb].
    destruct (seats_of_game (g_id g) (db w)) as [|r0 rest];
      [simpl in Hseats; lia|].
    cbn [map].
    change (player_of_row r0 :: map player_of_row rest)
      with (map player_of_row (r0 :: rest)).
    rewrite existsb_of_map.
    now destruct (existsb _ (r0 :: rest)).
Qed.

Lemma start_game_answer_witness :
  fst (start_game "ABC123"
         {| db := table_of (blinds_5_10 100 4) (two_seats 100);
            rng := rng_zeros |}) =
    if (List.length
          (seats_of_game (g_id (game_of (blinds_5_10 100 4)))
             (db {| db := table_of (blinds_5_10 100 4) (two_seats 100);
                    rng := rng_zeros |})) <=? 26)%nat
       && existsb (fun r => is_playing (player_of_row r))
            (seats_of_game (g_id (game_of (blinds_5_10 100 4)))
               (db {| db := table_of (blinds_5_10 100 4) (two_seats 100);
                      rng := rng_zeros |}))
    then Ok "Game started successfully."
    else Raise (HTTPException 500 "An error occurred while starting the game.").
Proof.
  apply (start_game_answer "ABC123"
           {| db := table_of (blinds_5_10 100 4) (two_seats 100);
              rng := rng_zeros |}
           (game_of (blinds_5_10 100 4))).
  - reflexivity.
  - reflexivity.
  - reflexivity.
  - cbn. lia.
Defined.

End StartMore.

Section GameCode.

Lemma string_of_list_length (l : list ascii) :
  String.length (string_of_list_ascii l) = List.length l.
Proof. induction l as [|c t IH]; simpl; [reflexivity|now rewrite IH]. Qed.

(** Over a non-empty population every pick succeeds; each consumes one
    draw. *)
Lemma random_choices_run (population : list ascii) (k : nat) (w : World) :
  population <> [] ->
  exists picks,
    random_choices population k w =
      (Ok picks,
       {| db := db w;
          rng := {| draws := draws (rng w);
                    cursor := (cursor (rng w) + k)%nat |} |}) /\
    List.length picks = k /\
    Forall (fun c => In c population) picks.
Proof.
  intros Hne. revert w. induction k as [|k IH]; intros w.
  - exists []. cbn [random_choices]. unfold ret. rewrite Nat.add_0_r.
    destruct w as [d [ds c]]. cbn. auto.
  - cbn [random_choices].
    set (i := Nat.modulo (draws (rng w) (cursor (rng w))) (List.length population)).
    assert (Hi : (i < List.length population)%nat).
    { apply Nat.mod_upper_bound. destruct population; [contradiction|discriminate]. }
    destruct (nth_error population i) as [c|] eqn:Ec;
      [|apply nth_error_None in Ec; lia].
    set (w1 := {| db := db w;
                  rng := {| draws := draws (rng w);
                            cursor := S (cursor (rng w)) |} |}).
    destruct (IH w1) as (rest & Hrest & Hlen & Hall).
    exists (c :: rest).
    rewrite (bind_Ok _ _ w w1 i) by reflexivity.
    rewrite (bind_Ok _ _ w1 w1 c) by (unfold lift, char_at; now rewrite Ec).
    rewrite (bind_Ok _ _ _ _ _ Hrest). unfold ret, w1.
    cbn [db rng draws cursor].
    split; [do 3 f_equal; lia|]. split; [simpl; lia|].
    constructor; [eapply nth_error_In; eauto|exact Hall].
Qed.

Lemma code_alphabet_nonempty : code_alphabet <> [].
Proof. discriminate. Qed.

Lemma generate_game_code_run (k : nat) (w : World) :
  exists code,
    generate_game_code k w =
      (Ok code,
       {| db := db w;
          rng := {| draws := draws (rng w);
                    cursor := (cursor (rng w) + k)%nat |} |}).
Proof.
  destruct (random_choices_run code_alphabet k w code_alphabet_nonempty) as
    (picks & Hrun & _).
  exists (string_of_list_ascii picks). unfold generate_game_code.
  now rewrite (bind_Ok _ _ _ _ _ Hrun).
Qed.

(** [generate_game_code] never fails and writes nothing: it returns a code
    of exactly the requested length made of capital letters and digits, and
    consumes one random draw per character. *)
Theorem game_code_shape (k : nat) (w : World) :
  exists code,
    generate_game_code k w =
      (Ok code,
       {| db := db w;
          rng := {| draws := draws (rng w);
                    cursor := (cursor (rng w) + k)%nat |} |}) /\
    String.length code = k /\
    Forall (fun c => In c code_alphabet) (list_ascii_of_string code).
Proof.
  destruct (random_choices_run code_alphabet k w code_alphabet_nonempty) as
    (picks & Hrun & Hlen & Hall).
  exists (string_of_list_ascii picks). unfold generate_game_code.
  rewrite (bind_Ok _ _ _ _ _ Hrun). unfold ret.
  split; [reflexivity|]. split.
  - now rewrite string_of_list_length.
  - now rewrite list_ascii_of_string_of_list_ascii.
Qed.

Example game_code_of_zeros :
  fst (generate_game_code 6 {| db := empty_db; rng := rng_zeros |})
    = Ok "AAAAAA".
Proof. reflexivity. Qed.

End GameCode.

Section Creating.

Lemma bind_query {A B : Type} (f : Db -> A) (k : A -> M B) (w : World) :
  bind (query f) k w = k (f (db w)) w.
Proof. reflexivity. Qed.

(** [create_game] with blinds in order: the code is generated, then the
    game, its state and the host's seat are inserted. *)
Lemma create_game_run (sch : Schema) (settings : GameSettings) (w : World) :
  small_blind settings <= big_blind settings ->
  exists code,
    fst (generate_game_code 6 w) = Ok code /\
    create_game sch settings w =
      (Ok (fresh_game_id (db w), code),
       {| db := insert_seat (fresh_game_id (db w)) create_host_id 1
                  (buy_in settings) "playing"
                  (insert_game_state sch (fresh_game_id (db w))
                     (insert_game sch (fresh_game_id (db w)) code
                        create_host_id settings (db w)));
          rng := {| draws := draws (rng w);
                    cursor := (cursor (rng w) + 6)%nat |} |}).
Proof.
  intros Hblinds.
  destruct (generate_game_code_run 6 w) as (code & Hcode).
  exists code. split; [now rewrite Hcode|].
  unfold create_game.
  replace (big_blind settings <? small_blind settings) with false
    by (symmetry; apply Z.ltb_ge; exact Hblinds).
  rewrite (bind_Ok _ _ _ _ _ Hcode).
  unfold try_except_any.
  rewrite bind_query, !bind_execute. unfold ret. cbn [db rng]. reflexivity.
Qed.

Lemma games_with_code_added (sch : Schema) (gid : Z) (code host : string)
  (settings : GameSettings) (d : Db) :
  games_with_code code (insert_game sch gid code host settings d) =
    (games_with_code code d ++
     [ {| g_id := gid; g_game_code := code; g_host_id := host;
          g_status := default_status sch; g_settings := settings |} ])%list.
Proof.
  unfold games_with_code, insert_game. cbn [games].
  rewrite filter_app. cbn [filter g_game_code].
  now rewrite String.eqb_refl.
Qed.

(** The table a new game opens with, when its code is not in use and no
    seat row refers to its id: the game alone under its code, and the host
    alone at seat 1. *)
Lemma create_game_opens (sch : Schema) (settings : GameSettings) (w : World) :
  small_blind settings <= big_blind settings ->
  (forall code, fst (generate_game_code 6 w) = Ok code ->
     games_with_code code (db w) = []) ->
  seats_of_game (fresh_game_id (db w)) (db w) = [] ->
  exists code w1,
    create_game sch settings w = (Ok (fresh_game_id (db w), code), w1) /\
    games_with_code code (db w1) =
      [ {| g_id := fresh_game_id (db w); g_game_code := code;
           g_host_id := create_host_id; g_status := default_status sch;
           g_settings := settings |} ] /\
    seats_of_game (fresh_game_id (db w)) (db w1) =
      [ {| s_id := fresh_seat_id (db w); s_game_id := fresh_game_id (db w);
           s_user_id := create_host_id; s_seat_number := 1;
           s_chip_count := buy_in settings; s_status := Some "playing";
           s_cards := None |} ] /\
    (exists g, state_of_game (fresh_game_id (db w)) (db w1) = Some g).
Proof.
  intros Hblinds Hfresh Hnone.
  destruct (create_game_run sch settings w Hblinds) as (code & Hcode & Hrun).
  specialize (Hfresh code Hcode).
  eexists code, _. split; [exact Hrun|]. cbn [db]. split; [|split].
  - transitivity
      (games_with_code code
         (insert_game sch (fresh_game_id (db w)) code create_host_id
            settings (db w))); [reflexivity|].
    now rewrite games_with_code_added, Hfresh.
  - rewrite seats_of_game_insert, Z.eqb_refl.
    change (seats_of_game (fresh_game_id (db w))
              (insert_game_state sch (fresh_game_id (db w))
                 (insert_game sch (fresh_game_id (db w)) code create_host_id
                    settings (db w))))
      with (seats_of_game (fresh_game_id (db w)) (db w)).
    rewrite Hnone. reflexivity.
  - unfold state_of_game, insert_seat, with_seats, insert_game_state.
    cbn [game_state insert_game].
    apply find_filter_nonempty. rewrite filter_app. cbn [filter gs_game_id].
    rewrite Z.eqb_refl. intros E. apply app_eq_nil in E as [_ E]. discriminate.
Qed.

Lemma first_available_after_host (max_players : Z) :
  2 <= max_players -> first_available_seat max_players [1] = 2.
Proof.
  intros Hmax.
  destruct (first_available_seat_spec max_players [1]) as
    (Hrange & Hfree & Hlowest); [simpl; lia|].
  set (s := first_available_seat max_players [1]) in *.
  assert (s <> 1) by (intros E; apply Hfree; rewrite E; now left).
  destruct (Z_lt_le_dec 2 s) as [Hbig|Hsmall]; [|lia].
  exfalso. destruct (Hlowest 2) as [E|[]]; lia.
Qed.

(** The table after the first join of a newly created game. *)
Lemma create_then_join (sch : Schema) (settings : GameSettings) (w : World) :
  default_status sch = "waiting" ->
  small_blind settings <= big_blind settings ->
  2 <= max_players settings ->
  (forall code, fst (generate_game_code 6 w) = Ok code ->
     games_with_code code (db w) = []) ->
  seats_of_game (fresh_game_id (db w)) (db w) = [] ->
  exists code w1 w2 host_row_id guest_row_id,
    create_game sch settings w = (Ok (fresh_game_id (db w), code), w1) /\
    join_game code w1 = (Ok 2, w2) /\
    games_with_code code (db w2) =
      [ {| g_id := fresh_game_id (db w); g_game_code := code;
           g_host_id := create_host_id; g_status := "waiting";
           g_settings := settings |} ] /\
    seats_of_game (fresh_game_id (db w)) (db w2) =
      [ {| s_id := host_row_id; s_game_id := fresh_game_id (db w);
           s_user_id := create_host_id; s_seat_number := 1;
           s_chip_count := buy_in settings; s_status := Some "playing";
           s_cards := None |};
        {| s_id := guest_row_id; s_game_id := fresh_game_id (db w);
           s_user_id := join_player_id; s_seat_number := 2;
           s_chip_count := buy_in settings; s_status := Some "playing";
           s_cards := None |} ] /\
    (exists g, state_of_game (fresh_game_id (db w)) (db w2) = Some g).
Proof.
  intros Hdefault Hblinds Hmax Hfresh Hnone.
  destruct (create_game_opens sch settings w Hblinds Hfresh Hnone) as
    (code & w1 & Hcreate & Hgame & Hseats & Hstate).
  rewrite Hdefault in Hgame.
  pose proof (join_game_eval code w1 _ Hgame) as Hjoin.
  cbn [g_status g_id g_settings] in Hjoin.
  rewrite Hseats in Hjoin. cbn [List.length map s_seat_number existsb s_user_id] in Hjoin.
  rewrite (first_available_after_host _ Hmax) in Hjoin.
  change (String.eqb "waiting" "waiting") with true in Hjoin.
  change (String.eqb create_host_id join_player_id) with false in Hjoin.
  cbn [negb orb] in Hjoin.
  replace (Z.of_nat 1 >=? max_players settings) with false in Hjoin
    by (symmetry; destruct (Z.geb_spec (Z.of_nat 1) (max_players settings)); lia).
  change (2 =? -1) with false in Hjoin. cbv iota in Hjoin.
  eexists code, w1, _, _, _. split; [exact Hcreate|]. split; [exact Hjoin|].
  cbn [db]. split; [|split].
  - exact Hgame.
  - rewrite seats_of_game_insert, Z.eqb_refl, Hseats. reflexivity.
  - exact Hstate.
Qed.

End Creating.

Section Lifecycle.

(** A newly created game cannot be started by the host alone: when new
    games wait for players, the code is not in use and no seat row refers
    to the new id, [start_game] on the returned code is refused with 400
    and writes nothing. *)
Theorem host_alone_cannot_start (sch : Schema) (settings : GameSettings)
  (w : World) :
  default_status sch = "waiting" ->
  small_blind settings <= big_blind settings ->
  (forall code, fst (generate_game_code 6 w) = Ok code ->
     games_with_code code (db w) = []) ->
  seats_of_game (fresh_game_id (db w)) (db w) = [] ->
  exists code w1,
    create_game sch settings w = (Ok (fresh_game_id (db w), code), w1) /\
    start_game code w1 =
      (Raise (HTTPException 400
                "Cannot start a game with fewer than 2 players."), w1).
Proof.
  intros Hdefault Hblinds Hfresh Hnone.
  destruct (create_game_opens sch settings w Hblinds Hfresh Hnone) as
    (code & w1 & Hcreate & Hgame & Hseats & _).
  exists code, w1. split; [exact Hcreate|].
  apply (start_game_guard code w1 _ Hgame); cbn [g_host_id g_status g_id].
  - reflexivity.
  - exact Hdefault.
  - rewrite Hseats. simpl. lia.
Qed.

Lemma host_alone_cannot_start_witness :
  exists code w1,
    create_game waiting_schema (blinds_5_10 100 4)
      {| db := table_of (blinds_5_10 100 4) (two_seats 100); rng := rng_zeros |}
    = (Ok (fresh_game_id
             (db {| db := table_of (blinds_5_10 100 4) (two_seats 100);
                    rng := rng_zeros |}), code), w1) /\
    start_game code w1 =
      (Raise (HTTPException 400
                "Cannot start a game with fewer than 2 players."), w1).
Proof.
  apply (host_alone_cannot_start waiting_schema (blinds_5_10 100 4)
           {| db := table_of (blinds_5_10 100 4) (two_seats 100);
              rng := rng_zeros |}).
  - reflexivity.
  - cbn. lia.
  - intros code H. vm_compute in H. injection H as <-. reflexivity.
  - reflexivity.
Defined.

(** The first player to join a newly created game is given seat 2, next to
    the host at seat 1, both playing with the buy-in as their stack: when
    new games wait for players, the game admits 2 players or more, the code
    is not in use and no seat row refers to the new id. *)
Theorem new_game_seats_first_joiner_at_two (sch : Schema)
  (settings : GameSettings) (w : World) :
  default_status sch = "waiting" ->
  small_blind settings <= big_blind settings ->
  2 <= max_players settings ->
  (forall code, fst (generate_game_code 6 w) = Ok code ->
     games_with_code code (db w) = []) ->
  seats_of_game (fresh_game_id (db w)) (db w) = [] ->
  exists code w1 w2,
    create_game sch settings w = (Ok (fresh_game_id (db w), code), w1) /\
    join_game code w1 = (Ok 2, w2) /\
    map (fun r => (s_user_id r, s_seat_number r, s_chip_count r, s_status r))
      (seats_of_game (fresh_game_id (db w)) (db w2)) =
      [ (create_host_id, 1, buy_in settings, Some "playing");
        (join_player_id, 2, buy_in settings, Some "playing") ].
Proof.
  intros Hdefault Hblinds Hmax Hfresh Hnone.
  destruct (create_then_join sch settings w Hdefault Hblinds Hmax Hfresh Hnone)
    as (code & w1 & w2 & hid & jid & Hcreate & Hjoin & _ & Hseats & _).
  exists code, w1, w2. split; [exact Hcreate|]. split; [exact Hjoin|].
  now rewrite Hseats.
Qed.

Lemma new_game_seats_first_joiner_at_two_witness :
  exists code w1 w2,
    create_game waiting_schema (blinds_5_10 100 4)
      {| db := table_of (blinds_5_10 100 4) (two_seats 100); rng := rng_zeros |}
    = (Ok (fresh_game_id
             (db {| db := table_of (blinds_5_10 100 4) (two_seats 100);
                    rng := rng_zeros |}), code), w1) /\
    join_game code w1 = (Ok 2, w2) /\
    map (fun r => (s_user_id r, s_seat_number r, s_chip_count r, s_status r))
      (seats_of_game
         (fresh_game_id
            (db {| db := table_of (blinds_5_10 100 4) (two_seats 100);
                   rng := rng_zeros |})) (db w2)) =
      [ (create_host_id, 1, buy_in (blinds_5_10 100 4), Some "playing");
        (join_player_id, 2, buy_in (blinds_5_10 100 4), Some "playing") ].
Proof.
  apply (new_game_seats_first_joiner_at_two waiting_schema (blinds_5_10 100 4)
           {| db := table_of (blinds_5_10 100 4) (two_seats 100);
              rng := rng_zeros |}).
  - reflexivity.
  - cbn. lia.
  - cbn. lia.
  - intros code H. vm_compute in H. injection H as <-. reflexivity.
  - reflexivity.
Defined.

(** Create, join, start: under the same conditions the host's start after
    the first join succeeds, and the game state then holds a pot of
    [small_blind + big_blind], a current bet of [big_blind], and seat 1 or
    seat 2 as dealer. *)
Theorem new_game_starts_after_first_join (sch : Schema)
  (settings : GameSettings) (w : World) :
  default_status sch = "waiting" ->
  small_blind settings <= big_blind settings ->
  2 <= max_players settings ->
  (forall code, fst (generate_game_code 6 w) = Ok code ->
     games_with_code code (db w) = []) ->
  seats_of_game (fresh_game_id (db w)) (db w) = [] ->
  exists code w1 w2 g,
    create_game sch settings w = (Ok (fresh_game_id (db w), code), w1) /\
    join_game code w1 = (Ok 2, w2) /\
    fst (start_game code w2) = Ok "Game started successfully." /\
    state_of_game (fresh_game_id (db w)) (db (snd (start_game code w2)))
      = Some g /\
    pot_size g = small_blind settings + big_blind settings /\
    current_bet g = big_blind settings /\
    (dealer_position g = Some 1 \/ dealer_position g = Some 2).
Proof.
  intros Hdefault Hblinds Hmax Hfresh Hnone.
  destruct (create_then_join sch settings w Hdefault Hblinds Hmax Hfresh Hnone)
    as (code & w1 & w2 & hid & jid & Hcreate & Hjoin & Hgame & Hseats & [g0 Hg0]).
  destruct (start_game_run code w2 _ Hgame) as [Hsnd Hfst];
    cbn [g_host_id g_status g_id g_settings];
    [reflexivity|reflexivity|rewrite Hseats; simpl; lia|].
  cbn [g_id g_settings] in Hsnd, Hfst. rewrite Hseats in Hsnd, Hfst.
  set (players := map player_of_row _) in Hsnd, Hfst.
  set (w3 := {| db := update_game_status (fresh_game_id (db w)) "in_progress"
                        (db w2);
                rng := rng w2 |}) in Hsnd.
  destruct (start_new_hand_state (fresh_game_id (db w)) players settings w3 g0)
    as (dealer & turn & Hdealer & _ & Hstate).
  - discriminate.
  - simpl. lia.
  - discriminate.
  - exact Hg0.
  - exists code, w1, w2. eexists.
    split; [exact Hcreate|]. split; [exact Hjoin|]. split; [exact Hfst|].
    rewrite Hsnd. split; [exact Hstate|]. cbn.
    split; [reflexivity|]. split; [reflexivity|].
    unfold players in Hdealer. clear - Hdealer.
    cbn [map player_of_row seat_number s_seat_number] in Hdealer.
    destruct (dealer_draw _ (rng w3)) as [|[|k]];
      cbn [nth_error] in Hdealer.
    + left. congruence.
    + right. congruence.
    + destruct k; discriminate.
Qed.

Lemma new_game_starts_after_first_join_witness :
  exists code w1 w2 g,
    create_game waiting_schema (blinds_5_10 100 4)
      {| db := table_of (blinds_5_10 100 4) (two_seats 100); rng := rng_zeros |}
    = (Ok (fresh_game_id
             (db {| db := table_of (blinds_5_10 100 4) (two_seats 100);
                    rng := rng_zeros |}), code), w1) /\
    join_game code w1 = (Ok 2, w2) /\
    fst (start_game code w2) = Ok "Game started successfully." /\
    state_of_game
      (fresh_game_id
         (db {| db := table_of (blinds_5_10 100 4) (two_seats 100);
                rng := rng_zeros |}))
      (db (snd (start_game code w2))) = Some g /\
    pot_size g =
      small_blind (blinds_5_10 100 4) + big_blind (blinds_5_10 100 4) /\
    current_bet g = big_blind (blinds_5_10 100 4) /\
    (dealer_position g = Some 1 \/ dealer_position g = Some 2).
Proof.
  apply (new_game_starts_after_first_join waiting_schema (blinds_5_10 100 4)
           {| db := table_of (blinds_5_10 100 4) (two_seats 100);
              rng := rng_zeros |}).
  - reflexivity.
  - cbn. lia.
  - cbn. lia.
  - intros code H. vm_compute in H. injection H as <-. reflexivity.
  - reflexivity.
Defined.

End Lifecycle.

Section CreateInvariants.

Lemma settings_valid_bounds (s : GameSettings) :
  settings_valid s = true ->
  0 < buy_in s /\ 0 < small_blind s /\ 0 < big_blind s /\
  2 <= max_players s <= 8.
Proof.
  unfold settings_valid. rewrite !andb_true_iff.
  intros (((((_ & Hbuy) & Hsb) & Hbb) & Hmin) & Hmax).
  apply Z.ltb_lt in Hbuy, Hsb, Hbb. apply Z.leb_le in Hmin, Hmax. lia.
Qed.

(** [create_game] with a buy-in above zero, as the field constraints
    demand, keeps the seats table sound whatever the other fields hold: seat
    ids stay distinct, seat numbers stay distinct within every game, and no
    seat is below zero, provided no seat row already refers to the id the
    new game receives.  This holds whether the request is accepted or
    refused for its blinds. *)
Theorem create_game_keeps_table_sound (sch : Schema) (settings : GameSettings)
  (w : World) :
  0 < buy_in settings ->
  seats_of_game (fresh_game_id (db w)) (db w) = [] ->
  seats_keyed (db w) ->
  chips_nonneg (db w) ->
  seats_keyed (db (snd (create_game sch settings w))) /\
  chips_nonneg (db (snd (create_game sch settings w))).
Proof.
  intros Hbuy Hnone [Hids Hnums] Hchips.
  destruct (Z.ltb_spec (big_blind settings) (small_blind settings))
    as [Hbad|Hblinds].
  - unfold create_game.
    replace (big_blind settings <? small_blind settings) with true
      by (symmetry; now apply Z.ltb_lt).
    unfold raise. cbn [snd]. split; [now split|exact Hchips].
  - destruct (create_game_run sch settings w Hblinds) as (code & _ & ->).
    cbn [snd db]. split; [split|].
    + unfold insert_seat, with_seats. cbn [seats]. rewrite map_app.
      apply NoDup_added_last; [exact Hids|]. cbn [map s_id].
      intros Hin. apply in_map_iff in Hin as (r & Hr & Hin).
      apply (below_fresh_seat_id (db w)) in Hin.
      unfold fresh_seat_id in Hr, Hin. cbn [seats insert_game_state insert_game] in Hr.
      lia.
    + intros gid. rewrite seats_of_game_insert.
      change (seats_of_game gid
                (insert_game_state sch (fresh_game_id (db w))
                   (insert_game sch (fresh_game_id (db w)) code create_host_id
                      settings (db w))))
        with (seats_of_game gid (db w)).
      destruct (fresh_game_id (db w) =? gid) eqn:E.
      * apply Z.eqb_eq in E. rewrite <- E, Hnone. cbn.
        repeat constructor. intros [].
      * rewrite app_nil_r. apply Hnums.
    + unfold chips_nonneg, insert_seat, with_seats. cbn [seats].
      apply Forall_app. split; [exact Hchips|].
      constructor; [cbn; lia|constructor].
Qed.

Lemma create_game_keeps_table_sound_witness :
  seats_keyed
    (db (snd (create_game waiting_schema (blinds_5_10 100 4)
                {| db := table_of (blinds_5_10 100 4) (two_seats 100);
                   rng := rng_zeros |}))) /\
  chips_nonneg
    (db (snd (create_game waiting_schema (blinds_5_10 100 4)
                {| db := table_of (blinds_5_10 100 4) (two_seats 100);
                   rng := rng_zeros |}))).
Proof.
  apply (create_game_keeps_table_sound waiting_schema (blinds_5_10 100 4)
           {| db := table_of (blinds_5_10 100 4) (two_seats 100);
              rng := rng_zeros |}).
  - reflexivity.
  - reflexivity.
  - split.
    + cbn. repeat constructor; cbn; intuition lia.
    + intros gid. unfold seats_of_game. apply distinct_keys_filter.
      cbn. repeat constructor; cbn; intuition lia.
  - unfold chips_nonneg. cbn. repeat constructor; cbn; lia.
Defined.

End CreateInvariants.

Section UnknownCode.

(** A code that selects no game, or more than one, is refused by
    [join_game] and by [start_game] alike, and nothing is written. *)
Theorem unknown_code_is_refused (code : string) (w : World) :
  List.length (games_with_code code (db w)) <> 1%nat ->
  (exists status_code detail,
     join_game code w = (Raise (HTTPException status_code detail), w)) /\
  (exists status_code detail,
     start_game code w = (Raise (HTTPException status_code detail), w)).
Proof.
  intros Hnot.
  destruct (games_with_code code (db w)) as [|g [|g' rest]] eqn:Hg;
    [|simpl in Hnot; congruence|]; split;
    unfold join_game, start_game, try_except, select_game, bind, query, raise;
    rewrite Hg; eauto.
Qed.

Lemma unknown_code_is_refused_witness :
  (exists status_code detail,
     join_game "NOGAME"
       {| db := table_of (blinds_5_10 100 4) (two_seats 100); rng := rng_zeros |}
     = (Raise (HTTPException status_code detail),
        {| db := table_of (blinds_5_10 100 4) (two_seats 100);
           rng := rng_zeros |})) /\
  (exists status_code detail,
     start_game "NOGAME"
       {| db := table_of (blinds_5_10 100 4) (two_seats 100); rng := rng_zeros |}
     = (Raise (HTTPException status_code detail),
        {| db := table_of (blinds_5_10 100 4) (two_seats 100);
           rng := rng_zeros |})).
Proof.
  apply (unknown_code_is_refused "NOGAME"
           {| db := table_of (blinds_5_10 100 4) (two_seats 100);
              rng := rng_zeros |}).
  cbn. discriminate.
Defined.

End UnknownCode.

End GamesMore.
